(** * ROP and EOQ calculator: the metrics engine of [main.py]

    A shallow embedding of the three computations of [main.py] that carry
    the inventory logic:

    - [calculate_metrics] (lines 27-32), which attaches the columns
      [ROP], [Annual_Demand], [EOQ] and [Total_Cost] to a data frame;
    - [apply_scenario] (lines 40-49), which copies a frame, perturbs the
      demand and lead-time columns and calls [calculate_metrics];
    - the class-wise summary of line 85,
      [groupby("Class")[["ROP","EOQ","Total_Cost"]].sum().reset_index()].

    A pandas frame is a mutable object reached through a reference, so the
    embedding has a heap of frames and the functions are written in a
    state-and-exception monad over it.  Column arithmetic is written once,
    over an interface of number operations, and run at two instances:
    binary64 (the kernel's floats, what numpy computes with) and exact
    real arithmetic with undefined results (what the formulas mean on
    paper).

    The pages around them (lines 51-52 and 64-155) are embedded as
    functions on the session table, a frame with its row labels: the
    chart and summary of "View SKUs", and what "Add SKU", "Update SKU",
    "Delete SKU" and "Upload Data" do to the table. *)

From Stdlib Require Import ZArith Ascii String List Reals Lra Lia Floats.
From stdpp Require Import base option list sorting.

Set Default Proof Using "Type".
Local Open Scope string_scope.
Local Open Scope list_scope.

(** ** Numbers *)

(** The operations the source applies to column entries.  [of_int] is the
    conversion of a Python [int] operand ([365], [2], [3]) to the column's
    number type, [lit_1_2] is the literal [1.2], and [isnan] the test that
    pandas reductions use to skip missing entries.  [fsub] is the
    subtraction of the group sum of line 85, which pandas computes with a
    compensation term. *)
Class Arith (F : Type) := {
  fadd : F -> F -> F;
  fsub : F -> F -> F;
  fmul : F -> F -> F;
  fdiv : F -> F -> F;
  fsqrt : F -> F;
  of_int : Z -> F;
  lit_1_2 : F;
  isnan : F -> bool
}.

(** binary64: numpy's [float64], as the kernel's primitive floats. *)
Definition float_of_Z (z : Z) : float :=
  SF2Prim (binary_normalize prec emax z 0 false).

#[export] Instance binary64 : Arith float := {
  fadd := PrimFloat.add;
  fsub := PrimFloat.sub;
  fmul := PrimFloat.mul;
  fdiv := PrimFloat.div;
  fsqrt := PrimFloat.sqrt;
  of_int := float_of_Z;
  lit_1_2 := 0x1.3333333333333p+0%float;
  isnan := PrimFloat.is_nan
}.

(** Exact arithmetic: a real number, or [None] where the operation has no
    value (a division by zero, the square root of a negative number, or
    an operand that is itself undefined). *)
Definition xreal := option R.

Definition xlift2 (f : R -> R -> R) (x y : xreal) : xreal :=
  match x, y with
  | Some a, Some b => Some (f a b)
  | _, _ => None
  end.

Definition xdiv (x y : xreal) : xreal :=
  match x, y with
  | Some a, Some b => if Req_dec_T b 0 then None else Some (a / b)%R
  | _, _ => None
  end.

Definition xsqrt (x : xreal) : xreal :=
  match x with
  | Some a => if Rlt_dec a 0 then None else Some (R_sqrt.sqrt a)
  | None => None
  end.

#[export] Instance exact : Arith xreal := {
  fadd := xlift2 Rplus;
  fsub := xlift2 Rminus;
  fmul := xlift2 Rmult;
  fdiv := xdiv;
  fsqrt := xsqrt;
  of_int := fun z => Some (IZR z);
  lit_1_2 := Some (12 / 10)%R;
  isnan := fun x => match x with None => true | Some _ => false end
}.

(** ** Exceptions and the state monad *)

(** [KeyError] and [TypeError] are the Python exceptions the modelled
    lines can raise.  [Stuck] is no exception of the program: it marks
    what Python cannot reach or the model does not cover, and nothing is
    said about the code where it comes out: a dangling reference, the
    arithmetic, the grouping and the reduction of columns that are not
    of the expected kind. *)
Inductive exn :=
  | KeyError (k : string)
  | TypeError
  | Stuck.

Inductive result (A : Type) :=
  | Ok (a : A)
  | Raise (e : exn).
Arguments Ok {A} a.
Arguments Raise {A} e.

(** A computation on a mutable state [S]: the state survives an
    exception, as a Python object keeps the assignments made before a
    statement raised. *)
Definition ST (S A : Type) : Type := S -> S * result A.

#[export] Instance st_ret {S} : MRet (ST S) := fun A a s => (s, Ok a).
#[export] Instance st_bind {S} : MBind (ST S) := fun A B f m s =>
  match m s with
  | (s', Ok a) => f a s'
  | (s', Raise e) => (s', Raise e)
  end.

Definition lift {S A} (r : result A) : ST S A := fun s => (s, r).

#[export] Instance result_bind : MBind result := fun A B f r =>
  match r with
  | Ok a => f a
  | Raise e => Raise e
  end.

(** ** Grouping keys *)

(** The entries of [xs] in the rows whose key is [k], in row order. *)
Fixpoint select {A} (k : string) (keys : list string) (xs : list A) : list A :=
  match keys, xs with
  | k' :: keys', x :: xs' =>
      if String.eqb k k' then x :: select k keys' xs' else select k keys' xs'
  | _, _ => []
  end.

(** [groupby] sorts the distinct keys (code-point order of Python
    strings). *)
Definition string_le (a b : string) : Prop := String.leb a b = true.

#[export] Instance string_le_dec : RelDecision string_le.
Proof. intros a b. unfold string_le. apply bool_eq_dec. Defined.

#[export] Instance string_eq_dec : EqDecision string := String.string_dec.

Definition group_keys (cs : list string) : list string :=
  merge_sort string_le (remove_dups cs).

(** ** Series and data frames *)

Section Frames.
Context {F : Type} `{Arith F}.

(** A column: [float64] data or Python strings ([object] dtype).  A
    column of integers is read as the [float64] column of the same
    values: below 2^53 the sums and products of lines 28-31 are the
    same numbers in both, and every other operation of those lines
    converts to [float64]. *)
Inductive Series :=
  | NumS (xs : list F)
  | StrS (xs : list string).

(** A frame is its columns in display order; every column of a frame has
    the frame's number of rows. *)
Definition DataFrame := list (string * Series).

(** [df[k]] on the right of an assignment. *)
Fixpoint column (k : string) (d : DataFrame) : option Series :=
  match d with
  | [] => None
  | (k', s) :: d' => if String.eqb k k' then Some s else column k d'
  end.

(** [df[k] = s]: an existing column is replaced where it stands, a new one
    is appended after the last. *)
Fixpoint assign (k : string) (s : Series) (d : DataFrame) : DataFrame :=
  match d with
  | [] => [(k, s)]
  | (k', s') :: d' =>
      if String.eqb k k' then (k', s) :: d' else (k', s') :: assign k s d'
  end.

(** Element-wise arithmetic of two columns of one frame, and of a column
    and a scalar.  Arithmetic on a column of strings is not modelled:
    depending on the other operand Python repeats the strings (a string
    times an [int]), concatenates them (a string plus a string) or
    raises [TypeError]. *)
Definition binop (f : F -> F -> F) (a b : Series) : result Series :=
  match a, b with
  | NumS xs, NumS ys => Ok (NumS (zip_with f xs ys))
  | _, _ => Raise Stuck
  end.

Definition unop (f : F -> F) (a : Series) : result Series :=
  match a with
  | NumS xs => Ok (NumS (f <$> xs))
  | StrS _ => Raise Stuck
  end.

Definition s_add := binop fadd.
Definition s_mul := binop fmul.
Definition s_div := binop fdiv.
Definition s_add_int (a : Series) (n : Z) := unop (fun x => fadd x (of_int n)) a.
Definition s_div_int (a : Series) (n : Z) := unop (fun x => fdiv x (of_int n)) a.
Definition int_mul_s (n : Z) (a : Series) := unop (fun x => fmul (of_int n) x) a.
Definition s_mul_lit (a : Series) (c : F) := unop (fun x => fmul x c) a.
Definition np_sqrt := unop fsqrt.

(** ** Method bodies: computations on the frame [df] refers to *)

Notation "'Obj'" := (ST DataFrame).

Definition getitem (k : string) : Obj Series := fun d =>
  match column k d with
  | Some s => (d, Ok s)
  | None => (d, Raise (KeyError k))
  end.

Definition setitem (k : string) (s : Series) : Obj unit := fun d =>
  (assign k s d, Ok tt).

(** Lines 28-31. Operands are evaluated left to right, as Python does. *)
Definition calculate_metrics_body : Obj unit :=
  (a ← getitem "Average_Daily_Demand";
   l ← getitem "Lead_Time_Days";
   al ← lift (s_mul a l);
   s ← getitem "Safety_Stock";
   rop ← lift (s_add al s);
   setitem "ROP" rop) ;;
  (a ← getitem "Average_Daily_Demand";
   ad ← lift (s_mul_lit a (of_int 365));
   setitem "Annual_Demand" ad) ;;
  (ad ← getitem "Annual_Demand";
   ad2 ← lift (int_mul_s 2 ad);
   oc ← getitem "Order_Cost";
   num ← lift (s_mul ad2 oc);
   hc ← getitem "Holding_Cost";
   q ← lift (s_div num hc);
   eoq ← lift (np_sqrt q);
   setitem "EOQ" eoq) ;;
  (eoq ← getitem "EOQ";
   half ← lift (s_div_int eoq 2);
   hc ← getitem "Holding_Cost";
   hold ← lift (s_mul half hc);
   ad ← getitem "Annual_Demand";
   eoq' ← getitem "EOQ";
   n ← lift (s_div ad eoq');
   oc ← getitem "Order_Cost";
   ord ← lift (s_mul n oc);
   tc ← lift (s_add hold ord);
   setitem "Total_Cost" tc).

(** Lines 43 and 45 (and 47, 48). *)
Definition high_demand : Obj unit :=
  a ← getitem "Average_Daily_Demand";
  a' ← lift (s_mul_lit a lit_1_2);
  setitem "Average_Daily_Demand" a'.

Definition supply_delay : Obj unit :=
  l ← getitem "Lead_Time_Days";
  l' ← lift (s_add_int l 3);
  setitem "Lead_Time_Days" l'.

(** ** The heap of frames *)

Definition loc := nat.
Definition heap := list DataFrame.
#[local] Typeclasses Transparent loc heap.
Notation "'M'" := (ST heap).

(** Run a method body on the object behind a reference, in place. *)
Definition on {A} (l : loc) (m : Obj A) : M A := fun h =>
  match h !! l with
  | Some d => let '(d', r) := m d in (<[l := d']> h, r)
  | None => (h, Raise Stuck)
  end.

(** [df.copy()]: a new object with the same columns. *)
Definition copy (l : loc) : M loc := fun h =>
  match h !! l with
  | Some d => (h ++ [d], Ok (length h))
  | None => (h, Raise Stuck)
  end.

(** Lines 27-32: the columns are attached to the object passed in, and
    the same reference is returned. *)
Definition calculate_metrics (df : loc) : M loc :=
  on df calculate_metrics_body ;; mret df.

(** Lines 40-49. *)
Definition apply_scenario (df : loc) (scenario : string) : M loc :=
  df ← copy df;
  (if String.eqb scenario "High Demand (+20%)" then
     on df high_demand
   else if String.eqb scenario "Supply Delay (+3 days)" then
     on df supply_delay
   else if String.eqb scenario "High Demand + Supply Delay" then
     on df high_demand ;; on df supply_delay
   else mret tt) ;;
  calculate_metrics df.

(** ** The class-wise summary (line 85) *)

(** The group reduction [sum] with pandas's defaults, as its kernel
    [group_sum] computes it for one group and one column: a running sum
    [sumx] with a compensation term (Kahan's summation), both zero at
    the start; the entries are taken in row order and a NaN entry is
    skipped.  One entry [val] makes

      y = val - compensation;  t = sumx + y;
      compensation = t - sumx - y;  sumx = t

    and a compensation that comes out NaN (an infinite entry) is set
    back to zero. *)
Definition group_sum_step (acc : F * F) (val : F) : F * F :=
  let '(sumx, compensation) := acc in
  if isnan val then acc
  else
    let y := fsub val compensation in
    let t := fadd sumx y in
    let c := fsub (fsub t sumx) y in
    (t, if isnan c then of_int 0 else c).

Definition nansum (xs : list F) : F :=
  (fold_left group_sum_step xs (of_int 0, of_int 0)).1.

Definition sum_by (keys cs : list string) (xs : list F) : list F :=
  (fun k => nansum (select k cs xs)) <$> keys.

Definition group_sum (keys cs : list string) (s : Series) : result Series :=
  match s with
  | NumS xs => Ok (NumS (sum_by keys cs xs))
  | StrS _ => Raise Stuck
  end.

Definition need (k : string) (d : DataFrame) : result Series :=
  match column k d with
  | Some s => Ok s
  | None => Raise (KeyError k)
  end.

Definition class_summary (df_scenario : DataFrame) : result DataFrame :=
  c ← need "Class" df_scenario;
  match c with
  | NumS _ => Raise Stuck
  | StrS cs =>
      rop ← need "ROP" df_scenario;
      eoq ← need "EOQ" df_scenario;
      tc ← need "Total_Cost" df_scenario;
      let keys := group_keys cs in
      srop ← group_sum keys cs rop;
      seoq ← group_sum keys cs eoq;
      stc ← group_sum keys cs tc;
      Ok [("Class", StrS keys); ("ROP", srop); ("EOQ", seoq);
          ("Total_Cost", stc)]
  end.

(** ** Rows *)

(** The record view of a frame: row [i] of the five base columns, and of
    the four derived ones. *)
Record Base := {
  avg_daily_demand : F;
  lead_time_days : F;
  safety_stock : F;
  order_cost : F;
  holding_cost : F
}.

Record Derived := {
  rop : F;
  annual_demand : F;
  eoq : F;
  total_cost : F
}.

Definition num_at (k : string) (d : DataFrame) (i : nat) : option F :=
  match column k d with
  | Some (NumS xs) => xs !! i
  | _ => None
  end.

Definition str_at (k : string) (d : DataFrame) (i : nat) : option string :=
  match column k d with
  | Some (StrS xs) => xs !! i
  | _ => None
  end.

Definition base_row (d : DataFrame) (i : nat) : option Base :=
  a ← num_at "Average_Daily_Demand" d i;
  l ← num_at "Lead_Time_Days" d i;
  s ← num_at "Safety_Stock" d i;
  oc ← num_at "Order_Cost" d i;
  hc ← num_at "Holding_Cost" d i;
  Some {| avg_daily_demand := a; lead_time_days := l; safety_stock := s;
          order_cost := oc; holding_cost := hc |}.

Definition derived_row (d : DataFrame) (i : nat) : option Derived :=
  r ← num_at "ROP" d i;
  ad ← num_at "Annual_Demand" d i;
  e ← num_at "EOQ" d i;
  tc ← num_at "Total_Cost" d i;
  Some {| rop := r; annual_demand := ad; eoq := e; total_cost := tc |}.

(** The derived fields as the specification writes them, from one
    record's base fields. *)
Definition spec_rop (b : Base) : F :=
  fadd (fmul (avg_daily_demand b) (lead_time_days b)) (safety_stock b).

Definition spec_annual_demand (b : Base) : F :=
  fmul (avg_daily_demand b) (of_int 365).

Definition radicand (b : Base) : F :=
  fdiv (fmul (fmul (of_int 2) (spec_annual_demand b)) (order_cost b))
       (holding_cost b).

Definition spec_eoq (b : Base) : F := fsqrt (radicand b).

Definition spec_total_cost (b : Base) : F :=
  fadd (fmul (fdiv (spec_eoq b) (of_int 2)) (holding_cost b))
       (fmul (fdiv (spec_annual_demand b) (spec_eoq b)) (order_cost b)).

Definition spec_metrics (b : Base) : Derived :=
  {| rop := spec_rop b; annual_demand := spec_annual_demand b;
     eoq := spec_eoq b; total_cost := spec_total_cost b |}.

(** The base fields of a record under each perturbation. *)
Definition demand_up (b : Base) : Base :=
  {| avg_daily_demand := fmul (avg_daily_demand b) lit_1_2;
     lead_time_days := lead_time_days b; safety_stock := safety_stock b;
     order_cost := order_cost b; holding_cost := holding_cost b |}.

Definition delay_up (b : Base) : Base :=
  {| avg_daily_demand := avg_daily_demand b;
     lead_time_days := fadd (lead_time_days b) (of_int 3);
     safety_stock := safety_stock b;
     order_cost := order_cost b; holding_cost := holding_cost b |}.

(** Number of rows of a numeric column, and the frames whose five base
    columns are numeric with [n] rows. *)
Definition num_len (k : string) (d : DataFrame) : option nat :=
  match column k d with
  | Some (NumS xs) => Some (length xs)
  | _ => None
  end.

Definition base_columns : list string :=
  ["Average_Daily_Demand"; "Lead_Time_Days"; "Safety_Stock"; "Order_Cost";
   "Holding_Cost"].

Definition derived_columns : list string :=
  ["ROP"; "Annual_Demand"; "EOQ"; "Total_Cost"].

Definition has_base (d : DataFrame) (n : nat) : Prop :=
  Forall (fun k => num_len k d = Some n) base_columns.

(** ** Notions the properties are stated with *)

(** [writes ks m]: whatever [m] does to the frame, and whether or not it
    raises, every column outside [ks] is afterwards what it was. *)
Definition writes {A} (ks : list string) (m : ST DataFrame A) : Prop :=
  forall d k, k ∉ ks -> column k (m d).1 = column k d.

(** The four columns [calculate_metrics] computes from the five base
    columns, in the order of lines 28-31. *)
Definition rop_column (a l s : list F) : list F :=
  zip_with fadd (zip_with fmul a l) s.

Definition annual_demand_column (a : list F) : list F :=
  (fun x => fmul x (of_int 365)) <$> a.

Definition eoq_column (a oc hc : list F) : list F :=
  fsqrt <$>
    zip_with fdiv
      (zip_with fmul ((fun x => fmul (of_int 2) x) <$> annual_demand_column a)
         oc)
      hc.

Definition total_cost_column (a oc hc : list F) : list F :=
  zip_with fadd
    (zip_with fmul ((fun x => fdiv x (of_int 2)) <$> eoq_column a oc hc) hc)
    (zip_with fmul
       (zip_with fdiv (annual_demand_column a) (eoq_column a oc hc)) oc).

Definition with_metrics (a l s oc hc : list F) (d : DataFrame) : DataFrame :=
  assign "Total_Cost" (NumS (total_cost_column a oc hc))
    (assign "EOQ" (NumS (eoq_column a oc hc))
       (assign "Annual_Demand" (NumS (annual_demand_column a))
          (assign "ROP" (NumS (rop_column a l s)) d))).

(** The reference a function hands back when its body did not raise. *)
Definition as_ref {A} (l : loc) (r : result A) : result loc :=
  match r with
  | Ok _ => Ok l
  | Raise e => Raise e
  end.

(** What [apply_scenario] does to its copy, as one computation on that
    frame: the branch of lines 42-48, then lines 28-31. *)
Definition perturbation (scenario : string) : ST DataFrame unit :=
  if String.eqb scenario "High Demand (+20%)" then high_demand
  else if String.eqb scenario "Supply Delay (+3 days)" then supply_delay
  else if String.eqb scenario "High Demand + Supply Delay" then
    high_demand ;; supply_delay
  else mret tt.

Definition scenario_body (scenario : string) : ST DataFrame unit :=
  perturbation scenario ;; calculate_metrics_body.

(** The frame behind the reference a call returned. *)
Definition returned (x : heap * result loc) : option DataFrame :=
  match x with
  | (h, Ok l) => h !! l
  | (_, Raise _) => None
  end.

(** Line 159: [calculate_metrics(st.session_state.data.copy())]. *)
Definition download_frame (data : loc) : ST heap loc :=
  df ← copy data; calculate_metrics df.

(** [apply_scenario df scenario] on [h], where [df] refers to [d], returns
    a new frame whose base rows are [f] of the base rows of [d], with the
    derived fields of those perturbed rows. *)
Definition scenario_yields (h : heap) (df : loc) (scenario : string)
    (f : Base -> Base) (d : DataFrame) : Prop :=
  exists d',
    apply_scenario df scenario h = (h ++ [d'], Ok (length h)) /\
    forall i b, base_row d i = Some b ->
      base_row d' i = Some (f b) /\
      derived_row d' i = Some (spec_metrics (f b)).

End Frames.

(** ** Concrete frames, and the classes of a float *)

(** Lines 14-22: the data set the session starts with. *)
Definition session_data : @DataFrame float :=
  [("SKU", StrS ["A 101"; "B 101"]);
   ("Class", StrS ["A"; "B"]);
   ("Average_Daily_Demand", NumS [50; 30]%float);
   ("Lead_Time_Days", NumS [10; 5]%float);
   ("Safety_Stock", NumS [100; 50]%float);
   ("Order_Cost", NumS [200; 150]%float);
   ("Holding_Cost", NumS [2; 1.5]%float)].

(** The record of the specification's worked example. *)
Definition sku_a101 : @DataFrame float :=
  [("SKU", StrS ["A 101"]);
   ("Class", StrS ["A"]);
   ("Average_Daily_Demand", NumS [50]%float);
   ("Lead_Time_Days", NumS [10]%float);
   ("Safety_Stock", NumS [100]%float);
   ("Order_Cost", NumS [200]%float);
   ("Holding_Cost", NumS [2]%float)].

(** The same record with a holding cost of zero, and with no demand. *)
Definition sku_free_holding : @DataFrame float :=
  assign "Holding_Cost" (NumS [0]%float) sku_a101.

Definition sku_no_demand : @DataFrame float :=
  assign "Average_Daily_Demand" (NumS [0]%float) sku_a101.

(** [lo / 10^digits <= x < hi / 10^digits], decided on the exact value
    [m * 2^e] of a finite float. *)
Definition in_decimal_range (lo hi digits : Z) (x : float) : bool :=
  match Prim2SF x with
  | S754_finite s m e =>
      let v := if s then Z.neg m else Z.pos m in
      let num := if (0 <=? e)%Z then (v * 2 ^ e)%Z else v in
      let den := if (0 <=? e)%Z then 1%Z else (2 ^ (- e))%Z in
      ((lo * den <=? num * 10 ^ digits)%Z && (num * 10 ^ digits <? hi * den)%Z)%bool
  | S754_zero _ => ((lo <=? 0)%Z && (0 <? hi)%Z)%bool
  | _ => false
  end.

(** The class of a float, read off its specification. *)
Definition sf_nan (f : spec_float) : bool :=
  match f with S754_nan => true | _ => false end.

Definition sf_nonfinite (f : spec_float) : bool :=
  match f with S754_nan | S754_infinity _ => true | _ => false end.

(** The worked example's record over the reals, and the same record with
    no demand. *)
Definition xsku (a : R) : @DataFrame xreal :=
  [("SKU", StrS ["A 101"]);
   ("Class", StrS ["A"]);
   ("Average_Daily_Demand", NumS [Some a]);
   ("Lead_Time_Days", NumS [Some 10%R]);
   ("Safety_Stock", NumS [Some 100%R]);
   ("Order_Cost", NumS [Some 200%R]);
   ("Holding_Cost", NumS [Some 2%R])].

(** A scenario frame with a class of three records, whose total costs
    are the floats nearest to 0.1, 0.2 and 0.3. *)
Definition sku_groups : @DataFrame float :=
  [("Class", StrS ["B"; "A"; "B"; "B"]);
   ("ROP", NumS [600; 200; 50; 25]%float);
   ("EOQ", NumS [1900; 1400; 30; 70]%float);
   ("Total_Cost",
    NumS [0x1.999999999999ap-4; 7; 0x1.999999999999ap-3;
          0x1.3333333333333p-2]%float)].

Definition xbase (a l s oc hc : R) : @Base xreal :=
  {| avg_daily_demand := Some a; lead_time_days := Some l;
     safety_stock := Some s; order_cost := Some oc; holding_cost := Some hc |}.

(** ** Frames whose base columns are numeric where they exist *)

Section Kinds.
Context {F : Type} `{Arith F}.

(** No base column of the frame is a column of strings: each one is
    numeric, or the frame does not have it. *)
Definition base_numeric_or_missing (d : @DataFrame F) : Prop :=
  Forall (fun k => match column k d with
                   | Some (StrS _) => False
                   | _ => True
                   end) base_columns.

End Kinds.

(** ** SKU labels (lines 51-52 and 113) *)

(** Line 52: the f-string [f'{sku_class} {sku_number}']. *)
Definition generate_sku_label (sku_class sku_number : string) : string :=
  sku_class ++ " " ++ sku_number.

(** [s.split(" ")]: the pieces of [s] between its spaces, one more than
    it has spaces. *)
Fixpoint split_space (s : string) : list string :=
  match s with
  | EmptyString => [EmptyString]
  | String c rest =>
      if Ascii.eqb c " "%char then EmptyString :: split_space rest
      else match split_space rest with
           | piece :: pieces => String c piece :: pieces
           | [] => [String c EmptyString]
           end
  end.

(** The exceptions of the pages: those of the frame operations, and
    Python's [IndexError], [ValueError] and [KeyError] on a row label. *)
Inductive page_exn :=
  | FrameError (e : exn)
  | IndexError
  | ValueError
  | LabelKeyError (i : nat).

Inductive outcome (A : Type) :=
  | Done (a : A)
  | Fail (e : page_exn).
Arguments Done {A} a.
Arguments Fail {A} e.

#[export] Instance outcome_bind : MBind outcome := fun A B f r =>
  match r with
  | Done a => f a
  | Fail e => Fail e
  end.

Definition of_result {A} (r : result A) : outcome A :=
  match r with
  | Ok a => Done a
  | Raise e => Fail (FrameError e)
  end.

(** Line 113: [label.split(" ")[1]]. *)
Definition label_number (label : string) : outcome string :=
  match split_space label with
  | _ :: number :: _ => Done number
  | _ => Fail IndexError
  end.

Definition has_space (s : string) : bool :=
  existsb (fun c => Ascii.eqb c " "%char) (list_ascii_of_string s).

(** ** Totals *)

(** The sum of a list of reals, and the entries of a column of exact
    arithmetic that have a value. *)
Definition rsum (xs : list R) : R := fold_right Rplus 0%R xs.

Definition defined (xs : list xreal) : list R := omap (fun x => x) xs.

(** ** The session table and its pages *)

(** [mask] selection of the rows of a column: [xs[mask]]. *)
Fixpoint keep {A} (mask : list bool) (xs : list A) : list A :=
  match mask, xs with
  | b :: mask', x :: xs' => if b then x :: keep mask' xs' else keep mask' xs'
  | _, _ => []
  end.

(** How many rows a mask keeps, and where row [p] goes: behind the rows
    kept before it. *)
Fixpoint kept (mask : list bool) : nat :=
  match mask with
  | [] => 0
  | b :: mask' => (if b then 1 else 0) + kept mask'
  end.

Definition rank (mask : list bool) (p : nat) : nat := kept (take p mask).

(** The position of the first row whose label is [i]. *)
Fixpoint position (i : nat) (idx : list nat) : option nat :=
  match idx with
  | [] => None
  | j :: idx' =>
      if Nat.eqb j i then Some 0
      else match position i idx' with Some p => Some (S p) | None => None end
  end.

(** The mask of line 136: [data["SKU"] != selected]. *)
Definition other_than (selected : string) (skus : list string) : list bool :=
  (fun sku => negb (String.eqb sku selected)) <$> skus.

(** The columns [apply_scenario] may write: the two it perturbs and the
    four [calculate_metrics] computes. *)
Definition scenario_columns : list string :=
  "Average_Daily_Demand" :: "Lead_Time_Days" :: @derived_columns.

Section Session.
Context {F : Type} `{Arith F}.

(** The frame kept in [st.session_state.data], with the row labels (the
    index) that pandas keeps beside the columns.  Row labels are
    integers here: the session starts with labels 0 and 1, a file is
    read with labels 0, 1, 2, ..., and no page sets another kind.  The
    columns hold their entries by position; where the code names a row
    by its label, the position of that label is looked up. *)
Record Table := {
  index : list nat;
  frame : @DataFrame F
}.

(** [RangeIndex(n)]. *)
Definition range_index (n : nat) : list nat := seq 0 n.

Definition rows (v : @Series F) : nat :=
  match v with NumS xs => length xs | StrS xs => length xs end.

(** Every column has one entry per row label. *)
Definition table_ok (t : Table) : Prop :=
  Forall (fun kv => rows kv.2 = length (index t)) (frame t).

Definition columns (d : @DataFrame F) : list string := fst <$> d.

(** One entry of a column, and the entry of column [k] in the row at
    position [p]. *)
Inductive cell :=
  | CNum (x : F)
  | CStr (s : string).

Definition entry (v : @Series F) (p : nat) : option cell :=
  match v with
  | NumS xs => CNum <$> xs !! p
  | StrS xs => CStr <$> xs !! p
  end.

Definition cell_at (k : string) (d : @DataFrame F) (p : nat) : option cell :=
  match column k d with
  | Some (NumS xs) => CNum <$> xs !! p
  | Some (StrS xs) => CStr <$> xs !! p
  | None => None
  end.

Definition keep_series (mask : list bool) (v : @Series F) : @Series F :=
  match v with
  | NumS xs => NumS (keep mask xs)
  | StrS xs => StrS (keep mask xs)
  end.

Definition keep_rows (mask : list bool) (d : @DataFrame F) : @DataFrame F :=
  (fun kv => (kv.1, keep_series mask kv.2)) <$> d.

(** Line 136: [data[data["SKU"] != selected]].  The rows that stay keep
    their labels.  (A numeric [SKU] column is not modelled.) *)
Definition delete_sku (selected : string) (t : Table) : outcome Table :=
  match column "SKU" (frame t) with
  | None => Fail (FrameError (KeyError "SKU"))
  | Some (NumS _) => Fail (FrameError Stuck)
  | Some (StrS skus) =>
      let mask := other_than selected skus in
      Done {| index := keep mask (index t); frame := keep_rows mask (frame t) |}
  end.

(** [series[i]] on a column whose row labels are integers: the entry of
    the row labelled [i], and a [KeyError] when no row has that label. *)
Definition at_label (idx : list nat) (xs : list F) (i : nat) : outcome F :=
  match position i idx with
  | Some p =>
      match xs !! p with
      | Some x => Done x
      | None => Fail (FrameError Stuck)
      end
  | None => Fail (LabelKeyError i)
  end.

(** Lines 76-77: the loop over [enumerate(df_scenario["SKU"])], from
    count [i] on.  Each turn places the text [sku] at
    [(df_scenario["ROP"][i] + 5, df_scenario["EOQ"][i])]. *)
Fixpoint chart_texts (idx : list nat) (rops eoqs : list F) (i : nat)
    (skus : list string) : outcome (list (F * F * string)) :=
  match skus with
  | [] => Done []
  | sku :: skus' =>
      x ← at_label idx rops i;
      y ← at_label idx eoqs i;
      texts ← chart_texts idx rops eoqs (S i) skus';
      Done ((fadd x (of_int 5), y, sku) :: texts)
  end.

(** Lines 75-77: the columns the scatter plot reads, then the loop. *)
Definition chart (idx : list nat) (df_scenario : @DataFrame F)
    : outcome (list (F * F * string)) :=
  rop ← of_result (need "ROP" df_scenario);
  eoq ← of_result (need "EOQ" df_scenario);
  sku ← of_result (need "SKU" df_scenario);
  match rop, eoq, sku with
  | NumS rops, NumS eoqs, StrS skus => chart_texts idx rops eoqs 0 skus
  | _, _, _ => Fail (FrameError Stuck)
  end.

(** Lines 69-86, the page "View SKUs": the scenario frame (a copy made
    by [apply_scenario], so with the row labels of the session table),
    the texts of the chart and the class-wise summary. *)
Definition view (scenario : string) (t : Table)
    : outcome (list (F * F * string) * @DataFrame F) :=
  let df_scenario := (scenario_body scenario (frame t)).1 in
  of_result (scenario_body scenario (frame t)).2 ;;
  texts ← chart (index t) df_scenario;
  summary ← of_result (class_summary df_scenario);
  Done (texts, summary).

(** A row given as a list of values is matched with the columns by
    position.  A number stored in a column of strings, or a string in a
    column of numbers, would change the column's dtype: that is not
    modelled. *)
Fixpoint with_row (f : @Series F -> cell -> result (@Series F))
    (d : @DataFrame F) (row : list cell) : result (@DataFrame F) :=
  match d, row with
  | [], [] => Ok []
  | (k, v) :: d', c :: row' =>
      v' ← f v c; d'' ← with_row f d' row'; Ok ((k, v') :: d'')
  | _, _ => Raise Stuck
  end.

Definition append_cell (v : @Series F) (c : cell) : result (@Series F) :=
  match v, c with
  | NumS xs, CNum x => Ok (NumS (xs ++ [x]))
  | StrS xs, CStr s => Ok (StrS (xs ++ [s]))
  | _, _ => Raise Stuck
  end.

(** One value of line 127 written into its column, at position [p].
    Whether a numeric column takes a number as it is depends on the
    column's dtype, which the frames here do not record: an [int64]
    column takes 30.0 in every version of pandas, while 30.5 makes
    pandas 3 raise [TypeError] and earlier versions turn the column
    into [float64] and store it.  So the answer for a column and a
    number is an argument, [takes], of the write. *)
Definition write_cell (takes : string -> F -> bool) (p : nat) (k : string)
    (v : @Series F) (c : cell) : result (@Series F) :=
  match v, c with
  | NumS xs, CNum x =>
      if takes k x then Ok (NumS (<[p := x]> xs)) else Raise TypeError
  | StrS xs, CStr s => Ok (StrS (<[p := s]> xs))
  | _, _ => Raise Stuck
  end.

(** Line 127, [data.loc[idx] = row]: the values are written one column
    after the other, in column order; when one is refused, those before
    it stay written and the rest of the row is as it was. *)
Fixpoint write_row (takes : string -> F -> bool) (p : nat)
    (d : @DataFrame F) (row : list cell) : @DataFrame F * result unit :=
  match d, row with
  | [], [] => ([], Ok tt)
  | (k, v) :: d', c :: row' =>
      match write_cell takes p k v c with
      | Ok v' =>
          let rest := write_row takes p d' row' in
          ((k, v') :: rest.1, rest.2)
      | Raise e => (d, Raise e)
      end
  | _, _ => (d, Raise Stuck)
  end.

(** The list of lines 100 and 127. *)
Definition sku_row (sku_label sku_class : string)
    (demand lead safety order_cost holding_cost : F) : list cell :=
  [CStr sku_label; CStr sku_class; CNum demand; CNum lead; CNum safety;
   CNum order_cost; CNum holding_cost].

(** Lines 98-102, the button "Add SKU": a one-row frame with the columns
    of the session table ([ValueError] unless there are seven of them),
    appended with [ignore_index=True]. *)
Definition add_sku (sku_class sku_number : string)
    (demand lead safety order_cost holding_cost : F) (t : Table)
    : outcome Table :=
  let sku_label := generate_sku_label sku_class sku_number in
  let new_row :=
    sku_row sku_label sku_class demand lead safety order_cost holding_cost in
  if Nat.eqb (length (frame t)) 7 then
    d ← of_result (with_row append_cell (frame t) new_row);
    Done {| index := range_index (S (length (index t))); frame := d |}
  else Fail ValueError.

(** Lines 143-155, a file read into [uploaded_df]: it replaces the
    session table when it has every column of the session table, and is
    turned down otherwise. *)
Definition upload (uploaded_df t : Table) : Table * bool :=
  let required_cols := columns (frame t) in
  if forallb (fun col => bool_decide (col ∈ columns (frame uploaded_df)))
       required_cols
  then (uploaded_df, true)
  else (t, false).

(** Line 111: the position of the first row whose SKU is [selected]. *)
Fixpoint first_match (selected : string) (skus : list string) : option nat :=
  match skus with
  | [] => None
  | sku :: skus' =>
      if String.eqb sku selected then Some 0
      else match first_match selected skus' with
           | Some p => Some (S p)
           | None => None
           end
  end.

(** Line 116: [["A","B","C","D"].index(current_class)]. *)
Fixpoint list_index (x : string) (l : list string) : outcome nat :=
  match l with
  | [] => Fail ValueError
  | y :: l' =>
      if String.eqb x y then Done 0
      else match list_index x l' with
           | Done i => Done (S i)
           | Fail e => Fail e
           end
  end.

(** [float(data.loc[idx, k])] for the row at position [p].  (The
    conversion of a string is not modelled.) *)
Definition float_at (k : string) (p : nat) (d : @DataFrame F) : outcome F :=
  v ← of_result (need k d);
  match v with
  | NumS xs => match xs !! p with
               | Some x => Done x
               | None => Fail (FrameError Stuck)
               end
  | StrS _ => Fail (FrameError Stuck)
  end.

(** Lines 111-123, what the page "Update SKU" computes for the selected
    SKU before it shows the form: the position of the row, the place of
    its class in the list of classes, the number read off its label, and
    its five numbers.  [idx] is the label of the first row whose SKU is
    [selected], and [data.loc[idx, k]] the entry of that row when no
    other row has its label. *)
Definition update_form (selected : string) (t : Table)
    : outcome (nat * nat * string * list F) :=
  sku ← of_result (need "SKU" (frame t));
  match sku with
  | NumS _ => Fail (FrameError Stuck)
  | StrS skus =>
      match first_match selected skus with
      | None => Fail IndexError
      | Some p =>
          cls ← of_result (need "Class" (frame t));
          match cls with
          | NumS _ => Fail (FrameError Stuck)
          | StrS cs =>
              match cs !! p with
              | None => Fail (FrameError Stuck)
              | Some current_class =>
                  current_number ← label_number selected;
                  class_pos ← list_index current_class ["A"; "B"; "C"; "D"];
                  demand ← float_at "Average_Daily_Demand" p (frame t);
                  lead ← float_at "Lead_Time_Days" p (frame t);
                  safety ← float_at "Safety_Stock" p (frame t);
                  order_cost ← float_at "Order_Cost" p (frame t);
                  holding_cost ← float_at "Holding_Cost" p (frame t);
                  Done (p, class_pos, current_number,
                        [demand; lead; safety; order_cost; holding_cost])
              end
          end
      end
  end.

(** Lines 110-128 with the button "Update SKU" pressed: nothing happens
    for an empty selection; otherwise the row found by the form is
    overwritten in place ([ValueError] unless the table has seven
    columns).  The code names the row by its label [idx]; with no label
    occurring twice that is the row at the position found.  The table
    is the session's own object: what was written before an exception
    stays in it. *)
Definition update_sku (takes : string -> F -> bool)
    (selected sku_class sku_number : string)
    (demand lead safety order_cost holding_cost : F) (t : Table)
    : Table * outcome unit :=
  if String.eqb selected "" then (t, Done tt)
  else
    match update_form selected t with
    | Fail e => (t, Fail e)
    | Done form =>
        let p := form.1.1.1 in
        let sku_label := generate_sku_label sku_class sku_number in
        let new_row :=
          sku_row sku_label sku_class demand lead safety order_cost
            holding_cost in
        if Nat.eqb (length (frame t)) 7 then
          let written := write_row takes p (frame t) new_row in
          ({| index := index t; frame := written.1 |}, of_result written.2)
        else (t, Fail ValueError)
    end.

(** What a user does on the pages that change the session table:
    lines 98-102, 125-128, 136 and 143-155.  An update comes with what
    the columns take at that moment. *)
Inductive action :=
  | AddSKU (sku_class sku_number : string)
      (demand lead safety order_cost holding_cost : F)
  | UpdateSKU (takes : string -> F -> bool)
      (selected sku_class sku_number : string)
      (demand lead safety order_cost holding_cost : F)
  | DeleteSKU (selected : string)
  | UploadData (uploaded_df : Table).

(** The pages "Add SKU" and "Delete SKU" build a new table and assign it
    to [st.session_state.data] as the last thing they do: when their
    code raises, the session table is as it was.  [Stuck] is no
    exception of the program but the mark of a case that is not
    modelled; it is passed on. *)
Definition stay (t : Table) (r : outcome Table) : outcome Table :=
  match r with
  | Done t' => Done t'
  | Fail (FrameError Stuck) => Fail (FrameError Stuck)
  | Fail _ => Done t
  end.

(** The page "Update SKU" writes into the session table itself: when
    its code raises, the table is what the writes made of it. *)
Definition written (r : Table * outcome unit) : outcome Table :=
  match r.2 with
  | Fail (FrameError Stuck) => Fail (FrameError Stuck)
  | _ => Done r.1
  end.

Definition press (a : action) (t : Table) : outcome Table :=
  match a with
  | AddSKU c n dm l s oc hc => stay t (add_sku c n dm l s oc hc t)
  | UpdateSKU takes sel c n dm l s oc hc =>
      written (update_sku takes sel c n dm l s oc hc t)
  | DeleteSKU sel => stay t (delete_sku sel t)
  | UploadData u => Done (upload u t).1
  end.

(** A session: the table after one action after the other. *)
Fixpoint session (actions : list action) (t : Table) : outcome Table :=
  match actions with
  | [] => Done t
  | a :: actions' => t' ← press a t; session actions' t'
  end.

(** The tables the pages are written for: every column has one entry
    per row label, and no row label occurs twice. *)
Definition well_formed (t : Table) : Prop :=
  table_ok t /\ NoDup (index t).

Definition uploads_well_formed (a : action) : Prop :=
  match a with
  | UploadData u => well_formed u
  | _ => True
  end.

(** The columns the page "View SKUs" reads from the session table. *)
Definition view_columns : list string :=
  "SKU" :: "Class" :: @base_columns.

End Session.

(** ** Concrete tables *)

(** The session at its start (lines 13-22). *)
Definition session_table : @Table float :=
  {| index := range_index 2; frame := session_data |}.

(** A file with one record and no [Holding_Cost] column. *)
Definition sku_no_holding_cost : @DataFrame float :=
  [("SKU", StrS ["A 101"]);
   ("Class", StrS ["A"]);
   ("Average_Daily_Demand", NumS [50]%float);
   ("Lead_Time_Days", NumS [10]%float);
   ("Safety_Stock", NumS [100]%float);
   ("Order_Cost", NumS [200]%float)].

Definition table_no_holding_cost : @Table float :=
  {| index := range_index 1; frame := sku_no_holding_cost |}.

(** A file with the columns of the session and one more, and a label
    with no space in it. *)
Definition table_with_supplier : @Table float :=
  {| index := range_index 1;
     frame := [("Supplier", StrS ["Acme"]);
               ("SKU", StrS ["D7"]);
               ("Class", StrS ["D"]);
               ("Average_Daily_Demand", NumS [5]%float);
               ("Lead_Time_Days", NumS [2]%float);
               ("Safety_Stock", NumS [10]%float);
               ("Order_Cost", NumS [20]%float);
               ("Holding_Cost", NumS [1]%float)] |}.

(** A scenario frame of three records in two classes, in exact
    arithmetic. *)
Definition xthree : @DataFrame xreal :=
  [("Class", StrS ["B"; "A"; "B"]);
   ("ROP", NumS (Some <$> [600; 200; 50]%R));
   ("EOQ", NumS (Some <$> [1900; 1400; 30]%R));
   ("Total_Cost", NumS (Some <$> [3800; 2200; 60]%R))].

(** What the columns of the session's first table take: whole numbers
    in the four [int64] columns, any number in [Holding_Cost]. *)
Definition is_whole (x : float) : bool :=
  match Prim2SF x with
  | S754_zero _ => true
  | S754_finite _ m e => (0 <=? e)%Z || (Z.pos m mod 2 ^ (- e) =? 0)%Z
  | _ => false
  end.

Definition whole_numbers (k : string) (x : float) : bool :=
  String.eqb k "Holding_Cost" || is_whole x.

Definition any_number (k : string) (x : float) : bool := true.

(** Things done in a session, one after the other. *)
Definition busy_session : list (@action float) :=
  [AddSKU "C" "7" 1%float 1%float 1%float 1%float 0.5%float;
   DeleteSKU "A 101";
   UploadData table_no_holding_cost;
   UpdateSKU whole_numbers "B 101" "B" "102" 30.5%float 5%float 50%float
     150%float 1.5%float;
   UploadData table_with_supplier;
   AddSKU "A" "1" 1%float 1%float 1%float 1%float 0.5%float].

(** * Properties *)

(** ** Columns under assignment *)

Section FrameFacts.
Context {F : Type} `{Arith F}.
Implicit Types (d : @DataFrame F) (s : @Series F) (k : string).

Lemma column_assign k k' s d :
  column k (assign k' s d) = if String.eqb k k' then Some s else column k d.
Proof.
  induction d as [|[k1 s1] d IH]; simpl.
  - reflexivity.
  - destruct (String.eqb_spec k' k1) as [->|Hne]; simpl.
    + destruct (String.eqb k k1); reflexivity.
    + rewrite IH. destruct (String.eqb_spec k k1) as [->|Hne'].
      * destruct (String.eqb_spec k1 k') as [->|_]; [contradiction|reflexivity].
      * reflexivity.
Qed.

Lemma column_assign_eq k s d : column k (assign k s d) = Some s.
Proof. rewrite column_assign, String.eqb_refl. reflexivity. Qed.

Lemma column_assign_ne k k' s d :
  k <> k' -> column k (assign k' s d) = column k d.
Proof.
  intros Hne. rewrite column_assign.
  destruct (String.eqb_spec k k'); [contradiction|reflexivity].
Qed.

(** Assigning to two existing columns commutes: neither moves. *)
Lemma assign_comm k1 k2 s1 s2 d :
  k1 <> k2 -> is_Some (column k1 d) -> is_Some (column k2 d) ->
  assign k1 s1 (assign k2 s2 d) = assign k2 s2 (assign k1 s1 d).
Proof.
  intros Hne. induction d as [|[k s] d IH]; simpl; intros H1 H2.
  - destruct H1 as [? [=]].
  - destruct (String.eqb_spec k2 k) as [->|Hk2];
      destruct (String.eqb_spec k1 k) as [->|Hk1]; simpl;
      repeat match goal with
             | |- context [String.eqb ?a ?b] =>
                 destruct (String.eqb_spec a b); try contradiction; subst
             end; try congruence.
    rewrite IH; [reflexivity|assumption..].
Qed.

(** ** What a method body may write *)

Lemma writes_getitem ks k : writes ks (getitem (F:=F) k).
Proof. intros d k' _. unfold getitem. destruct (column k d); reflexivity. Qed.

Lemma writes_lift {A} ks (r : result A) :
  writes ks (lift r : ST (@DataFrame F) A).
Proof. intros d k _. reflexivity. Qed.

Lemma writes_setitem ks k s : k ∈ ks -> writes ks (setitem k s).
Proof.
  intros Hin d k' Hk'. unfold setitem; simpl.
  apply column_assign_ne. intros ->. contradiction.
Qed.

Lemma writes_bind {A B} ks (m : ST (@DataFrame F) A)
    (f : A -> ST (@DataFrame F) B) :
  writes ks m -> (forall a, writes ks (f a)) -> writes ks (m ≫= f).
Proof.
  intros Hm Hf d k Hk. unfold mbind, st_bind.
  specialize (Hm d k Hk). destruct (m d) as [d1 [a|e]]; simpl in *.
  - rewrite (Hf a d1 k Hk). exact Hm.
  - exact Hm.
Qed.

End FrameFacts.

(** ** Running the method bodies *)

Section Runs.
Context {F : Type} `{Arith F}.
Implicit Types (d : @DataFrame F) (h : @heap F) (k : string).

Ltac run_body :=
  cbv [mbind st_bind getitem setitem lift s_add s_mul s_div s_add_int
       s_div_int int_mul_s s_mul_lit np_sqrt binop unop];
  repeat first
    [ rewrite column_assign_eq
    | rewrite column_assign_ne by discriminate
    | match goal with
      | E : column ?k ?d = Some _ |- context [column ?k ?d] => rewrite E
      end ].

Lemma calculate_metrics_body_run d a l s oc hc :
  column "Average_Daily_Demand" d = Some (NumS a) ->
  column "Lead_Time_Days" d = Some (NumS l) ->
  column "Safety_Stock" d = Some (NumS s) ->
  column "Order_Cost" d = Some (NumS oc) ->
  column "Holding_Cost" d = Some (NumS hc) ->
  calculate_metrics_body d = (with_metrics a l s oc hc d, Ok tt).
Proof.
  intros Ha Hl Hs Hoc Hhc. unfold calculate_metrics_body.
  run_body. reflexivity.
Qed.

Lemma high_demand_run d a :
  column "Average_Daily_Demand" d = Some (NumS a) ->
  high_demand d =
    (assign "Average_Daily_Demand" (NumS ((fun x => fmul x lit_1_2) <$> a)) d,
     Ok tt).
Proof. intros Ha. unfold high_demand. run_body. reflexivity. Qed.

Lemma supply_delay_run d l :
  column "Lead_Time_Days" d = Some (NumS l) ->
  supply_delay d =
    (assign "Lead_Time_Days" (NumS ((fun x => fadd x (of_int 3)) <$> l)) d,
     Ok tt).
Proof. intros Hl. unfold supply_delay. run_body. reflexivity. Qed.

(** Whether or not it raises, [calculate_metrics] writes the four
    derived columns and nothing else. *)
Lemma calculate_metrics_body_writes :
  writes derived_columns calculate_metrics_body.
Proof.
  unfold calculate_metrics_body.
  repeat first
    [ apply writes_bind; [|intros ?]
    | apply writes_getitem
    | apply writes_lift
    | apply writes_setitem; unfold derived_columns; repeat constructor ].
Qed.

(** ** Rows of the computed columns *)

Lemma num_len_has_base d n k :
  has_base d n -> k ∈ @base_columns -> 
  exists xs, column k d = Some (NumS xs) /\ length xs = n.
Proof.
  intros Hb Hk. unfold has_base in Hb. rewrite Forall_forall in Hb.
  specialize (Hb k Hk). unfold num_len in Hb.
  destruct (column k d) as [[xs|xs]|]; try discriminate.
  exists xs. split; [reflexivity|congruence].
Qed.

Lemma has_base_columns d n :
  has_base d n ->
  exists a l s oc hc,
    (column "Average_Daily_Demand" d = Some (NumS a) /\
     column "Lead_Time_Days" d = Some (NumS l) /\
     column "Safety_Stock" d = Some (NumS s) /\
     column "Order_Cost" d = Some (NumS oc) /\
     column "Holding_Cost" d = Some (NumS hc)) /\
    (length a = n /\ length l = n /\ length s = n /\ length oc = n /\
     length hc = n).
Proof.
  intros Hb.
  destruct (num_len_has_base d n "Average_Daily_Demand" Hb) as (a & ? & ?);
    [unfold base_columns; repeat constructor|].
  destruct (num_len_has_base d n "Lead_Time_Days" Hb) as (l & ? & ?);
    [unfold base_columns; repeat constructor|].
  destruct (num_len_has_base d n "Safety_Stock" Hb) as (s & ? & ?);
    [unfold base_columns; repeat constructor|].
  destruct (num_len_has_base d n "Order_Cost" Hb) as (oc & ? & ?);
    [unfold base_columns; repeat constructor|].
  destruct (num_len_has_base d n "Holding_Cost" Hb) as (hc & ? & ?);
    [unfold base_columns; repeat constructor|].
  exists a, l, s, oc, hc. auto 10.
Qed.

Lemma num_at_assign k k' xs d i :
  num_at k (assign k' (NumS xs) d) i =
  if String.eqb k k' then xs !! i else num_at k d i.
Proof.
  unfold num_at. rewrite column_assign.
  destruct (String.eqb k k'); reflexivity.
Qed.

Lemma num_len_assign k k' xs d :
  num_len k (assign k' (NumS xs) d) =
  if String.eqb k k' then Some (length xs) else num_len k d.
Proof.
  unfold num_len. rewrite column_assign.
  destruct (String.eqb k k'); reflexivity.
Qed.

Lemma num_at_column k d xs i :
  column k d = Some (NumS xs) -> num_at k d i = xs !! i.
Proof. intros E. unfold num_at. rewrite E. reflexivity. Qed.

(** Row [i] of the computed columns is [spec_metrics] of row [i] of the
    base columns. *)
Lemma with_metrics_rows d a l s oc hc i b :
  column "Average_Daily_Demand" d = Some (NumS a) ->
  column "Lead_Time_Days" d = Some (NumS l) ->
  column "Safety_Stock" d = Some (NumS s) ->
  column "Order_Cost" d = Some (NumS oc) ->
  column "Holding_Cost" d = Some (NumS hc) ->
  base_row d i = Some b ->
  derived_row (with_metrics a l s oc hc d) i = Some (spec_metrics b).
Proof.
  intros Ha Hl Hs Hoc Hhc Hb. unfold base_row in Hb.
  rewrite (num_at_column _ _ _ _ Ha), (num_at_column _ _ _ _ Hl),
    (num_at_column _ _ _ _ Hs), (num_at_column _ _ _ _ Hoc),
    (num_at_column _ _ _ _ Hhc) in Hb.
  destruct (a !! i) as [xa|] eqn:Ea; [|discriminate].
  destruct (l !! i) as [xl|] eqn:El; [|discriminate].
  destruct (s !! i) as [xs|] eqn:Es; [|discriminate].
  destruct (oc !! i) as [xoc|] eqn:Eoc; [|discriminate].
  destruct (hc !! i) as [xhc|] eqn:Ehc; [|discriminate].
  simpl in Hb. injection Hb as <-.
  unfold derived_row, with_metrics. rewrite !num_at_assign. cbn [String.eqb Ascii.eqb Bool.eqb].
  unfold total_cost_column, eoq_column, annual_demand_column, rop_column.
  rewrite ?lookup_zip_with, ?list_lookup_fmap, ?lookup_zip_with,
    ?list_lookup_fmap, ?lookup_zip_with, ?list_lookup_fmap.
  rewrite ?Ea, ?El, ?Es, ?Eoc, ?Ehc. reflexivity.
Qed.

Lemma with_metrics_len d a l s oc hc n k :
  length a = n -> length l = n -> length s = n -> length oc = n ->
  length hc = n -> k ∈ @derived_columns ->
  num_len k (with_metrics a l s oc hc d) = Some n.
Proof.
  intros Ha Hl Hs Hoc Hhc Hk. unfold with_metrics.
  rewrite !num_len_assign.
  unfold total_cost_column, eoq_column, annual_demand_column, rop_column.
  unfold derived_columns in Hk. rewrite !elem_of_cons, elem_of_nil in Hk.
  destruct Hk as [->|[->|[->|[->|[]]]]]; cbn [String.eqb Ascii.eqb Bool.eqb];
    f_equal; rewrite ?length_zip_with, ?length_fmap, ?length_zip_with,
      ?length_fmap, ?length_zip_with, ?length_fmap; lia.
Qed.

(** Columns the base rows are read from. *)
Lemma base_row_ext d d' i :
  (forall k, k ∈ @base_columns -> column k d' = column k d) ->
  base_row d' i = base_row d i.
Proof.
  intros E. unfold base_row, num_at.
  rewrite !E by (unfold base_columns; repeat constructor). reflexivity.
Qed.

Lemma base_derived_disjoint k :
  k ∈ @base_columns -> k ∉ @derived_columns.
Proof.
  unfold base_columns, derived_columns.
  rewrite !elem_of_cons, !elem_of_nil. intros Hk Hd.
  repeat match goal with H : _ \/ _ |- _ => destruct H end;
    subst; try discriminate; contradiction.
Qed.

(** Rows of the perturbed base columns. *)
Lemma base_row_high_demand d a i :
  column "Average_Daily_Demand" d = Some (NumS a) ->
  base_row
    (assign "Average_Daily_Demand" (NumS ((fun x => fmul x lit_1_2) <$> a)) d)
    i = demand_up <$> base_row d i.
Proof.
  intros Ha. unfold base_row. rewrite !num_at_assign.
  cbn [String.eqb Ascii.eqb Bool.eqb].
  rewrite (num_at_column _ _ _ _ Ha), list_lookup_fmap.
  destruct (a !! i); [|reflexivity]. simpl.
  destruct (num_at "Lead_Time_Days" d i); [|reflexivity]. simpl.
  destruct (num_at "Safety_Stock" d i); [|reflexivity]. simpl.
  destruct (num_at "Order_Cost" d i); [|reflexivity]. simpl.
  destruct (num_at "Holding_Cost" d i); reflexivity.
Qed.

Lemma base_row_supply_delay d l i :
  column "Lead_Time_Days" d = Some (NumS l) ->
  base_row
    (assign "Lead_Time_Days" (NumS ((fun x => fadd x (of_int 3)) <$> l)) d) i
  = delay_up <$> base_row d i.
Proof.
  intros Hl. unfold base_row. rewrite !num_at_assign.
  cbn [String.eqb Ascii.eqb Bool.eqb].
  rewrite (num_at_column _ _ _ _ Hl), list_lookup_fmap.
  destruct (num_at "Average_Daily_Demand" d i); [|reflexivity]. simpl.
  destruct (l !! i); [|reflexivity]. simpl.
  destruct (num_at "Safety_Stock" d i); [|reflexivity]. simpl.
  destruct (num_at "Order_Cost" d i); [|reflexivity]. simpl.
  destruct (num_at "Holding_Cost" d i); reflexivity.
Qed.

Lemma has_base_assign d n k xs :
  has_base d n -> length xs = n -> has_base (assign k (NumS xs) d) n.
Proof.
  unfold has_base. rewrite !Forall_forall. intros Hb Hlen k' Hk'.
  rewrite num_len_assign. destruct (String.eqb k' k); [congruence|auto].
Qed.

End Runs.

(** ** Running on the heap *)

Section HeapRuns.
Context {F : Type} `{Arith F}.
Implicit Types (d : @DataFrame F) (h : @heap F) (l df : loc).

Lemma on_run {A} l (m : ST DataFrame A) h d :
  h !! l = Some d -> on l m h = (<[l := (m d).1]> h, (m d).2).
Proof. intros E. unfold on. rewrite E. destruct (m d); reflexivity. Qed.

Lemma on_snoc {A} (m : ST DataFrame A) h d :
  on (length h) m (h ++ [d]) = (h ++ [(m d).1], (m d).2).
Proof.
  rewrite (on_run _ _ _ d) by (apply list_lookup_middle; reflexivity).
  unfold heap, loc. rewrite insert_app_r_alt by lia.
  rewrite Nat.sub_diag. reflexivity.
Qed.

Lemma calculate_metrics_run h df d :
  h !! df = Some d ->
  calculate_metrics df h =
    (<[df := (calculate_metrics_body d).1]> h,
     as_ref df (calculate_metrics_body d).2).
Proof.
  intros E. unfold calculate_metrics, mbind, st_bind.
  rewrite (on_run _ _ _ _ E).
  destruct (calculate_metrics_body d) as [d' [[]|e]]; reflexivity.
Qed.

Lemma calculate_metrics_snoc h d :
  calculate_metrics (length h) (h ++ [d]) =
    (h ++ [(calculate_metrics_body d).1],
     as_ref (length h) (calculate_metrics_body d).2).
Proof.
  rewrite (calculate_metrics_run _ _ d)
    by (apply list_lookup_middle; reflexivity).
  unfold heap, loc. rewrite insert_app_r_alt by lia.
  rewrite Nat.sub_diag. reflexivity.
Qed.

Lemma apply_scenario_run h df scenario d :
  h !! df = Some d ->
  apply_scenario df scenario h =
    (h ++ [(scenario_body scenario d).1],
     as_ref (length h) (scenario_body scenario d).2).
Proof.
  intros E. unfold apply_scenario, scenario_body, perturbation.
  unfold mbind at 1, st_bind at 1. unfold copy. rewrite E.
  destruct (String.eqb scenario "High Demand (+20%)");
    [|destruct (String.eqb scenario "Supply Delay (+3 days)");
      [|destruct (String.eqb scenario "High Demand + Supply Delay")]];
    unfold mbind, st_bind; rewrite ?on_snoc.
  - destruct (high_demand d) as [d1 [[]|e]]; simpl;
      [apply calculate_metrics_snoc|reflexivity].
  - destruct (supply_delay d) as [d1 [[]|e]]; simpl;
      [apply calculate_metrics_snoc|reflexivity].
  - destruct (high_demand d) as [d1 [[]|e]]; simpl; [|reflexivity].
    destruct (supply_delay d1) as [d2 [[]|e]]; simpl;
      [apply calculate_metrics_snoc|reflexivity].
  - simpl. apply calculate_metrics_snoc.
Qed.

Lemma apply_scenario_dangling h df scenario :
  h !! df = None -> apply_scenario df scenario h = (h, Raise Stuck).
Proof.
  intros E. unfold apply_scenario, mbind, st_bind, copy. rewrite E.
  reflexivity.
Qed.

End HeapRuns.

(** ** The claims on any number type *)

Section Claims.
Context {F : Type} `{Arith F}.
Implicit Types (d : @DataFrame F) (h : @heap F) (l df : loc).

Lemma base_rows_exist d n i :
  has_base d n -> i < n -> is_Some (base_row d i).
Proof.
  intros Hb Hi.
  destruct (has_base_columns d n Hb)
    as (a & l & s & oc & hc & (Ha & Hl & Hs & Hoc & Hhc) & (La & Ll & Ls & Loc & Lhc)).
  unfold base_row.
  rewrite (num_at_column _ _ _ _ Ha), (num_at_column _ _ _ _ Hl),
    (num_at_column _ _ _ _ Hs), (num_at_column _ _ _ _ Hoc),
    (num_at_column _ _ _ _ Hhc).
  destruct (lookup_lt_is_Some_2 a i) as [? ->]; [lia|].
  destruct (lookup_lt_is_Some_2 l i) as [? ->]; [lia|].
  destruct (lookup_lt_is_Some_2 s i) as [? ->]; [lia|].
  destruct (lookup_lt_is_Some_2 oc i) as [? ->]; [lia|].
  destruct (lookup_lt_is_Some_2 hc i) as [? ->]; [lia|].
  simpl. eauto.
Qed.

(** What [calculate_metrics_body] does to a frame with numeric base
    columns of [n] rows. *)
Lemma calculate_metrics_body_spec d n :
  has_base d n ->
  exists d',
    calculate_metrics_body d = (d', Ok tt) /\
    (forall k, k ∉ @derived_columns -> column k d' = column k d) /\
    (forall k, k ∈ @derived_columns -> num_len k d' = Some n) /\
    (forall i b, base_row d i = Some b ->
                 derived_row d' i = Some (spec_metrics b)).
Proof.
  intros Hb.
  destruct (has_base_columns d n Hb)
    as (a & l & s & oc & hc & (Ha & Hl & Hs & Hoc & Hhc) & (La & Ll & Ls & Loc & Lhc)).
  pose proof (calculate_metrics_body_run d a l s oc hc Ha Hl Hs Hoc Hhc) as Hrun.
  exists (with_metrics a l s oc hc d). split; [exact Hrun|]. split; [|split].
  - intros k Hk.
    pose proof (calculate_metrics_body_writes d k Hk) as Hw.
    rewrite Hrun in Hw. exact Hw.
  - intros k Hk. apply with_metrics_len; assumption.
  - intros i b Hrow. apply with_metrics_rows; assumption.
Qed.

(** C1. On a frame whose five base columns are numeric with [n] rows,
    [calculate_metrics] returns the reference it was given; the frame
    behind it keeps every column other than the four derived ones (so the
    rows keep their order and their labels), each derived column has [n]
    rows, and row [i] of the derived columns is computed from row [i] of
    the base columns alone, by the four formulas of the specification. *)
Theorem calculate_metrics_per_record h df d n :
  h !! df = Some d ->
  has_base d n ->
  exists d',
    calculate_metrics df h = (<[df := d']> h, Ok df) /\
    (forall k, k ∉ @derived_columns -> column k d' = column k d) /\
    (forall k, k ∈ @derived_columns -> num_len k d' = Some n) /\
    (forall i, i < n -> is_Some (base_row d i)) /\
    (forall i b, base_row d i = Some b ->
                 derived_row d' i = Some (spec_metrics b)).
Proof.
  intros Hd Hb.
  destruct (calculate_metrics_body_spec d n Hb) as (d' & Hrun & Hkeep & Hlen & Hrows).
  exists d'. rewrite (calculate_metrics_run h df d Hd), Hrun.
  repeat split; try assumption.
  intros i Hi. exact (base_rows_exist d n i Hb Hi).
Qed.

Lemma scenario_yields_intro h df scenario f d d1 n :
  h !! df = Some d ->
  perturbation scenario d = (d1, Ok tt) ->
  has_base d1 n ->
  (forall i, base_row d1 i = f <$> base_row d i) ->
  scenario_yields h df scenario f d.
Proof.
  intros Hd Hp Hb1 Hrows.
  destruct (calculate_metrics_body_spec d1 n Hb1)
    as (d' & Hrun & Hkeep & _ & Hder).
  exists d'. split.
  - rewrite (apply_scenario_run h df scenario d Hd).
    unfold scenario_body, mbind, st_bind. rewrite Hp, Hrun. reflexivity.
  - intros i b Hrow.
    assert (Hrow1 : base_row d1 i = Some (f b)) by (rewrite Hrows, Hrow; reflexivity).
    split; [|exact (Hder i (f b) Hrow1)].
    rewrite <- Hrow1. apply base_row_ext.
    intros k Hk. apply Hkeep, base_derived_disjoint, Hk.
Qed.

Lemma perturbations_commute d n :
  has_base d n ->
  (supply_delay ;; high_demand) d = (high_demand ;; supply_delay) d.
Proof.
  intros Hb.
  destruct (has_base_columns d n Hb) as (a & l & s & oc & hc & (Ha & Hl & _) & _).
  unfold mbind, st_bind.
  rewrite (supply_delay_run d l Hl), (high_demand_run d a Ha).
  rewrite (high_demand_run _ a) by (rewrite column_assign_ne by discriminate; exact Ha).
  rewrite (supply_delay_run _ l) by (rewrite column_assign_ne by discriminate; exact Hl).
  f_equal. apply assign_comm; [discriminate|rewrite Ha|rewrite Hl]; eauto.
Qed.

(** C2. On a frame with numeric base columns, the tag
    "High Demand (+20%)" returns a copy whose every row has its
    average daily demand multiplied by 1.2, the tag
    "Supply Delay (+3 days)" one whose every row has 3 added to its lead
    time, and "High Demand + Supply Delay" one with both; the metrics of
    the copy are those of the perturbed rows; and the two perturbations
    give the same frame in either order. *)
Theorem apply_scenario_perturbs h df d n :
  h !! df = Some d ->
  has_base d n ->
  scenario_yields h df "High Demand (+20%)" demand_up d /\
  scenario_yields h df "Supply Delay (+3 days)" delay_up d /\
  scenario_yields h df "High Demand + Supply Delay"
    (fun b => delay_up (demand_up b)) d /\
  (forall b : Base, delay_up (demand_up b) = demand_up (delay_up b)) /\
  (supply_delay ;; high_demand) d = (high_demand ;; supply_delay) d.
Proof.
  intros Hd Hb.
  destruct (has_base_columns d n Hb)
    as (a & l & s & oc & hc & (Ha & Hl & _) & (La & Ll & _)).
  pose (a' := (fun x => fmul x lit_1_2) <$> a).
  pose (l' := (fun x => fadd x (of_int 3)) <$> l).
  assert (La' : length a' = n) by (unfold a'; rewrite length_fmap; exact La).
  assert (Ll' : length l' = n) by (unfold l'; rewrite length_fmap; exact Ll).
  repeat split.
  - eapply (scenario_yields_intro _ _ _ _ _ _ n Hd).
    + unfold perturbation. cbn [String.eqb Ascii.eqb Bool.eqb].
      apply (high_demand_run d a Ha).
    + apply has_base_assign; assumption.
    + intros i. apply base_row_high_demand, Ha.
  - eapply (scenario_yields_intro _ _ _ _ _ _ n Hd).
    + unfold perturbation. cbn [String.eqb Ascii.eqb Bool.eqb].
      apply (supply_delay_run d l Hl).
    + apply has_base_assign; assumption.
    + intros i. apply base_row_supply_delay, Hl.
  - eapply (scenario_yields_intro _ _ _ _ _ _ n Hd).
    + unfold perturbation. cbn [String.eqb Ascii.eqb Bool.eqb].
      unfold mbind, st_bind. rewrite (high_demand_run d a Ha).
      apply (supply_delay_run _ l).
      rewrite column_assign_ne by discriminate. exact Hl.
    + apply has_base_assign; [apply has_base_assign|]; assumption.
    + intros i. rewrite base_row_supply_delay
        by (rewrite column_assign_ne by discriminate; exact Hl).
      rewrite (base_row_high_demand d a i Ha).
      destruct (base_row d i); reflexivity.
  - apply (perturbations_commute d n Hb).
Qed.

Lemma apply_scenario_heap h df scenario :
  (apply_scenario df scenario h).1 = h \/
  exists d', (apply_scenario df scenario h).1 = h ++ [d'].
Proof.
  destruct (h !! df) as [d|] eqn:Hd.
  - right. rewrite (apply_scenario_run h df scenario d Hd). eauto.
  - left. rewrite (apply_scenario_dangling h df scenario Hd). reflexivity.
Qed.

Lemma returned_snoc h (d : @DataFrame F) (r : result unit) :
  returned (h ++ [d], as_ref (length h) r) =
  match r with Ok _ => Some d | Raise _ => None end.
Proof.
  destruct r as [[]|e]; simpl; [|reflexivity].
  apply list_lookup_middle. reflexivity.
Qed.

(** C3. Whatever the tag, and whether or not the call raises,
    [apply_scenario] leaves every frame of the caller's heap as it was;
    so a second scenario run on the same reference returns the frame it
    would have returned had the first never run. *)
Theorem apply_scenario_keeps_heap h df scenario :
  (forall l d, h !! l = Some d ->
               (apply_scenario df scenario h).1 !! l = Some d) /\
  (forall scenario',
     returned (apply_scenario df scenario' (apply_scenario df scenario h).1) =
     returned (apply_scenario df scenario' h)).
Proof.
  split.
  - intros l d Hl.
    destruct (apply_scenario_heap h df scenario) as [->|[d' ->]]; [exact Hl|].
    apply lookup_app_l_Some, Hl.
  - intros scenario'.
    destruct (h !! df) as [d|] eqn:Hd.
    + rewrite (apply_scenario_run h df scenario d Hd). cbn [fst].
      rewrite (apply_scenario_run _ df scenario' d)
        by (apply lookup_app_l_Some, Hd).
      rewrite (apply_scenario_run h df scenario' d Hd).
      rewrite !returned_snoc. reflexivity.
    + rewrite (apply_scenario_dangling h df scenario Hd). reflexivity.
Qed.

(** C4, as the code has it.  [calculate_metrics] works in place: the
    frame behind the reference it is given is the one that receives the
    derived columns, and that reference is what it returns.  On a frame
    with numeric base columns of [n] rows the call succeeds, and
    afterwards that very frame has the four derived columns, of [n] rows
    each, row [i] holding the metrics of row [i] of the base columns.
    Nothing else changes: every other frame of the heap, the number of
    frames, and every column of the frame other than the four derived
    ones are as before, whether or not the call raises.  A caller that
    must keep its frame passes a copy, as line 159 does. *)
Theorem calculate_metrics_in_place h df :
  (forall l, l <> df -> (calculate_metrics df h).1 !! l = h !! l) /\
  length (calculate_metrics df h).1 = length h /\
  (forall d, h !! df = Some d ->
     exists d', (calculate_metrics df h).1 !! df = Some d' /\
       forall k, k ∉ @derived_columns -> column k d' = column k d) /\
  (forall l, (calculate_metrics df h).2 = Ok l -> l = df) /\
  (forall l d, h !! l = Some d -> (download_frame df h).1 !! l = Some d) /\
  (forall d n, h !! df = Some d -> has_base d n ->
     exists d',
       (calculate_metrics df h).2 = Ok df /\
       (calculate_metrics df h).1 !! df = Some d' /\
       (forall k, k ∈ @derived_columns -> num_len k d' = Some n) /\
       (forall i b, base_row d i = Some b ->
                    derived_row d' i = Some (spec_metrics b))).
Proof.
  destruct (h !! df) as [d|] eqn:Hd.
  - rewrite (calculate_metrics_run h df d Hd). cbn [fst snd].
    assert (Hat : (<[df := (calculate_metrics_body d).1]> h : heap) !! df =
                  Some (calculate_metrics_body d).1).
    { unfold heap, loc in *. apply list_lookup_insert_eq.
      apply lookup_lt_Some with d, Hd. }
    split; [|split; [|split; [|split; [|split]]]].
    + intros l Hl. unfold heap, loc in *.
      apply list_lookup_insert_ne. congruence.
    + unfold heap, loc. apply length_insert.
    + intros d0 [= <-]. exists (calculate_metrics_body d).1.
      split; [exact Hat|].
      intros k Hk. apply calculate_metrics_body_writes, Hk.
    + intros l. destruct (calculate_metrics_body d).2; simpl; congruence.
    + intros l d0 Hl. unfold download_frame, mbind, st_bind, copy.
      rewrite Hd, calculate_metrics_snoc. cbn [fst].
      apply lookup_app_l_Some, Hl.
    + intros d0 n [= <-] Hb.
      destruct (calculate_metrics_body_spec d n Hb)
        as (d' & Hrun & _ & Hlen & Hrows).
      exists d'. rewrite Hrun in *. cbn [fst snd] in *.
      split; [reflexivity|]. split; [exact Hat|].
      split; [exact Hlen|exact Hrows].
  - unfold download_frame, calculate_metrics, mbind, st_bind, on, copy.
    rewrite Hd. cbn [fst snd]. repeat split; congruence.
Qed.

(** C7. With the tag "Base Case", [apply_scenario] computes on its copy
    exactly what [calculate_metrics] computes on the frame itself: the
    same frame results, with the same outcome (the new reference, or the
    same exception). *)
Theorem base_case_is_calculate_metrics h df d :
  h !! df = Some d ->
  exists d' (r : result unit),
    calculate_metrics df h = (<[df := d']> h, as_ref df r) /\
    apply_scenario df "Base Case" h = (h ++ [d'], as_ref (length h) r) /\
    calculate_metrics_body d = (d', r).
Proof.
  intros Hd.
  exists (calculate_metrics_body d).1, (calculate_metrics_body d).2.
  split; [exact (calculate_metrics_run h df d Hd)|]. split.
  - rewrite (apply_scenario_run h df "Base Case" d Hd). reflexivity.
  - destruct (calculate_metrics_body d); reflexivity.
Qed.

(** C8. A tag that is none of the three perturbing tags is handled as
    "Base Case": the call is the Base Case call, it raises no error of
    its own, and on a frame with numeric base columns it returns a copy
    whose columns, the derived ones apart, are those of the original. *)
Theorem unknown_tag_is_base_case h df scenario :
  scenario <> "High Demand (+20%)" ->
  scenario <> "Supply Delay (+3 days)" ->
  scenario <> "High Demand + Supply Delay" ->
  apply_scenario df scenario h = apply_scenario df "Base Case" h /\
  (forall d n, h !! df = Some d -> has_base d n ->
     exists d',
       apply_scenario df scenario h = (h ++ [d'], Ok (length h)) /\
       (forall k, k ∉ @derived_columns -> column k d' = column k d) /\
       (forall i b, base_row d i = Some b ->
                    derived_row d' i = Some (spec_metrics b))).
Proof.
  intros H1 H2 H3.
  apply String.eqb_neq in H1, H2, H3.
  assert (Hp : perturbation scenario = mret tt)
    by (unfold perturbation; rewrite H1, H2, H3; reflexivity).
  split.
  - unfold apply_scenario. rewrite H1, H2, H3. reflexivity.
  - intros d n Hd Hb.
    destruct (calculate_metrics_body_spec d n Hb)
      as (d' & Hrun & Hkeep & _ & Hder).
    exists d'. split; [|split; assumption].
    rewrite (apply_scenario_run h df scenario d Hd).
    unfold scenario_body. rewrite Hp. unfold mbind, st_bind. simpl.
    rewrite Hrun. reflexivity.
Qed.

End Claims.

(** ** The class-wise summary *)

Section Summary.
Context {F : Type} `{Arith F}.
Implicit Types (d : @DataFrame F) (cs : list string).

Lemma string_le_total : Total string_le.
Proof. intros a b. unfold string_le. apply String.leb_total. Qed.

Lemma group_keys_NoDup cs : NoDup (group_keys cs).
Proof.
  unfold group_keys. rewrite merge_sort_Permutation. apply NoDup_remove_dups.
Qed.

Lemma elem_of_group_keys cs c : c ∈ group_keys cs <-> c ∈ cs.
Proof.
  unfold group_keys. rewrite merge_sort_Permutation. apply elem_of_remove_dups.
Qed.

Lemma group_keys_Sorted cs : Sorted string_le (group_keys cs).
Proof. unfold group_keys. apply Sorted_merge_sort, string_le_total. Qed.

Lemma class_summary_run d cs rs es ts :
  column "Class" d = Some (StrS cs) ->
  column "ROP" d = Some (NumS rs) ->
  column "EOQ" d = Some (NumS es) ->
  column "Total_Cost" d = Some (NumS ts) ->
  class_summary d =
    Ok [("Class", StrS (group_keys cs));
        ("ROP", NumS (sum_by (group_keys cs) cs rs));
        ("EOQ", NumS (sum_by (group_keys cs) cs es));
        ("Total_Cost", NumS (sum_by (group_keys cs) cs ts))].
Proof.
  intros Hc Hr He Ht. unfold class_summary, need.
  rewrite Hc, Hr, He, Ht. reflexivity.
Qed.

(** The rows a group is made of: [select k cs xs] lists, in row order,
    the entries of [xs] whose row has key [k]. *)
Lemma select_filter {A} k cs (xs : list A) :
  select k cs xs = (zip cs xs) ≫= (fun p => if String.eqb k p.1 then [p.2] else []).
Proof.
  revert xs. induction cs as [|c cs IH]; intros [|x xs]; simpl; try reflexivity.
  rewrite IH. destruct (String.eqb k c); reflexivity.
Qed.

Lemma elem_of_select {A} k cs (xs : list A) x :
  x ∈ select k cs xs <-> exists i, cs !! i = Some k /\ xs !! i = Some x.
Proof.
  revert xs. induction cs as [|c cs IH]; intros [|x' xs]; simpl.
  - rewrite elem_of_nil. split; [tauto|]. intros (i & Hi & _). destruct i; discriminate.
  - rewrite elem_of_nil. split; [tauto|]. intros (i & Hi & _). destruct i; discriminate.
  - rewrite elem_of_nil. split; [tauto|]. intros (i & _ & Hi). destruct i; discriminate.
  - destruct (String.eqb_spec k c) as [->|Hne].
    + rewrite elem_of_cons, IH. split.
      * intros [->|(i & Hc & Hx)]; [exists 0|exists (S i)]; auto.
      * intros ([|i] & Hc & Hx); simpl in *; [left; congruence|right; eauto].
    + rewrite IH. split.
      * intros (i & Hc & Hx). exists (S i); auto.
      * intros ([|i] & Hc & Hx); simpl in *; [congruence|eauto].
Qed.

(** The group sum passes over NaN entries wherever they stand. *)
Lemma nansum_skips_nan (xs : list F) :
  nansum xs = nansum (List.filter (fun x => negb (isnan x)) xs).
Proof.
  unfold nansum. generalize (of_int 0, of_int 0). 
  induction xs as [|x xs IH]; intros acc; [reflexivity|].
  cbn [fold_left List.filter].
  destruct (isnan x) eqn:Hx; cbn [negb].
  - replace (group_sum_step acc x) with acc; [apply IH|].
    unfold group_sum_step. destruct acc. rewrite Hx. reflexivity.
  - cbn [fold_left]. apply IH.
Qed.

End Summary.

(** ** binary64 *)

Section Binary64.
Implicit Types (x y : float) (b : @Base float).

Lemma is_nan_spec x : PrimFloat.is_nan x = sf_nan (Prim2SF x).
Proof.
  unfold PrimFloat.is_nan. rewrite FloatAxioms.eqb_spec. unfold SFeqb.
  destruct (Prim2SF x) as [s|s| |s m e]; try destruct s; simpl; try reflexivity.
  all: rewrite Z.compare_refl, Pos.compare_cont_refl; reflexivity.
Qed.

Lemma is_finite_spec x :
  PrimFloat.is_finite x = negb (sf_nonfinite (Prim2SF x)).
Proof.
  unfold PrimFloat.is_finite, PrimFloat.is_infinity.
  rewrite is_nan_spec, FloatAxioms.eqb_spec, abs_spec.
  destruct (Prim2SF x) as [s|s| |s m e]; reflexivity.
Qed.

Lemma is_zero_spec x :
  PrimFloat.is_zero x = true -> exists s, Prim2SF x = S754_zero s.
Proof.
  unfold PrimFloat.is_zero. rewrite FloatAxioms.eqb_spec.
  destruct (Prim2SF x) as [s|s| |s m e]; try destruct s; try discriminate; eauto.
Qed.

Lemma ltb_zero_spec x :
  PrimFloat.ltb x 0%float = true ->
  Prim2SF x = S754_infinity true \/
  exists m e, Prim2SF x = S754_finite true m e.
Proof.
  rewrite ltb_spec.
  destruct (Prim2SF x) as [s|s| |s m e]; try destruct s; try discriminate; eauto.
Qed.

(** The literal [1.2] is the double next to 1.2: its mantissa [m] has
    [5 * m + 1 = 6 * 2^52], so it is 1.2 less a fifth of the gap between
    neighbouring doubles. *)
Lemma lit_1_2_nearest :
  Prim2SF lit_1_2 = S754_finite false 5404319552844595 (-52) /\
  (5 * 5404319552844595 + 1 = 6 * 2 ^ 52)%Z.
Proof. split; reflexivity. Qed.

(** Division by a zero is never finite. *)
Lemma div_zero_nonfinite x y s :
  Prim2SF y = S754_zero s -> sf_nonfinite (Prim2SF (x / y)) = true.
Proof.
  intros Hy. rewrite div_spec, Hy. unfold SF64div, SFdiv.
  destruct (Prim2SF x); reflexivity.
Qed.

(** The square root of a non-finite float is NaN or plus infinity, and
    that of a negative float is NaN. *)
Lemma sqrt_nonfinite x :
  sf_nonfinite (Prim2SF x) = true ->
  Prim2SF (PrimFloat.sqrt x) = S754_nan \/
  Prim2SF (PrimFloat.sqrt x) = S754_infinity false.
Proof.
  rewrite sqrt_spec. unfold SF64sqrt, SFsqrt.
  destruct (Prim2SF x) as [s|[]| |s m e]; try discriminate; auto.
Qed.

Lemma sqrt_negative x :
  PrimFloat.ltb x 0%float = true -> Prim2SF (PrimFloat.sqrt x) = S754_nan.
Proof.
  intros Hx. rewrite sqrt_spec. unfold SF64sqrt, SFsqrt.
  destruct (ltb_zero_spec x Hx) as [->|(m & e & ->)]; reflexivity.
Qed.

Lemma float_of_Z_2 :
  Prim2SF (float_of_Z 2) = S754_finite false 4503599627370496 (-51).
Proof. reflexivity. Qed.

(** The holding term [e / 2 * hc], and a sum it is the left operand of. *)
Lemma holding_term_nan e hc y :
  Prim2SF e = S754_nan \/
  (Prim2SF e = S754_infinity false /\ exists s, Prim2SF hc = S754_zero s) ->
  Prim2SF (e / float_of_Z 2 * hc + y) = S754_nan.
Proof.
  intros He. rewrite add_spec, mul_spec, div_spec, float_of_Z_2.
  destruct He as [->|[-> [s ->]]]; reflexivity.
Qed.

Lemma free_holding_metrics b :
  PrimFloat.is_zero (holding_cost b) = true ->
  PrimFloat.is_finite (spec_eoq b) = false /\
  PrimFloat.is_nan (spec_total_cost b) = true.
Proof.
  intros Hz. destruct (is_zero_spec _ Hz) as [s Hs].
  assert (He : Prim2SF (spec_eoq b) = S754_nan \/
               Prim2SF (spec_eoq b) = S754_infinity false).
  { apply sqrt_nonfinite. apply (div_zero_nonfinite _ _ s Hs). }
  split.
  - rewrite is_finite_spec. destruct He as [-> | ->]; reflexivity.
  - rewrite is_nan_spec. unfold spec_total_cost.
    simpl fadd. simpl fmul. simpl fdiv. simpl of_int.
    rewrite holding_term_nan; [reflexivity|].
    destruct He as [He|He]; [left|right]; eauto.
Qed.

Lemma negative_radicand_metrics b :
  PrimFloat.ltb (radicand b) 0%float = true ->
  PrimFloat.is_nan (spec_eoq b) = true /\
  PrimFloat.is_nan (spec_total_cost b) = true.
Proof.
  intros Hneg.
  assert (He : Prim2SF (spec_eoq b) = S754_nan) by exact (sqrt_negative _ Hneg).
  split.
  - rewrite is_nan_spec, He. reflexivity.
  - rewrite is_nan_spec. unfold spec_total_cost.
    simpl fadd. simpl fmul. simpl fdiv. simpl of_int.
    rewrite holding_term_nan; [reflexivity|]. left. exact He.
Qed.

(** Adding to zero: the sum of a group of one record. *)
Lemma add_zero_eqb x :
  PrimFloat.is_nan x = false -> PrimFloat.eqb (0 + x) x = true.
Proof.
  rewrite is_nan_spec, FloatAxioms.eqb_spec, add_spec. unfold SF64add, SFadd, SFeqb.
  change (Prim2SF 0) with (S754_zero false).
  destruct (Prim2SF x) as [[]|[]| |[] m e]; try discriminate; intros _; simpl;
    rewrite ?Z.compare_refl, ?Pos.compare_cont_refl; reflexivity.
Qed.

(** A float is determined by its value. *)
Lemma float_ext x y : Prim2SF x = Prim2SF y -> x = y.
Proof.
  intros E. rewrite <- (SF2Prim_Prim2SF x), <- (SF2Prim_Prim2SF y), E.
  reflexivity.
Qed.

Lemma sub_zero x : (x - 0)%float = x.
Proof.
  apply float_ext. rewrite sub_spec. change (Prim2SF 0) with (S754_zero false).
  unfold SF64sub, SFsub. destruct (Prim2SF x) as [[]|[]| |[] m e]; reflexivity.
Qed.

Lemma sub_diag_finite s m e :
  SF64sub (S754_finite s m e) (S754_finite s m e) = S754_zero false.
Proof. unfold SF64sub, SFsub. cbv zeta. rewrite Z.sub_diag. reflexivity. Qed.

(** The compensation after the first entry of a group is zero. *)
Lemma first_compensation x :
  PrimFloat.is_nan x = false ->
  (if PrimFloat.is_nan (0 + x - 0 - x) then 0 else 0 + x - 0 - x)%float
  = 0%float.
Proof.
  intros Hx. rewrite sub_zero.
  assert (Hc : Prim2SF (0 + x - x) = S754_zero false \/
               Prim2SF (0 + x - x) = S754_nan).
  { rewrite sub_spec, add_spec. rewrite is_nan_spec in Hx.
    change (Prim2SF 0) with (S754_zero false).
    destruct (Prim2SF x) as [[]|[]| |s m e]; try discriminate; auto.
    left. change (SF64add (S754_zero false) (S754_finite s m e))
            with (S754_finite s m e).
    apply sub_diag_finite. }
  rewrite is_nan_spec. destruct Hc as [Hc|Hc]; rewrite Hc; [|reflexivity].
  apply float_ext. exact Hc.
Qed.

Lemma nansum_single x :
  nansum [x] = if PrimFloat.is_nan x then 0%float else (0 + x)%float.
Proof.
  unfold nansum. cbn [fold_left group_sum_step isnan fsub fadd binary64 fst].
  change (of_int 0) with 0%float.
  destruct (PrimFloat.is_nan x); [reflexivity|].
  cbn [fst]. rewrite sub_zero. reflexivity.
Qed.

(** The sum of a group of two records. *)
Lemma nansum_pair x y :
  PrimFloat.is_nan x = false -> PrimFloat.is_nan y = false ->
  nansum [x; y] = (0 + x + y)%float.
Proof.
  intros Hx Hy. unfold nansum.
  cbn [fold_left group_sum_step isnan fsub fadd binary64].
  change (of_int 0) with 0%float.
  rewrite Hx. cbn [fold_left group_sum_step isnan binary64].
  rewrite sub_zero, (first_compensation x Hx), Hy. cbn [fst].
  rewrite sub_zero. reflexivity.
Qed.

(** C5. On a frame with numeric base columns [calculate_metrics] raises
    nothing, whatever the numbers are, and every row receives the derived
    fields of its own base fields.  In a row whose holding cost is zero
    the EOQ is not finite (infinite or NaN) and the total cost is NaN; in
    a row whose radicand is negative both are NaN.  The values are
    stored as they come out of the arithmetic. *)
Theorem nonfinite_metrics_stay_in_their_row (h : @heap float) df d n :
  h !! df = Some d ->
  has_base d n ->
  exists d',
    calculate_metrics df h = (<[df := d']> h, Ok df) /\
    forall i b, base_row d i = Some b ->
      derived_row d' i = Some (spec_metrics b) /\
      (PrimFloat.is_zero (holding_cost b) = true ->
         PrimFloat.is_finite (spec_eoq b) = false /\
         PrimFloat.is_nan (spec_total_cost b) = true) /\
      (PrimFloat.ltb (radicand b) 0%float = true ->
         PrimFloat.is_nan (spec_eoq b) = true /\
         PrimFloat.is_nan (spec_total_cost b) = true).
Proof.
  intros Hd Hb.
  destruct (calculate_metrics_body_spec d n Hb) as (d' & Hrun & _ & _ & Hrows).
  exists d'. split.
  - rewrite (calculate_metrics_run h df d Hd), Hrun. reflexivity.
  - intros i b Hrow. split; [exact (Hrows i b Hrow)|]. split.
    + apply free_holding_metrics.
    + apply negative_radicand_metrics.
Qed.

(** C9, as the code has it.  On the record A 101 (demand 50, lead time
    10, safety stock 100, order cost 200, holding cost 2)
    [calculate_metrics] gives ROP 600, annual demand 18250, EOQ the
    square root of 3650000, which is 1910.50 to two decimals, and total
    cost 3820.99 to two decimals.  The scenario "High Demand (+20%)"
    returns a copy with demand 60 and ROP 700, and the original frame
    still has demand 50. *)
Theorem a101_metrics :
  exists d1 d2 (e tc : float),
    calculate_metrics 0 [sku_a101] = ([d1], Ok 0) /\
    derived_row d1 0 =
      Some {| rop := 600%float; annual_demand := 18250%float; eoq := e;
              total_cost := tc |} /\
    e = PrimFloat.sqrt 3650000%float /\
    in_decimal_range 1910495 1910505 3 e = true /\
    in_decimal_range 3820985 3820995 3 tc = true /\
    apply_scenario 0 "High Demand (+20%)" [sku_a101] =
      ([sku_a101; d2], Ok 1) /\
    num_at "Average_Daily_Demand" d2 0 = Some 60%float /\
    num_at "ROP" d2 0 = Some 700%float /\
    num_at "Average_Daily_Demand" sku_a101 0 = Some 50%float.
Proof.
  exists (with_metrics [50] [10] [100] [200] [2] sku_a101)%float.
  exists (with_metrics [60] [10] [100] [200] [2]
            (assign "Average_Daily_Demand" (NumS [60]) sku_a101))%float.
  exists (PrimFloat.sqrt 3650000%float).
  exists (let e := PrimFloat.sqrt 3650000 in e / 2 * 2 + 18250 / e * 200)%float.
  repeat split; vm_compute; reflexivity.
Qed.

End Binary64.

(** ** The claims at concrete frames *)

Lemma has_base_session_data : has_base session_data 2.
Proof. repeat constructor. Qed.

Lemma calculate_metrics_per_record_witness :
  [session_data] !! 0 = Some session_data /\
  has_base session_data 2 /\
  exists d',
    calculate_metrics 0 [session_data] = (<[0 := d']> [session_data], Ok 0) /\
    (forall k, k ∉ @derived_columns -> column k d' = column k session_data) /\
    (forall k, k ∈ @derived_columns -> num_len k d' = Some 2) /\
    (forall i, i < 2 -> is_Some (base_row session_data i)) /\
    (forall i b, base_row session_data i = Some b ->
                 derived_row d' i = Some (spec_metrics b)).
Proof.
  split; [reflexivity|]. split; [exact has_base_session_data|].
  apply (calculate_metrics_per_record [session_data] 0 session_data 2).
  - reflexivity.
  - exact has_base_session_data.
Defined.

Lemma apply_scenario_perturbs_witness :
  [session_data] !! 0 = Some session_data /\
  has_base session_data 2 /\
  scenario_yields [session_data] 0 "High Demand (+20%)" demand_up
    session_data /\
  scenario_yields [session_data] 0 "Supply Delay (+3 days)" delay_up
    session_data /\
  scenario_yields [session_data] 0 "High Demand + Supply Delay"
    (fun b => delay_up (demand_up b)) session_data.
Proof.
  split; [reflexivity|]. split; [exact has_base_session_data|].
  destruct (apply_scenario_perturbs [session_data] 0 session_data 2)
    as (H1 & H2 & H3 & _); [reflexivity|exact has_base_session_data|].
  auto.
Defined.

(** C4, the claim as stated, fails: the frame the caller passed has no
    [ROP] column before the call and has one after it. *)
Lemma calculate_metrics_attaches_to_argument :
  [sku_a101] !! 0 = Some sku_a101 /\
  column "ROP" sku_a101 = None /\
  exists d',
    (calculate_metrics 0 [sku_a101]).1 !! 0 = Some d' /\
    column "ROP" d' = Some (NumS [600%float]).
Proof.
  split; [reflexivity|]. split; [reflexivity|].
  eexists. split; vm_compute; reflexivity.
Qed.

Lemma nonfinite_metrics_stay_in_their_row_witness :
  [sku_free_holding] !! 0 = Some sku_free_holding /\
  has_base sku_free_holding 1 /\
  exists d',
    calculate_metrics 0 [sku_free_holding] =
      (<[0 := d']> [sku_free_holding], Ok 0) /\
    exists m, derived_row d' 0 = Some m /\
      PrimFloat.is_finite (eoq m) = false /\
      PrimFloat.is_nan (total_cost m) = true.
Proof.
  split; [reflexivity|]. split; [repeat constructor|].
  destruct (nonfinite_metrics_stay_in_their_row [sku_free_holding] 0
              sku_free_holding 1) as (d' & Hrun & Hrows);
    [reflexivity|repeat constructor|].
  exists d'. split; [exact Hrun|].
  destruct (Hrows 0
    {| avg_daily_demand := 50%float; lead_time_days := 10%float;
       safety_stock := 100%float; order_cost := 200%float;
       holding_cost := 0%float |}) as (Hder & Hzero & _); [reflexivity|].
  eexists. split; [exact Hder|]. apply Hzero. reflexivity.
Defined.


(** C9, the claim as stated, fails: the EOQ of the record is not
    1910.24 to two decimals, and its total cost is not 3820.48. *)
Lemma a101_eoq_is_not_1910_24 :
  exists d1 (e tc : float),
    calculate_metrics 0 [sku_a101] = ([d1], Ok 0) /\
    num_at "EOQ" d1 0 = Some e /\
    num_at "Total_Cost" d1 0 = Some tc /\
    in_decimal_range 1910235 1910245 3 e = false /\
    in_decimal_range 3820475 3820485 3 tc = false.
Proof.
  exists (with_metrics [50] [10] [100] [200] [2] sku_a101)%float.
  exists (PrimFloat.sqrt 3650000%float).
  exists (let e := PrimFloat.sqrt 3650000 in e / 2 * 2 + 18250 / e * 200)%float.
  repeat split; vm_compute; reflexivity.
Qed.

Lemma base_case_is_calculate_metrics_witness :
  [session_data] !! 0 = Some session_data /\
  exists d' (r : result unit),
    calculate_metrics 0 [session_data] = (<[0 := d']> [session_data], as_ref 0 r) /\
    apply_scenario 0 "Base Case" [session_data] =
      ([session_data] ++ [d'], as_ref (length [session_data]) r) /\
    calculate_metrics_body session_data = (d', r).
Proof.
  split; [reflexivity|].
  apply (base_case_is_calculate_metrics [session_data] 0 session_data).
  reflexivity.
Defined.

Lemma unknown_tag_is_base_case_witness :
  "High demand" <> "High Demand (+20%)" /\
  apply_scenario 0 "High demand" [session_data] =
  apply_scenario 0 "Base Case" [session_data].
Proof.
  split; [discriminate|].
  apply (unknown_tag_is_base_case [session_data] 0 "High demand");
    discriminate.
Defined.

(** ** Exact arithmetic *)

Section Exact.
Local Open Scope R_scope.
Implicit Types (a l s oc hc : R).

Lemma xdiv_defined x y : y <> 0 -> xdiv (Some x) (Some y) = Some (x / y).
Proof. intros Hy. unfold xdiv. destruct (Req_dec_T y 0); [contradiction|reflexivity]. Qed.

Lemma xdiv_by_zero x : xdiv (Some x) (Some 0) = None.
Proof. unfold xdiv. destruct (Req_dec_T 0 0); [reflexivity|contradiction]. Qed.

Lemma xsqrt_defined x : 0 <= x -> xsqrt (Some x) = Some (R_sqrt.sqrt x).
Proof. intros Hx. unfold xsqrt. destruct (Rlt_dec x 0); [lra|reflexivity]. Qed.

(** The group sum in exact arithmetic: the compensation stays zero, and
    the sum is the sum of the defined entries. *)
Lemma group_sum_exact (xs : list xreal) s c :
  c = 0 ->
  exists r, (fold_left group_sum_step xs (Some s, Some c)).1 = Some r /\
            r = s + rsum (defined xs).
Proof.
  revert s c. induction xs as [|[x|] xs IH]; intros s c Hc.
  - exists s. split; [reflexivity|]. simpl. lra.
  - cbn [fold_left group_sum_step isnan fsub fadd exact xlift2 of_int].
    destruct (IH (s + (x - c)) (s + (x - c) - s - (x - c))) as (r & Hr & Er);
      [lra|].
    exists r. split; [exact Hr|]. rewrite Er. subst c.
    change (defined (Some x :: xs)) with (x :: defined xs).
    change (rsum (x :: defined xs)) with (x + rsum (defined xs)).
    lra.
  - cbn [fold_left group_sum_step isnan exact].
    destruct (IH s c Hc) as (r & Hr & Er). exists r. split; [exact Hr|].
    exact Er.
Qed.

Lemma nansum_exact (xs : list xreal) : nansum xs = Some (rsum (defined xs)).
Proof.
  destruct (group_sum_exact xs 0 0 eq_refl) as (r & Hr & Er).
  transitivity (Some r); [exact Hr|]. f_equal. lra.
Qed.

Lemma defined_Some (xs : list R) : defined (Some <$> xs) = xs.
Proof.
  induction xs as [|x xs IH]; [reflexivity|].
  change (defined (Some <$> x :: xs)) with (x :: defined (Some <$> xs)).
  f_equal. exact IH.
Qed.

Lemma nansum_defined (xs : list R) :
  nansum (Some <$> xs : list xreal) = Some (fold_right Rplus 0 xs).
Proof. rewrite nansum_exact, defined_Some. reflexivity. Qed.

Lemma nansum_skips_undefined (xs : list xreal) :
  nansum (None :: xs) = nansum xs.
Proof. reflexivity. Qed.

(** The two cost terms for an order quantity [e] with [e * e] the
    radicand. *)
Lemma cost_terms_equal ad oc hc e :
  0 < hc -> 0 < e -> e * e = 2 * ad * oc / hc ->
  ad / e * oc = e * hc / 2 /\ e / 2 * hc + ad / e * oc = e * hc.
Proof.
  intros Hhc He Hsq.
  assert (Hprod : ad * oc = e * e * hc / 2) by (rewrite Hsq; field; lra).
  assert (Hord : ad / e * oc = e * hc / 2).
  { replace (ad / e * oc) with (ad * oc / e) by (field; lra).
    rewrite Hprod. field. lra. }
  split; [exact Hord|]. rewrite Hord. field.
Qed.

Lemma spec_metrics_exact a l s oc hc :
  0 < hc -> 0 < a * 365 * oc ->
  let e := R_sqrt.sqrt (2 * (a * 365) * oc / hc) in
  spec_metrics (xbase a l s oc hc) =
    {| rop := Some (a * l + s); annual_demand := Some (a * 365);
       eoq := Some e; total_cost := Some (e * hc) |} /\
  0 < e /\
  e / 2 * hc = e * hc / 2 /\
  a * 365 / e * oc = e * hc / 2.
Proof.
  intros Hhc Hpos e.
  assert (Hr : 0 < 2 * (a * 365) * oc / hc)
    by (apply Rdiv_lt_0_compat; lra).
  assert (He : 0 < e) by (apply sqrt_lt_R0, Hr).
  assert (Hsq : e * e = 2 * (a * 365) * oc / hc)
    by (apply sqrt_sqrt; lra).
  destruct (cost_terms_equal (a * 365) oc hc e Hhc He Hsq) as [Hord Hsum].
  split; [|split; [exact He|split; [field|exact Hord]]].
  unfold spec_metrics, spec_total_cost, spec_eoq, radicand,
    spec_annual_demand, spec_rop, xbase.
  cbn [fadd fmul fdiv fsqrt of_int exact xlift2 avg_daily_demand
       lead_time_days safety_stock order_cost holding_cost].
  rewrite (xdiv_defined _ hc) by lra.
  rewrite xsqrt_defined by lra. fold e.
  rewrite (xdiv_defined e 2) by lra.
  rewrite (xdiv_defined _ e) by lra. cbn [xlift2].
  rewrite Hsum. reflexivity.
Qed.

Lemma spec_metrics_no_demand :
  spec_metrics (xbase 0 10 100 200 2) =
    {| rop := Some 100; annual_demand := Some 0; eoq := Some 0;
       total_cost := None |}.
Proof.
  unfold spec_metrics, spec_total_cost, spec_eoq, radicand,
    spec_annual_demand, spec_rop, xbase.
  cbn [fadd fmul fdiv fsqrt of_int exact xlift2 avg_daily_demand
       lead_time_days safety_stock order_cost holding_cost].
  rewrite (xdiv_defined _ 2) by lra.
  replace (2 * (0 * 365) * 200 / 2) with 0 by lra.
  rewrite xsqrt_defined by lra. rewrite sqrt_0.
  rewrite (xdiv_defined 0 2) by lra. cbn [xlift2].
  rewrite xdiv_by_zero. cbn [xlift2].
  f_equal; f_equal; lra.
Qed.

(** C10, as the code has it.  In exact arithmetic, for a record with a
    positive holding cost and a positive radicand, the total cost is
    EOQ times the holding cost, and the holding term and the ordering
    term are each half of it. *)
Theorem total_cost_is_eoq_times_holding (h : @heap xreal) df d n i a l s oc hc :
  h !! df = Some d ->
  has_base d n ->
  base_row d i = Some (xbase a l s oc hc) ->
  0 < hc ->
  0 < a * 365 * oc ->
  exists d' e,
    calculate_metrics df h = (<[df := d']> h, Ok df) /\
    derived_row d' i =
      Some {| rop := Some (a * l + s); annual_demand := Some (a * 365);
              eoq := Some e; total_cost := Some (e * hc) |} /\
    e = R_sqrt.sqrt (2 * (a * 365) * oc / hc) /\
    0 < e /\
    e / 2 * hc = e * hc / 2 /\
    a * 365 / e * oc = e * hc / 2.
Proof.
  intros Hd Hb Hrow Hhc Hpos.
  destruct (calculate_metrics_body_spec d n Hb) as (d' & Hrun & _ & _ & Hrows).
  destruct (spec_metrics_exact a l s oc hc Hhc Hpos) as (Hm & He & Hhold & Hord).
  exists d', (R_sqrt.sqrt (2 * (a * 365) * oc / hc)).
  split; [rewrite (calculate_metrics_run h df d Hd), Hrun; reflexivity|].
  split; [exact (eq_trans (Hrows i _ Hrow) (f_equal Some Hm))|].
  auto.
Qed.

End Exact.

Lemma total_cost_is_eoq_times_holding_witness :
  ([xsku 50] !! 0 = Some (xsku 50) /\ has_base (xsku 50) 1 /\
   base_row (xsku 50) 0 = Some (xbase 50 10 100 200 2) /\
   (0 < 2)%R /\ (0 < 50 * 365 * 200)%R) /\
  exists d' e,
    calculate_metrics 0 [xsku 50] = (<[0 := d']> [xsku 50], Ok 0) /\
    derived_row d' 0 =
      Some {| rop := Some (50 * 10 + 100)%R; annual_demand := Some (50 * 365)%R;
              eoq := Some e; total_cost := Some (e * 2)%R |} /\
    e = R_sqrt.sqrt (2 * (50 * 365) * 200 / 2) /\
    (0 < e)%R /\
    (e / 2 * 2 = e * 2 / 2)%R /\
    (50 * 365 / e * 200 = e * 2 / 2)%R.
Proof.
  assert (H1 : [xsku 50] !! 0 = Some (xsku 50)) by reflexivity.
  assert (H2 : has_base (xsku 50) 1) by (repeat constructor).
  assert (H3 : base_row (xsku 50) 0 = Some (xbase 50 10 100 200 2)) by reflexivity.
  assert (H4 : (0 < 2)%R) by lra.
  assert (H5 : (0 < 50 * 365 * 200)%R) by lra.
  split; [auto|].
  exact (total_cost_is_eoq_times_holding [xsku 50] 0 (xsku 50) 1 0
           50 10 100 200 2 H1 H2 H3 H4 H5).
Defined.

(** C10, the claim as stated, fails where the radicand is zero: with no
    demand the EOQ is 0, the ordering term is 0 / 0, and the total cost
    has no value (NaN in binary64) instead of EOQ times the holding
    cost, which is 0. *)
Lemma no_demand_total_cost_undefined :
  (exists d1,
     calculate_metrics 0 [xsku 0] = ([d1], Ok 0) /\
     base_row (xsku 0) 0 = Some (xbase 0 10 100 200 2) /\
     derived_row d1 0 =
       Some {| rop := Some 100%R; annual_demand := Some 0%R;
               eoq := Some 0%R; total_cost := None |}) /\
  (exists d2 (tc : float),
     calculate_metrics 0 [sku_no_demand] = ([d2], Ok 0) /\
     num_at "Holding_Cost" d2 0 = Some 2%float /\
     num_at "EOQ" d2 0 = Some 0%float /\
     num_at "Total_Cost" d2 0 = Some tc /\
     PrimFloat.is_nan tc = true /\
     PrimFloat.eqb tc (0 * 2) = false).
Proof.
  split.
  - assert (Hb : has_base (xsku 0) 1) by (repeat constructor).
    destruct (calculate_metrics_body_spec (xsku 0) 1 Hb)
      as (d' & Hrun & _ & _ & Hrows).
    exists d'. split; [|split; [reflexivity|]].
    + rewrite (calculate_metrics_run [xsku 0] 0 (xsku 0) eq_refl), Hrun.
      reflexivity.
    + exact (eq_trans (Hrows 0 (xbase 0 10 100 200 2) eq_refl)
                        (f_equal Some spec_metrics_no_demand)).
  - exists (with_metrics [0] [10] [100] [200] [2] sku_no_demand)%float, nan.
    repeat split; vm_compute; reflexivity.
Qed.

(** ** The class-wise summary *)



(** * The pages *)

(** ** SKU labels *)

Lemma split_space_nonempty s : split_space s <> [].
Proof.
  destruct s as [|c s]; simpl; [discriminate|].
  destruct (Ascii.eqb c " "%char); [discriminate|].
  destruct (split_space s); discriminate.
Qed.

Lemma split_space_no_space s : has_space s = false -> split_space s = [s].
Proof.
  unfold has_space. induction s as [|c s IH]; simpl; [reflexivity|].
  destruct (Ascii.eqb c " "%char); simpl; [discriminate|].
  intros Hs. rewrite (IH Hs). reflexivity.
Qed.

Lemma split_space_app a b :
  has_space a = false ->
  split_space (a ++ String " "%char b) = a :: split_space b.
Proof.
  unfold has_space. induction a as [|c a IH]; simpl.
  - reflexivity.
  - destruct (Ascii.eqb c " "%char); simpl; [discriminate|].
    intros Ha. rewrite (IH Ha). reflexivity.
Qed.

Lemma split_space_has_space s :
  has_space s = true -> exists p q rest, split_space s = p :: q :: rest.
Proof.
  unfold has_space. induction s as [|c s IH]; simpl; [discriminate|].
  destruct (Ascii.eqb c " "%char); simpl.
  - intros _. destruct (split_space s) as [|q rest] eqn:E.
    + destruct (split_space_nonempty s E).
    + eauto.
  - intros Hs. destruct (IH Hs) as (p & q & rest & ->). eauto.
Qed.

Lemma has_space_app a b : has_space (a ++ b) = has_space a || has_space b.
Proof.
  unfold has_space. induction a as [|c a IH]; simpl; [reflexivity|].
  rewrite IH. apply orb_assoc.
Qed.

(** The first piece of a split has no space in it. *)
Lemma first_piece_no_space s :
  has_space (hd "" (split_space s)) = false.
Proof.
  induction s as [|c s IH]; simpl; [reflexivity|].
  destruct (Ascii.eqb c " "%char) eqn:Ec; simpl; [reflexivity|].
  destruct (split_space s) as [|p ps]; unfold has_space in *; simpl in *;
    rewrite Ec; simpl; [reflexivity|exact IH].
Qed.

(** X1. The number the Update form reads back from a label made by
    [generate_sku_label], for a class with no space in it, is the number
    up to its first space: the number itself when it has no space, and
    something else when it has one. *)
Theorem label_number_of_generated sku_class sku_number :
  has_space sku_class = false ->
  label_number (generate_sku_label sku_class sku_number) =
    Done (hd "" (split_space sku_number)) /\
  (has_space sku_number = false ->
   label_number (generate_sku_label sku_class sku_number) = Done sku_number) /\
  (has_space sku_number = true ->
   label_number (generate_sku_label sku_class sku_number) <> Done sku_number).
Proof.
  intros Hc.
  assert (Hrun : label_number (generate_sku_label sku_class sku_number) =
                 Done (hd "" (split_space sku_number))).
  { unfold label_number, generate_sku_label. cbn [append].
    rewrite (split_space_app _ _ Hc).
    destruct (split_space sku_number) as [|p ps] eqn:E;
      [destruct (split_space_nonempty _ E)|reflexivity]. }
  split; [exact Hrun|]. split.
  - intros Hn. rewrite Hrun, (split_space_no_space _ Hn). reflexivity.
  - intros Hn. rewrite Hrun. intros [= Heq].
    pose proof (first_piece_no_space sku_number) as Hp.
    rewrite Heq in Hp. congruence.
Qed.

Lemma label_number_of_generated_witness :
  has_space "A" = false /\
  label_number (generate_sku_label "A" "101") = Done "101" /\
  label_number (generate_sku_label "A" "10 1") = Done "10".
Proof.
  split; [reflexivity|]. split.
  - apply (label_number_of_generated "A" "101"); reflexivity.
  - apply (label_number_of_generated "A" "10 1"); reflexivity.
Defined.

(** X2. Reading the number off a label raises [IndexError] exactly when
    the label has no space, and raises nothing else; a label made by
    [generate_sku_label] always has one. *)
Theorem label_number_fails_without_space label :
  (label_number label = Fail IndexError <-> has_space label = false) /\
  (has_space label = true -> exists number, label_number label = Done number) /\
  (forall sku_class sku_number,
     has_space (generate_sku_label sku_class sku_number) = true).
Proof.
  split; [split|split].
  - intros Hf. destruct (has_space label) eqn:Hs; [|reflexivity].
    destruct (split_space_has_space _ Hs) as (p & q & rest & E).
    unfold label_number in Hf. rewrite E in Hf. discriminate.
  - intros Hs. unfold label_number.
    rewrite (split_space_no_space _ Hs). reflexivity.
  - intros Hs. destruct (split_space_has_space _ Hs) as (p & q & rest & E).
    exists q. unfold label_number. rewrite E. reflexivity.
  - intros c n. unfold generate_sku_label.
    rewrite !has_space_app. apply orb_true_iff. right. reflexivity.
Qed.

(** ** More on the metrics engine *)

(** Run a method body on a frame whose columns are known. *)
Ltac run_frame :=
  cbv [mbind st_bind getitem setitem lift s_add s_mul s_div s_add_int
       s_div_int int_mul_s s_mul_lit np_sqrt binop unop];
  repeat first
    [ rewrite column_assign_eq
    | rewrite column_assign_ne by discriminate
    | match goal with
      | E : column ?k ?d = _ |- context [column ?k ?d] => rewrite E
      end ].

Section Engine.
Context {F : Type} `{Arith F}.
Implicit Types (d : @DataFrame F) (h : @heap F) (v : @Series F) (k : string).

Lemma assign_assign k v v' d : assign k v (assign k v' d) = assign k v d.
Proof.
  induction d as [|[k1 s1] d IH]; simpl.
  - rewrite String.eqb_refl. reflexivity.
  - destruct (String.eqb k k1) eqn:E; simpl; rewrite E; [reflexivity|].
    rewrite IH. reflexivity.
Qed.

(** An assignment to an existing column commutes with any other. *)
Lemma assign_comm_existing k1 k2 v1 v2 d :
  k1 <> k2 -> is_Some (column k1 d) ->
  assign k1 v1 (assign k2 v2 d) = assign k2 v2 (assign k1 v1 d).
Proof.
  intros Hne. induction d as [|[k v] d IH]; simpl; intros H1.
  - destruct H1 as [? [=]].
  - destruct (String.eqb_spec k2 k) as [->|Hk2];
      destruct (String.eqb_spec k1 k) as [->|Hk1]; simpl;
      repeat match goal with
             | |- context [String.eqb ?a ?b] =>
                 destruct (String.eqb_spec a b); try contradiction; subst
             end; try congruence.
    rewrite IH; [reflexivity|assumption].
Qed.

Ltac has_column :=
  rewrite ?column_assign; cbn [String.eqb Ascii.eqb Bool.eqb]; eauto.

(** Computing the metrics over a frame that already carries them
    overwrites them where they stand. *)
Lemma with_metrics_overwrite a l s oc hc a' l' s' oc' hc' d :
  with_metrics a' l' s' oc' hc' (with_metrics a l s oc hc d) =
  with_metrics a' l' s' oc' hc' d.
Proof.
  unfold with_metrics.
  set (r1 := NumS (rop_column a l s)). set (r2 := NumS (rop_column a' l' s')).
  set (ad1 := NumS (annual_demand_column a)).
  set (ad2 := NumS (annual_demand_column a')).
  set (e1 := NumS (eoq_column a oc hc)). set (e2 := NumS (eoq_column a' oc' hc')).
  set (t1 := NumS (total_cost_column a oc hc)).
  set (t2 := NumS (total_cost_column a' oc' hc')).
  rewrite (assign_comm_existing "ROP" "Total_Cost") by (try discriminate; has_column).
  rewrite (assign_comm_existing "ROP" "EOQ") by (try discriminate; has_column).
  rewrite (assign_comm_existing "ROP" "Annual_Demand") by (try discriminate; has_column).
  rewrite assign_assign.
  rewrite (assign_comm_existing "Annual_Demand" "Total_Cost") by (try discriminate; has_column).
  rewrite (assign_comm_existing "Annual_Demand" "EOQ") by (try discriminate; has_column).
  rewrite assign_assign.
  rewrite (assign_comm_existing "EOQ" "Total_Cost") by (try discriminate; has_column).
  rewrite assign_assign.
  rewrite assign_assign. reflexivity.
Qed.

(** A base column assigned after the metrics were computed may as well
    be assigned before. *)
Lemma assign_with_metrics k v a l s oc hc d :
  k ∉ @derived_columns -> is_Some (column k d) ->
  assign k v (with_metrics a l s oc hc d) =
  with_metrics a l s oc hc (assign k v d).
Proof.
  intros Hk Hd. unfold derived_columns in Hk.
  rewrite !elem_of_cons, elem_of_nil in Hk.
  assert (k <> "ROP" /\ k <> "Annual_Demand" /\ k <> "EOQ" /\ k <> "Total_Cost")
    as (N1 & N2 & N3 & N4) by (repeat split; intros ->; tauto).
  unfold with_metrics.
  rewrite (assign_comm_existing k "Total_Cost")
    by (try assumption; rewrite !column_assign_ne by assumption; exact Hd).
  rewrite (assign_comm_existing k "EOQ")
    by (try assumption; rewrite !column_assign_ne by assumption; exact Hd).
  rewrite (assign_comm_existing k "Annual_Demand")
    by (try assumption; rewrite !column_assign_ne by assumption; exact Hd).
  rewrite (assign_comm_existing k "ROP") by assumption.
  reflexivity.
Qed.

Lemma with_metrics_base a l s oc hc d k :
  k ∈ @base_columns ->
  column k (with_metrics a l s oc hc d) = column k d.
Proof.
  intros Hk. unfold with_metrics, base_columns in *.
  rewrite !elem_of_cons, elem_of_nil in Hk.
  destruct Hk as [->|[->|[->|[->|[->|[]]]]]];
    rewrite !column_assign_ne by discriminate; reflexivity.
Qed.

(** X3. [calculate_metrics] is idempotent: on a frame with numeric base
    columns a second call on the same reference succeeds and leaves the
    heap exactly as the first call left it. *)
Theorem calculate_metrics_twice h df d n :
  h !! df = Some d ->
  has_base d n ->
  exists h1,
    calculate_metrics df h = (h1, Ok df) /\
    calculate_metrics df h1 = (h1, Ok df).
Proof.
  intros Hd Hb.
  destruct (has_base_columns d n Hb)
    as (a & l & s & oc & hc & (Ha & Hl & Hs & Hoc & Hhc) & _).
  pose proof (calculate_metrics_body_run d a l s oc hc Ha Hl Hs Hoc Hhc) as Hrun.
  exists (<[df := with_metrics a l s oc hc d]> h). split.
  - rewrite (calculate_metrics_run h df d Hd), Hrun. reflexivity.
  - assert (Hlt : df < length h) by (apply lookup_lt_Some with d, Hd).
    rewrite (calculate_metrics_run _ df (with_metrics a l s oc hc d))
      by (unfold heap, loc in *; apply list_lookup_insert_eq, Hlt).
    rewrite (calculate_metrics_body_run _ a l s oc hc)
      by (rewrite with_metrics_base by (unfold base_columns; repeat constructor);
          assumption).
    cbn [fst snd as_ref]. rewrite with_metrics_overwrite.
    unfold heap, loc in *. rewrite list_insert_insert_eq. reflexivity.
Qed.

Lemma no_string_column d k xs :
  base_numeric_or_missing d -> k ∈ @base_columns ->
  column k d = Some (StrS xs) -> False.
Proof.
  unfold base_numeric_or_missing. rewrite Forall_forall.
  intros Hn Hk E. specialize (Hn k Hk). rewrite E in Hn. exact Hn.
Qed.

Ltac no_string Hn E :=
  exfalso; refine (no_string_column _ _ _ Hn _ E);
  unfold base_columns; repeat constructor.

Ltac numeric_so_far :=
  repeat first [apply List.Forall_nil | apply List.Forall_cons; [eauto|]].

(** X4. How [calculate_metrics] ends on a frame whose base columns are
    numeric where they exist.  It succeeds when all five are there.
    Otherwise it raises [KeyError], naming the first base column that is
    missing in the order in which lines 28-30 read them: average daily
    demand, lead time, safety stock, order cost, holding cost.  It
    raises nothing else. *)
Theorem calculate_metrics_outcome d :
  base_numeric_or_missing d ->
  match (calculate_metrics_body d).2 with
  | Ok _ =>
      Forall (fun k => exists xs, column k d = Some (NumS xs)) base_columns
  | Raise (KeyError k) =>
      column k d = None /\
      exists before after,
        @base_columns = before ++ k :: after /\
        Forall (fun k' => exists xs, column k' d = Some (NumS xs)) before
  | Raise TypeError => False
  | Raise Stuck => False
  end.
Proof.
  intros Hn. unfold calculate_metrics_body.
  destruct (column "Average_Daily_Demand" d) as [[a|a]|] eqn:Ha;
    [|no_string Hn Ha|].
  2: { run_frame. cbn [snd]. split; [exact Ha|].
       exists [], ["Lead_Time_Days"; "Safety_Stock"; "Order_Cost";
                   "Holding_Cost"].
       split; [reflexivity|numeric_so_far]. }
  destruct (column "Lead_Time_Days" d) as [[l|l]|] eqn:Hl;
    [|no_string Hn Hl|].
  2: { run_frame. cbn [snd]. split; [exact Hl|].
       exists ["Average_Daily_Demand"],
              ["Safety_Stock"; "Order_Cost"; "Holding_Cost"].
       split; [reflexivity|numeric_so_far]. }
  destruct (column "Safety_Stock" d) as [[s|s]|] eqn:Hs;
    [|no_string Hn Hs|].
  2: { run_frame. cbn [snd]. split; [exact Hs|].
       exists ["Average_Daily_Demand"; "Lead_Time_Days"],
              ["Order_Cost"; "Holding_Cost"].
       split; [reflexivity|numeric_so_far]. }
  destruct (column "Order_Cost" d) as [[oc|oc]|] eqn:Hoc;
    [|no_string Hn Hoc|].
  2: { run_frame. cbn [snd]. split; [exact Hoc|].
       exists ["Average_Daily_Demand"; "Lead_Time_Days"; "Safety_Stock"],
              ["Holding_Cost"].
       split; [reflexivity|numeric_so_far]. }
  destruct (column "Holding_Cost" d) as [[hc|hc]|] eqn:Hhc;
    [|no_string Hn Hhc|].
  2: { run_frame. cbn [snd]. split; [exact Hhc|].
       exists ["Average_Daily_Demand"; "Lead_Time_Days"; "Safety_Stock";
               "Order_Cost"], [].
       split; [reflexivity|numeric_so_far]. }
  run_frame. cbn [snd]. unfold base_columns. numeric_so_far.
Qed.

Ltac line_28 :=
  split; [eauto|]; split; [left; reflexivity|]; split; reflexivity.

(** X5. A call that raises is not undone, on a frame whose base columns
    are numeric where they exist.  What it raises is a [KeyError]; it
    raised on line 28 and the frame is as it was, or it raised on line
    30 and the frame has received [ROP] and [Annual_Demand]; either way
    [EOQ] and [Total_Cost] are what they were before the call. *)
Theorem calculate_metrics_failure_leaves d e :
  base_numeric_or_missing d ->
  (calculate_metrics_body d).2 = Raise e ->
  (exists k, e = KeyError k) /\
  ((calculate_metrics_body d).1 = d \/
   exists a l s,
     column "Average_Daily_Demand" d = Some (NumS a) /\
     column "Lead_Time_Days" d = Some (NumS l) /\
     column "Safety_Stock" d = Some (NumS s) /\
     (calculate_metrics_body d).1 =
       assign "Annual_Demand" (NumS (annual_demand_column a))
         (assign "ROP" (NumS (rop_column a l s)) d)) /\
  column "EOQ" (calculate_metrics_body d).1 = column "EOQ" d /\
  column "Total_Cost" (calculate_metrics_body d).1 = column "Total_Cost" d.
Proof.
  intros Hn. unfold calculate_metrics_body.
  destruct (column "Average_Daily_Demand" d) as [[a|a]|] eqn:Ha;
    [|no_string Hn Ha|run_frame; intros [= <-]; cbn [fst]; line_28].
  destruct (column "Lead_Time_Days" d) as [[l|l]|] eqn:Hl;
    [|no_string Hn Hl|run_frame; intros [= <-]; cbn [fst]; line_28].
  destruct (column "Safety_Stock" d) as [[s|s]|] eqn:Hs;
    [|no_string Hn Hs|run_frame; intros [= <-]; cbn [fst]; line_28].
  destruct (column "Order_Cost" d) as [[oc|oc]|] eqn:Hoc; [|no_string Hn Hoc|];
  (destruct (column "Holding_Cost" d) as [[hc|hc]|] eqn:Hhc;
     [|no_string Hn Hhc|]);
  run_frame; cbn [fst snd]; intros He; try discriminate He;
  injection He as <-;
  (split; [eauto|]);
  (split; [|split; rewrite ?column_assign_ne by discriminate; reflexivity]);
  right; exists a, l, s; auto.
Qed.

(** X6. Scenarios compose.  The scenario "High Demand (+20%)" run on the
    frame that "Supply Delay (+3 days)" returned gives the frame that
    "High Demand + Supply Delay" gives on the original, and so does
    "Supply Delay (+3 days)" run on what "High Demand (+20%)" returned:
    the derived columns a frame already carries are recomputed from its
    base columns. *)
Theorem scenarios_compose h df d n :
  h !! df = Some d ->
  has_base d n ->
  exists d1 d2 d12,
    apply_scenario df "Supply Delay (+3 days)" h = (h ++ [d1], Ok (length h)) /\
    apply_scenario df "High Demand (+20%)" h = (h ++ [d2], Ok (length h)) /\
    apply_scenario df "High Demand + Supply Delay" h =
      (h ++ [d12], Ok (length h)) /\
    apply_scenario (length h) "High Demand (+20%)" (h ++ [d1]) =
      ((h ++ [d1]) ++ [d12], Ok (length (h ++ [d1]))) /\
    apply_scenario (length h) "Supply Delay (+3 days)" (h ++ [d2]) =
      ((h ++ [d2]) ++ [d12], Ok (length (h ++ [d2]))).
Proof.
  intros Hd Hb.
  destruct (has_base_columns d n Hb)
    as (a & l & s & oc & hc & (Ha & Hl & Hs & Hoc & Hhc) & _).
  set (a' := (fun x => fmul x lit_1_2) <$> a).
  set (l' := (fun x => fadd x (of_int 3)) <$> l).
  set (d1 := with_metrics a l' s oc hc (assign "Lead_Time_Days" (NumS l') d)).
  set (d2 := with_metrics a' l s oc hc
               (assign "Average_Daily_Demand" (NumS a') d)).
  set (d12 := with_metrics a' l' s oc hc
                (assign "Lead_Time_Days" (NumS l')
                   (assign "Average_Daily_Demand" (NumS a') d))).
  assert (Hbody : forall d0 a0 l0,
            column "Average_Daily_Demand" d0 = Some (NumS a0) ->
            column "Lead_Time_Days" d0 = Some (NumS l0) ->
            column "Safety_Stock" d0 = Some (NumS s) ->
            column "Order_Cost" d0 = Some (NumS oc) ->
            column "Holding_Cost" d0 = Some (NumS hc) ->
            calculate_metrics_body d0 = (with_metrics a0 l0 s oc hc d0, Ok tt))
    by (intros; apply calculate_metrics_body_run; assumption).
  exists d1, d2, d12.
  split; [|split; [|split; [|split]]].
  - rewrite (apply_scenario_run h df _ d Hd).
    unfold scenario_body, perturbation. cbn [String.eqb Ascii.eqb Bool.eqb].
    unfold mbind, st_bind. rewrite (supply_delay_run d l Hl).
    rewrite (Hbody _ a l') by has_column. reflexivity.
  - rewrite (apply_scenario_run h df _ d Hd).
    unfold scenario_body, perturbation. cbn [String.eqb Ascii.eqb Bool.eqb].
    unfold mbind, st_bind. rewrite (high_demand_run d a Ha).
    rewrite (Hbody _ a' l) by has_column. reflexivity.
  - rewrite (apply_scenario_run h df _ d Hd).
    unfold scenario_body, perturbation. cbn [String.eqb Ascii.eqb Bool.eqb].
    unfold mbind, st_bind. rewrite (high_demand_run d a Ha).
    rewrite (supply_delay_run _ l) by has_column.
    rewrite (Hbody _ a' l') by has_column. reflexivity.
  - rewrite (apply_scenario_run _ (length h) _ d1)
      by (apply list_lookup_middle; reflexivity).
    unfold scenario_body, perturbation. cbn [String.eqb Ascii.eqb Bool.eqb].
    unfold mbind, st_bind.
    rewrite (high_demand_run d1 a)
      by (unfold d1; rewrite with_metrics_base
            by (unfold base_columns; repeat constructor); has_column).
    fold a'. unfold d1.
    rewrite assign_with_metrics
      by (try (unfold derived_columns; rewrite !elem_of_cons, elem_of_nil;
               intros [?|[?|[?|[?|[]]]]]; discriminate); has_column).
    rewrite (Hbody _ a' l')
      by (rewrite with_metrics_base
            by (unfold base_columns; repeat constructor); has_column).
    rewrite with_metrics_overwrite.
    rewrite (assign_comm "Average_Daily_Demand" "Lead_Time_Days")
      by (try discriminate; has_column).
    reflexivity.
  - rewrite (apply_scenario_run _ (length h) _ d2)
      by (apply list_lookup_middle; reflexivity).
    unfold scenario_body, perturbation. cbn [String.eqb Ascii.eqb Bool.eqb].
    unfold mbind, st_bind.
    rewrite (supply_delay_run d2 l)
      by (unfold d2; rewrite with_metrics_base
            by (unfold base_columns; repeat constructor); has_column).
    fold l'. unfold d2.
    rewrite assign_with_metrics
      by (try (unfold derived_columns; rewrite !elem_of_cons, elem_of_nil;
               intros [?|[?|[?|[?|[]]]]]; discriminate); has_column).
    rewrite (Hbody _ a' l')
      by (rewrite with_metrics_base
            by (unfold base_columns; repeat constructor); has_column).
    rewrite with_metrics_overwrite. reflexivity.
Qed.

End Engine.

(** ** The summary keeps the totals *)

Section Totals.
Local Open Scope R_scope.

Lemma select_fmap {A B} (f : A -> B) k cs (xs : list A) :
  select k cs (f <$> xs) = f <$> select k cs xs.
Proof.
  revert xs. induction cs as [|c cs IH]; intros [|x xs]; simpl; try reflexivity.
  rewrite IH. destruct (String.eqb k c); reflexivity.
Qed.

Lemma sum_by_defined keys cs (xs : list R) :
  sum_by keys cs (Some <$> xs : list xreal) =
  Some <$> ((fun k => rsum (select k cs xs)) <$> keys).
Proof.
  unfold sum_by. rewrite <- list_fmap_compose. apply list_fmap_ext.
  intros _ k _. simpl. rewrite select_fmap. apply nansum_defined.
Qed.

Lemma rsum_cons x xs : rsum (x :: xs) = x + rsum xs.
Proof. reflexivity. Qed.

Lemma rsum_fmap_add {A} (f g : A -> R) (l : list A) :
  rsum ((fun a => f a + g a) <$> l) = rsum (f <$> l) + rsum (g <$> l).
Proof.
  induction l as [|a l IH]; [simpl; lra|].
  rewrite !fmap_cons, !rsum_cons, IH. lra.
Qed.

Lemma rsum_fmap_zero {A} (f : A -> R) (l : list A) :
  (forall a, a ∈ l -> f a = 0) -> rsum (f <$> l) = 0.
Proof.
  induction l as [|a l IH]; intros Hf; [reflexivity|].
  rewrite fmap_cons, rsum_cons, IH, Hf.
  - lra.
  - left.
  - intros a' Ha'. apply Hf. right. exact Ha'.
Qed.

(** One row's share of the group sums: its value goes to the one key
    that is its class. *)
Lemma rsum_indicator keys c x :
  NoDup keys -> c ∈ keys ->
  rsum ((fun k => if String.eqb k c then x else 0) <$> keys) = x.
Proof.
  induction keys as [|k keys IH]; intros Hnd Hin.
  - apply elem_of_nil in Hin. destruct Hin.
  - apply NoDup_cons in Hnd as [Hk Hnd]. rewrite fmap_cons, rsum_cons.
    destruct (String.eqb_spec k c) as [->|Hne].
    + rewrite rsum_fmap_zero; [lra|].
      intros k' Hk'. destruct (String.eqb_spec k' c); [congruence|reflexivity].
    + apply elem_of_cons in Hin as [->|Hin]; [contradiction|].
      rewrite (IH Hnd Hin). lra.
Qed.

Lemma rsum_select_partition keys cs (xs : list R) :
  NoDup keys -> (forall c, c ∈ cs -> c ∈ keys) -> length xs = length cs ->
  rsum ((fun k => rsum (select k cs xs)) <$> keys) = rsum xs.
Proof.
  intros Hnd. revert xs.
  induction cs as [|c cs IH]; intros [|x xs] Hcov Hlen; try discriminate.
  - apply rsum_fmap_zero. reflexivity.
  - simpl in Hlen. injection Hlen as Hlen.
    rewrite (list_fmap_ext
               (fun k => rsum (select k (c :: cs) (x :: xs)))
               (fun k => (if String.eqb k c then x else 0) +
                         rsum (select k cs xs)) keys)
      by (intros _ k _; simpl; destruct (String.eqb k c);
          [reflexivity|rewrite Rplus_0_l; reflexivity]).
    rewrite rsum_fmap_add, rsum_indicator, IH, rsum_cons; auto.
    + intros c' Hc'. apply Hcov. right. exact Hc'.
    + apply Hcov. left.
Qed.

(** X7. In exact arithmetic, on a frame whose [ROP], [EOQ] and
    [Total_Cost] entries are all defined, the class-wise summary keeps
    the totals: the group sums of each column add up to the sum of the
    column. *)
Theorem class_summary_keeps_totals (d : @DataFrame xreal) cs rs es ts :
  column "Class" d = Some (StrS cs) ->
  column "ROP" d = Some (NumS (Some <$> rs)) ->
  column "EOQ" d = Some (NumS (Some <$> es)) ->
  column "Total_Cost" d = Some (NumS (Some <$> ts)) ->
  length rs = length cs -> length es = length cs -> length ts = length cs ->
  exists srs ses sts,
    class_summary d =
      Ok [("Class", StrS (group_keys cs)); ("ROP", NumS (Some <$> srs));
          ("EOQ", NumS (Some <$> ses)); ("Total_Cost", NumS (Some <$> sts))] /\
    rsum srs = rsum rs /\ rsum ses = rsum es /\ rsum sts = rsum ts.
Proof.
  intros Hc Hr He Ht Lr Le Lt.
  exists ((fun k => rsum (select k cs rs)) <$> group_keys cs),
         ((fun k => rsum (select k cs es)) <$> group_keys cs),
         ((fun k => rsum (select k cs ts)) <$> group_keys cs).
  split.
  - rewrite (class_summary_run d cs _ _ _ Hc Hr He Ht), !sum_by_defined.
    reflexivity.
  - repeat split; apply rsum_select_partition;
      auto using group_keys_NoDup; intros c; apply elem_of_group_keys.
Qed.

End Totals.

(** ** Deleting a SKU *)

Section Masks.
Context {A : Type}.
Implicit Types (mask : list bool) (xs : list A).

Lemma keep_all xs mask :
  length xs <= length mask -> Forall (fun b => b = true) mask ->
  keep mask xs = xs.
Proof.
  revert xs. induction mask as [|b mask IH]; intros [|x xs] Hlen Hall;
    simpl in *; try reflexivity; [lia|].
  apply Forall_cons in Hall as [-> Hall]. rewrite IH; [reflexivity|lia|exact Hall].
Qed.

Lemma keep_length xs mask :
  length xs = length mask -> length (keep mask xs) = kept mask.
Proof.
  revert xs. induction mask as [|b mask IH]; intros [|x xs] Hlen;
    simpl in *; try reflexivity; try discriminate.
  injection Hlen as Hlen. specialize (IH xs Hlen).
  destruct b; simpl; lia.
Qed.

Lemma keep_lookup mask xs p :
  mask !! p = Some true -> keep mask xs !! rank mask p = xs !! p.
Proof.
  unfold rank. revert xs p.
  induction mask as [|b mask IH]; intros xs p Hp; [destruct p; discriminate|].
  destruct p as [|p]; simpl in Hp.
  - injection Hp as ->. destruct xs; reflexivity.
  - destruct xs as [|x xs].
    + destruct b; simpl; rewrite ?lookup_nil; reflexivity.
    + destruct b; simpl; apply (IH xs p Hp).
Qed.

Lemma keep_sublist mask xs : keep mask xs `sublist_of` xs.
Proof.
  revert xs. induction mask as [|b mask IH]; intros [|x xs]; simpl;
    try apply sublist_nil_l.
  destruct b; [apply sublist_skip|apply sublist_cons]; apply IH.
Qed.

End Masks.

Section Delete.
Context {F : Type} `{Arith F}.
Implicit Types (t : @Table F) (d : @DataFrame F) (v : @Series F)
  (mask : list bool) (k selected : string).

Lemma column_keep_rows k mask d :
  column k (keep_rows mask d) = keep_series mask <$> column k d.
Proof.
  induction d as [|[k1 v1] d IH]; simpl; [reflexivity|].
  destruct (String.eqb k k1); [reflexivity|exact IH].
Qed.

Lemma columns_keep_rows mask d : columns (keep_rows mask d) = columns d.
Proof.
  unfold columns, keep_rows. rewrite <- list_fmap_compose.
  apply list_fmap_ext. intros _ [k v] _. reflexivity.
Qed.

Lemma column_elem_of k d v : column k d = Some v -> (k, v) ∈ d.
Proof.
  induction d as [|[k1 v1] d IH]; simpl; [discriminate|].
  destruct (String.eqb_spec k k1) as [->|Hne].
  - intros [= ->]. left.
  - intros Hc. right. exact (IH Hc).
Qed.

Lemma table_ok_rows t k v :
  table_ok t -> column k (frame t) = Some v -> rows v = length (index t).
Proof.
  intros Hok Hc. unfold table_ok in Hok. rewrite Forall_forall in Hok.
  exact (Hok _ (column_elem_of _ _ _ Hc)).
Qed.

Lemma rows_keep_series mask v :
  rows v = length mask -> rows (keep_series mask v) = kept mask.
Proof. destruct v; simpl; apply keep_length. Qed.

Lemma keep_series_all mask v :
  rows v <= length mask -> Forall (fun b => b = true) mask ->
  keep_series mask v = v.
Proof. destruct v; simpl; intros; f_equal; apply keep_all; assumption. Qed.

Lemma cell_at_keep_rows k mask d p :
  mask !! p = Some true ->
  cell_at k (keep_rows mask d) (rank mask p) = cell_at k d p.
Proof.
  intros Hp. unfold cell_at. rewrite column_keep_rows.
  destruct (column k d) as [[xs|xs]|]; simpl;
    rewrite ?(keep_lookup mask _ p Hp); reflexivity.
Qed.

Lemma keep_other_than selected skus :
  keep (other_than selected skus) skus = filter (fun s => s <> selected) skus.
Proof.
  induction skus as [|s skus IH]; [reflexivity|].
  unfold other_than in *. rewrite fmap_cons. simpl.
  destruct (String.eqb_spec s selected) as [->|Hne]; simpl.
  - rewrite filter_cons_False by tauto. exact IH.
  - rewrite filter_cons_True by exact Hne. rewrite IH. reflexivity.
Qed.

Lemma other_than_all selected skus :
  selected ∉ skus -> Forall (fun b => b = true) (other_than selected skus).
Proof.
  intros Hnot. unfold other_than. apply Forall_fmap, Forall_forall.
  intros s Hs. simpl. destruct (String.eqb_spec s selected) as [->|]; tauto.
Qed.

Lemma table_ok_keep t mask :
  table_ok t -> length mask = length (index t) ->
  table_ok {| index := keep mask (index t); frame := keep_rows mask (frame t) |}.
Proof.
  unfold table_ok. simpl. intros Hok Hlen.
  rewrite (keep_length (index t) mask) by congruence.
  unfold keep_rows. apply Forall_fmap. eapply Forall_impl; [exact Hok|].
  intros [k v] Hv. simpl in *. apply rows_keep_series. congruence.
Qed.

Lemma keep_table_all t mask :
  table_ok t -> length mask = length (index t) ->
  Forall (fun b => b = true) mask ->
  {| index := keep mask (index t); frame := keep_rows mask (frame t) |} = t.
Proof.
  intros Hok Hlen Hall. destruct t as [idx d]. simpl in *. f_equal.
  - apply keep_all; [lia|exact Hall].
  - unfold table_ok in Hok. simpl in Hok. unfold keep_rows.
    induction d as [|[k v] d IH]; [reflexivity|].
    apply Forall_cons in Hok as [Hv Hok]. rewrite fmap_cons, (IH Hok).
    simpl in *. rewrite keep_series_all by (try assumption; lia). reflexivity.
Qed.

(** X8. Deleting a SKU removes every row that carries the label and
    nothing else: the labels left are the others, in their order; each
    row with another label is still there with all its entries and its
    row label; the columns are those of before; a label that no row
    carries leaves the table as it is; and deleting the same label again
    changes nothing. *)
Theorem delete_sku_removes selected t skus :
  table_ok t ->
  column "SKU" (frame t) = Some (StrS skus) ->
  exists t',
    delete_sku selected t = Done t' /\
    table_ok t' /\
    columns (frame t') = columns (frame t) /\
    column "SKU" (frame t') =
      Some (StrS (filter (fun s => s <> selected) skus)) /\
    (forall p sku, skus !! p = Some sku -> sku <> selected ->
       exists p', index t' !! p' = index t !! p /\
                  forall k, cell_at k (frame t') p' = cell_at k (frame t) p) /\
    (selected ∉ skus -> t' = t) /\
    delete_sku selected t' = Done t'.
Proof.
  intros Hok Hsku.
  pose proof (table_ok_rows t _ _ Hok Hsku) as Hlen. simpl in Hlen.
  set (mask := other_than selected skus).
  assert (Hmask : length mask = length (index t))
    by (unfold mask, other_than; rewrite length_fmap; exact Hlen).
  set (t' := {| index := keep mask (index t);
                frame := keep_rows mask (frame t) |}).
  assert (Hrun : delete_sku selected t = Done t')
    by (unfold delete_sku; rewrite Hsku; reflexivity).
  assert (Hok' : table_ok t') by (apply table_ok_keep; assumption).
  assert (Hsku' : column "SKU" (frame t') =
                  Some (StrS (filter (fun s => s <> selected) skus))).
  { unfold t'. simpl. rewrite column_keep_rows, Hsku. simpl.
    unfold mask. rewrite keep_other_than. reflexivity. }
  exists t'. repeat split; try assumption.
  - apply columns_keep_rows.
  - intros p sku Hp Hne. exists (rank mask p).
    assert (Hm : mask !! p = Some true).
    { unfold mask, other_than. rewrite list_lookup_fmap, Hp. simpl.
      destruct (String.eqb_spec sku selected); [contradiction|reflexivity]. }
    split.
    + apply keep_lookup, Hm.
    + intros k. apply cell_at_keep_rows, Hm.
  - intros Hnot. apply keep_table_all; try assumption.
    apply other_than_all, Hnot.
  - unfold delete_sku. rewrite Hsku'.
    rewrite keep_table_all; try assumption; [reflexivity| |].
    + unfold other_than. rewrite length_fmap.
      exact (table_ok_rows t' _ _ Hok' Hsku').
    + apply other_than_all. intros Hin.
      apply list_elem_of_filter in Hin as [Hne _]. apply Hne. reflexivity.
Qed.

End Delete.

(** ** The page "View SKUs" *)

Lemma position_None i idx : position i idx = None <-> i ∉ idx.
Proof.
  induction idx as [|j idx IH]; simpl.
  - split; [intros _; apply not_elem_of_nil|reflexivity].
  - rewrite not_elem_of_cons. destruct (Nat.eqb_spec j i) as [->|Hne].
    + split; [discriminate|intros [? _]; congruence].
    + destruct (position i idx); split; try discriminate; try tauto.
      * intros [_ Hn]. apply IH in Hn. discriminate.
      * intros _. split; [congruence|]. apply IH. reflexivity.
Qed.

Lemma position_Some i idx p :
  position i idx = Some p -> idx !! p = Some i.
Proof.
  revert p. induction idx as [|j idx IH]; simpl; intros p; [discriminate|].
  destruct (Nat.eqb_spec j i) as [->|Hne].
  - intros [= <-]. reflexivity.
  - destruct (position i idx) as [q|]; [|discriminate].
    intros [= <-]. simpl. apply IH. reflexivity.
Qed.

Lemma position_seq b n i :
  b <= i < b + n -> position i (seq b n) = Some (i - b).
Proof.
  revert b. induction n as [|n IH]; intros b Hi; [lia|]. simpl.
  destruct (Nat.eqb_spec b i) as [->|Hne].
  - rewrite Nat.sub_diag. reflexivity.
  - rewrite (IH (S b)) by lia. f_equal. lia.
Qed.

Lemma elem_of_keep_seq mask b i :
  i ∈ keep mask (seq b (length mask)) <->
  exists j, i = b + j /\ mask !! j = Some true.
Proof.
  revert b. induction mask as [|m mask IH]; intros b; simpl.
  - rewrite elem_of_nil. split; [tauto|]. intros (j & _ & Hj). discriminate.
  - destruct m.
    + rewrite elem_of_cons, IH. split.
      * intros [->|(j & -> & Hj)]; [exists 0|exists (S j)]; split;
          try lia; first [assumption|reflexivity].
      * intros ([|j] & -> & Hj); [left; lia|right]. exists j. split; [lia|exact Hj].
    + rewrite IH. split.
      * intros (j & -> & Hj). exists (S j). split; [lia|exact Hj].
      * intros ([|j] & -> & Hj); [discriminate|]. exists j. split; [lia|exact Hj].
Qed.

(** Labels that are all there up to the number of rows are the first
    labels: a row label at or past the number of rows means that a
    smaller one is missing. *)
Lemma missing_label idx q :
  NoDup idx -> q ∈ idx -> length idx <= q ->
  exists m, m < length idx /\ m ∉ idx.
Proof.
  intros Hnd Hq Hlen.
  destruct (decide (Forall (fun i => i ∈ idx) (seq 0 (length idx))))
    as [Hall|Hex].
  - exfalso. rewrite Forall_forall in Hall.
    assert (Hperm : seq 0 (length idx) ≡ₚ idx).
    { apply submseteq_length_Permutation.
      - apply NoDup_submseteq; [apply NoDup_seq|exact Hall].
      - rewrite length_seq. lia. }
    rewrite <- Hperm in Hq. apply elem_of_seq in Hq. lia.
  - apply not_Forall_Exists in Hex; [|apply _].
    apply Exists_exists in Hex as (m & Hm & Hnot).
    apply elem_of_seq in Hm. exists m. split; [lia|exact Hnot].
Qed.

Ltac not_scenario_column :=
  unfold scenario_columns, derived_columns;
  rewrite !elem_of_cons, elem_of_nil;
  intros [?|[?|[?|[?|[?|[?|[]]]]]]]; discriminate.

Section View.
Context {F : Type} `{Arith F}.
Implicit Types (t : @Table F) (d : @DataFrame F) (idx : list nat)
  (rops eoqs : list F) (skus : list string).

Lemma at_label_present idx (xs : list F) i p :
  position i idx = Some p -> length xs = length idx ->
  exists x, xs !! p = Some x /\ at_label idx xs i = Done x.
Proof.
  intros Hp Hlen. unfold at_label. rewrite Hp.
  destruct (lookup_lt_is_Some_2 xs p) as [x Hx].
  - rewrite Hlen. apply lookup_lt_Some with i, position_Some, Hp.
  - exists x. rewrite Hx. auto.
Qed.

(** The loop stops at the first count that is no row label. *)
Lemma chart_texts_missing idx rops eoqs i skus m :
  length rops = length idx -> length eoqs = length idx ->
  i <= m -> m < i + length skus -> m ∉ idx ->
  exists j, chart_texts idx rops eoqs i skus = Fail (LabelKeyError j) /\
            (j ∉ idx) /\ i <= j /\ j <= m.
Proof.
  intros Hr He. revert i.
  induction skus as [|sku skus IH]; intros i Hm Hm' Hnot; simpl in *; [lia|].
  destruct (position i idx) as [p|] eqn:Hp.
  - destruct (at_label_present idx rops i p Hp Hr) as (x & _ & ->).
    destruct (at_label_present idx eoqs i p Hp He) as (y & _ & ->).
    assert (i <> m).
    { intros ->. apply position_None in Hnot. congruence. }
    destruct (IH (S i)) as (j & -> & Hj & Hij & Hjm); [lia|lia|exact Hnot|].
    exists j. repeat split; try assumption; lia.
  - exists i. unfold at_label. rewrite Hp. simpl.
    repeat split; [apply position_None, Hp|lia|lia].
Qed.

(** On labels 0, 1, 2, ... every turn of the loop finds its row. *)
Lemma chart_texts_range n rops eoqs i skus :
  length rops = n -> length eoqs = n -> i + length skus <= n ->
  exists texts,
    chart_texts (range_index n) rops eoqs i skus = Done texts /\
    length texts = length skus /\
    forall j sku, skus !! j = Some sku ->
      exists x y, rops !! (i + j) = Some x /\ eoqs !! (i + j) = Some y /\
                  texts !! j = Some (fadd x (of_int 5), y, sku).
Proof.
  intros Hr He. revert i.
  induction skus as [|sku skus IH]; intros i Hi; simpl in *.
  - exists []. repeat split. intros j sku Hj. rewrite lookup_nil in Hj. discriminate.
  - assert (Hp : position i (range_index n) = Some i).
    { unfold range_index. rewrite position_seq by lia. f_equal. lia. }
    assert (Hn : length (range_index n) = n) by apply length_seq.
    destruct (at_label_present (range_index n) rops i i Hp) as (x & Hx & ->);
      [congruence|].
    destruct (at_label_present (range_index n) eoqs i i Hp) as (y & Hy & ->);
      [congruence|].
    destruct (IH (S i)) as (texts & -> & Hlen & Hat); [lia|].
    exists ((fadd x (of_int 5), y, sku) :: texts). simpl.
    repeat split; [congruence|].
    intros [|j] sku' Hj; simpl in Hj.
    + injection Hj as <-. exists x, y. rewrite Nat.add_0_r. auto.
    + destruct (Hat j sku' Hj) as (x' & y' & Hx' & Hy' & Ht).
      exists x', y'. rewrite <- Nat.add_succ_comm. auto.
Qed.

Lemma writes_ret {A} ks (a : A) :
  writes ks (mret a : ST (@DataFrame F) A).
Proof. intros d k _. reflexivity. Qed.

Lemma scenario_body_writes scenario :
  writes scenario_columns (scenario_body (F:=F) scenario).
Proof.
  unfold scenario_body, perturbation, high_demand, supply_delay,
    calculate_metrics_body.
  destruct (String.eqb scenario "High Demand (+20%)");
    [|destruct (String.eqb scenario "Supply Delay (+3 days)");
      [|destruct (String.eqb scenario "High Demand + Supply Delay")]];
  repeat first
    [ apply writes_bind; [|intros ?]
    | apply writes_getitem
    | apply writes_lift
    | apply writes_ret
    | apply writes_setitem; unfold scenario_columns, derived_columns;
      repeat constructor ].
Qed.

Lemma perturbation_ok scenario d n :
  has_base d n ->
  exists d1, perturbation scenario d = (d1, Ok tt) /\ has_base d1 n.
Proof.
  intros Hb.
  destruct (has_base_columns d n Hb)
    as (a & l & s & oc & hc & (Ha & Hl & _) & (La & Ll & _)).
  unfold perturbation.
  destruct (String.eqb scenario "High Demand (+20%)");
    [|destruct (String.eqb scenario "Supply Delay (+3 days)");
      [|destruct (String.eqb scenario "High Demand + Supply Delay")]].
  - eexists. split; [apply (high_demand_run d a Ha)|].
    apply has_base_assign; [exact Hb|rewrite length_fmap; exact La].
  - eexists. split; [apply (supply_delay_run d l Hl)|].
    apply has_base_assign; [exact Hb|rewrite length_fmap; exact Ll].
  - eexists. split.
    + unfold mbind, st_bind. rewrite (high_demand_run d a Ha).
      apply (supply_delay_run _ l).
      rewrite column_assign_ne by discriminate. exact Hl.
    + apply has_base_assign; [apply has_base_assign|];
        rewrite ?length_fmap; assumption.
  - exists d. split; [reflexivity|exact Hb].
Qed.

(** The scenario frame of a table with numeric base columns. *)
Lemma scenario_body_ok scenario d n :
  has_base d n ->
  exists d' rops eoqs tcs,
    scenario_body scenario d = (d', Ok tt) /\
    (forall k, k ∉ scenario_columns -> column k d' = column k d) /\
    column "ROP" d' = Some (NumS rops) /\ length rops = n /\
    column "EOQ" d' = Some (NumS eoqs) /\ length eoqs = n /\
    column "Total_Cost" d' = Some (NumS tcs).
Proof.
  intros Hb.
  destruct (perturbation_ok scenario d n Hb) as (d1 & Hp & Hb1).
  destruct (calculate_metrics_body_spec d1 n Hb1) as (d' & Hrun & _ & Hlen & _).
  assert (Hsc : scenario_body scenario d = (d', Ok tt))
    by (unfold scenario_body, mbind, st_bind; rewrite Hp; exact Hrun).
  assert (Hnum : forall k, k ∈ @derived_columns ->
            exists xs, column k d' = Some (NumS xs) /\ length xs = n).
  { intros k Hk. specialize (Hlen k Hk). unfold num_len in Hlen.
    destruct (column k d') as [[xs|xs]|]; try discriminate.
    exists xs. split; [reflexivity|congruence]. }
  destruct (Hnum "ROP") as (rops & Hr & Lr);
    [unfold derived_columns; repeat constructor|].
  destruct (Hnum "EOQ") as (eoqs & He & Le);
    [unfold derived_columns; repeat constructor|].
  destruct (Hnum "Total_Cost") as (tcs & Ht & _);
    [unfold derived_columns; repeat constructor|].
  exists d', rops, eoqs, tcs. repeat split; try assumption.
  intros k Hk. pose proof (scenario_body_writes scenario d k Hk) as Hw.
  rewrite Hsc in Hw. exact Hw.
Qed.

(** X9. On a table whose row labels are 0, 1, 2, ... (the session at its
    start, after an upload and after an added SKU), with numeric base
    columns and string [SKU] and [Class] columns, the page shows
    whatever the scenario: one chart text per row, at that row's ROP
    plus 5 and EOQ, and the class-wise summary. *)
Theorem view_on_range_index scenario t n skus cs :
  table_ok t ->
  index t = range_index n ->
  has_base (frame t) n ->
  column "SKU" (frame t) = Some (StrS skus) ->
  column "Class" (frame t) = Some (StrS cs) ->
  exists df_scenario rops eoqs texts summary,
    scenario_body scenario (frame t) = (df_scenario, Ok tt) /\
    column "ROP" df_scenario = Some (NumS rops) /\
    column "EOQ" df_scenario = Some (NumS eoqs) /\
    view scenario t = Done (texts, summary) /\
    class_summary df_scenario = Ok summary /\
    length texts = n /\
    forall i sku, skus !! i = Some sku ->
      exists x y, rops !! i = Some x /\ eoqs !! i = Some y /\
                  texts !! i = Some (fadd x (of_int 5), y, sku).
Proof.
  intros Hok Hidx Hb Hsku Hcls.
  destruct (scenario_body_ok scenario (frame t) n Hb)
    as (d' & rops & eoqs & tcs & Hsc & Hkeep & Hr & Lr & He & Le & Ht).
  assert (Hsku' : column "SKU" d' = Some (StrS skus))
    by (rewrite Hkeep by not_scenario_column; exact Hsku).
  assert (Hcls' : column "Class" d' = Some (StrS cs))
    by (rewrite Hkeep by not_scenario_column; exact Hcls).
  assert (Ls : length skus = n).
  { pose proof (table_ok_rows t _ _ Hok Hsku) as Hl. simpl in Hl.
    rewrite Hl, Hidx. apply length_seq. }
  destruct (chart_texts_range n rops eoqs 0 skus Lr Le)
    as (texts & Hch & Hlen & Hat); [lia|].
  pose proof (class_summary_run d' cs rops eoqs tcs Hcls' Hr He Ht) as Hsum.
  eexists d', rops, eoqs, texts, _.
  split; [exact Hsc|]. split; [exact Hr|]. split; [exact He|]. split.
  - unfold view, chart, need, mbind, outcome_bind. rewrite Hsc.
    cbn [fst snd of_result]. rewrite Hr, He, Hsku'. cbn [of_result].
    rewrite Hidx, Hch, Hsum. reflexivity.
  - split; [exact Hsum|]. split; [congruence|exact Hat].
Qed.

(** X10. After a SKU was deleted that stood before another one, the page
    raises a [KeyError]: the rows left keep their labels, the chart loop
    counts 0, 1, 2, ..., and some count below the number of rows is the
    label of no row. *)
Theorem view_after_delete scenario selected other t n skus cs p q :
  table_ok t ->
  index t = range_index n ->
  has_base (frame t) n ->
  column "SKU" (frame t) = Some (StrS skus) ->
  column "Class" (frame t) = Some (StrS cs) ->
  skus !! p = Some selected ->
  skus !! q = Some other ->
  other <> selected ->
  p < q ->
  exists t' i,
    delete_sku selected t = Done t' /\
    view scenario t' = Fail (LabelKeyError i) /\
    i < length (index t') /\
    i ∉ index t'.
Proof.
  intros Hok Hidx Hb Hsku Hcls Hp Hq Hne Hpq.
  assert (Ls : length skus = n).
  { pose proof (table_ok_rows t _ _ Hok Hsku) as Hl. simpl in Hl.
    rewrite Hl, Hidx. apply length_seq. }
  set (mask := other_than selected skus).
  assert (Lm : length mask = n)
    by (unfold mask, other_than; rewrite length_fmap; exact Ls).
  set (t' := {| index := keep mask (index t);
                frame := keep_rows mask (frame t) |}).
  assert (Hrun : delete_sku selected t = Done t')
    by (unfold delete_sku; rewrite Hsku; reflexivity).
  assert (Hn : length (index t) = n) by (rewrite Hidx; apply length_seq).
  assert (Hok' : table_ok t') by (apply table_ok_keep; congruence).
  assert (Hidx' : index t' = keep mask (seq 0 (length mask)))
    by (unfold t'; simpl; rewrite Hidx, Lm; reflexivity).
  assert (Hlen' : length (index t') = kept mask)
    by (unfold t'; simpl; apply keep_length; congruence).
  assert (Hb' : has_base (frame t') (kept mask)).
  { unfold has_base in *. rewrite Forall_forall in *. intros k Hk.
    specialize (Hb k Hk). unfold num_len in *. unfold t'. simpl.
    rewrite column_keep_rows.
    destruct (column k (frame t)) as [[xs|xs]|]; try discriminate. simpl.
    rewrite keep_length; [reflexivity|]. injection Hb as Hb. congruence. }
  (* the labels left *)
  assert (Hnd : NoDup (index t')).
  { rewrite Hidx'. eapply sublist_NoDup; [apply NoDup_seq|apply keep_sublist]. }
  assert (Hqin : q ∈ index t').
  { rewrite Hidx'. apply elem_of_keep_seq. exists q. split; [reflexivity|].
    unfold mask, other_than. rewrite list_lookup_fmap, Hq. simpl.
    destruct (String.eqb_spec other selected); [contradiction|reflexivity]. }
  assert (Hpout : p ∉ index t').
  { rewrite Hidx'. intros Hin. apply elem_of_keep_seq in Hin as (j & Hj0 & Hj).
    simpl in Hj0. subst j. unfold mask, other_than in Hj. rewrite list_lookup_fmap, Hp in Hj.
    simpl in Hj. rewrite String.eqb_refl in Hj. discriminate. }
  assert (Hmiss : exists m, m < length (index t') /\ m ∉ index t').
  { destruct (decide (length (index t') <= q)) as [Hle|Hgt].
    - exact (missing_label _ q Hnd Hqin Hle).
    - exists p. split; [lia|exact Hpout]. }
  destruct Hmiss as (m & Hm & Hmout).
  (* the scenario frame of what is left, and its chart *)
  destruct (scenario_body_ok scenario (frame t') (kept mask) Hb')
    as (d' & rops & eoqs & tcs & Hsc & Hkeep & Hr & Lr & He & Le & Ht).
  assert (Hsku' : column "SKU" d' =
                  Some (StrS (keep mask skus))).
  { rewrite Hkeep by not_scenario_column. unfold t'. simpl.
    rewrite column_keep_rows, Hsku. reflexivity. }
  destruct (chart_texts_missing (index t') rops eoqs 0 (keep mask skus) m)
    as (i & Hch & Hiout & Hi0 & Him); try congruence; try lia.
  { rewrite keep_length by congruence. lia. }
  exists t', i. split; [exact Hrun|]. split; [|split; [lia|exact Hiout]].
  unfold view, chart, need, mbind, outcome_bind. rewrite Hsc.
  cbn [fst snd of_result]. rewrite Hr, He, Hsku'. cbn [of_result].
  rewrite Hch. reflexivity.
Qed.

End View.

(** ** Adding a SKU *)

Lemma keep_app {A} (m m' : list bool) (xs ys : list A) :
  length m = length xs ->
  keep (m ++ m') (xs ++ ys) = keep m xs ++ keep m' ys.
Proof.
  revert xs. induction m as [|b m IH]; intros [|x xs] Hlen;
    try discriminate; [reflexivity|].
  simpl in *. injection Hlen as Hlen. rewrite (IH xs Hlen).
  destruct b; reflexivity.
Qed.

Lemma kept_app m m' : kept (m ++ m') = kept m + kept m'.
Proof. induction m as [|b m IH]; simpl; [reflexivity|]. rewrite IH. lia. Qed.

Lemma kept_le m : kept m <= length m.
Proof. induction m as [|[] m IH]; simpl; lia. Qed.

Lemma other_than_app selected skus skus' :
  other_than selected (skus ++ skus') =
  other_than selected skus ++ other_than selected skus'.
Proof. unfold other_than. apply fmap_app. Qed.

Lemma kept_other_than_lt selected skus :
  selected ∈ skus -> kept (other_than selected skus) < length skus.
Proof.
  induction skus as [|s skus IH]; intros Hin.
  - apply elem_of_nil in Hin. destruct Hin.
  - unfold other_than in *. rewrite fmap_cons. simpl.
    destruct (String.eqb_spec s selected) as [->|Hne]; simpl.
    + pose proof (kept_le ((fun sku => negb (String.eqb sku selected)) <$> skus)) as Hle.
      rewrite length_fmap in Hle. lia.
    + apply elem_of_cons in Hin as [->|Hin]; [contradiction|].
      specialize (IH Hin). lia.
Qed.

Section Add.
Context {F : Type} `{Arith F}.
Implicit Types (t : @Table F) (d : @DataFrame F) (v : @Series F)
  (row : list (@cell F)) (k : string).

Lemma append_cell_rows v c v' :
  append_cell v c = Ok v' -> rows v' = S (rows v).
Proof.
  destruct v, c; simpl; intros [= <-]; simpl; rewrite length_app; simpl; lia.
Qed.

Lemma append_cell_keep v c v' m :
  append_cell v c = Ok v' -> length m = rows v ->
  Forall (fun b => b = true) m ->
  keep_series (m ++ [false]) v' = v.
Proof.
  destruct v, c; simpl; intros [= <-] Hlen Hall; simpl; f_equal;
    rewrite keep_app by exact Hlen; simpl; rewrite app_nil_r;
    apply keep_all; [lia|exact Hall | lia | exact Hall].
Qed.

(** What [with_row] does column by column. *)
Lemma with_row_column f d row d' k :
  with_row f d row = Ok d' ->
  match column k d with
  | Some v => exists c v', c ∈ row /\ f v c = Ok v' /\ column k d' = Some v'
  | None => column k d' = None
  end.
Proof.
  revert row d'. induction d as [|[k1 v1] d IH]; intros [|c row] d'; simpl;
    try discriminate.
  - intros [= <-]. reflexivity.
  - unfold mbind, result_bind.
    destruct (f v1 c) as [v1'|] eqn:Hf; [|discriminate].
    destruct (with_row f d row) as [d1|] eqn:Hw; [|discriminate].
    intros [= <-]. simpl. specialize (IH row d1 Hw).
    destruct (String.eqb k k1).
    + exists c, v1'. repeat split; [left|exact Hf].
    + destruct (column k d) as [v|].
      * destruct IH as (c' & v' & Hc' & Hf' & Hcol).
        exists c', v'. repeat split; [right; exact Hc'|exact Hf'|exact Hcol].
      * exact IH.
Qed.

Lemma with_row_columns f d row d' :
  with_row f d row = Ok d' -> columns d' = columns d.
Proof.
  revert row d'. induction d as [|[k1 v1] d IH]; intros [|c row] d'; simpl;
    try discriminate.
  - intros [= <-]. reflexivity.
  - unfold mbind, result_bind.
    destruct (f v1 c) as [v1'|]; [|discriminate].
    destruct (with_row f d row) as [d1|] eqn:Hw; [|discriminate].
    intros [= <-]. specialize (IH row d1 Hw). unfold columns in *.
    rewrite !fmap_cons. simpl. f_equal. exact IH.
Qed.

Lemma with_row_Forall f d row d' (P Q : @Series F -> Prop) :
  (forall v c v', f v c = Ok v' -> P v -> Q v') ->
  with_row f d row = Ok d' ->
  Forall (fun kv => P kv.2) d -> Forall (fun kv => Q kv.2) d'.
Proof.
  intros Hf. revert row d'.
  induction d as [|[k1 v1] d IH]; intros [|c row] d'; simpl; try discriminate.
  - intros [= <-] _. constructor.
  - unfold mbind, result_bind.
    destruct (f v1 c) as [v1'|] eqn:Hf1; [|discriminate].
    destruct (with_row f d row) as [d1|] eqn:Hw; [|discriminate].
    intros [= <-] Hall. apply Forall_cons in Hall as [Hv Hall].
    constructor; [exact (Hf _ _ _ Hf1 Hv)|exact (IH row d1 Hw Hall)].
Qed.

Lemma with_row_append_keep d row d' m :
  with_row append_cell d row = Ok d' ->
  Forall (fun kv => rows kv.2 = length m) d ->
  Forall (fun b => b = true) m ->
  keep_rows (m ++ [false]) d' = d.
Proof.
  intros Hw Hrows Hall. revert row d' Hw Hrows.
  induction d as [|[k1 v1] d IH]; intros [|c row] d'; simpl; try discriminate.
  - intros [= <-] _. reflexivity.
  - unfold mbind, result_bind.
    destruct (append_cell v1 c) as [v1'|] eqn:Hf1; [|discriminate].
    destruct (with_row append_cell d row) as [d1|] eqn:Hw1; [|discriminate].
    intros [= <-] Hrows. apply Forall_cons in Hrows as [Hv Hrows].
    unfold keep_rows in *. rewrite fmap_cons. simpl in *.
    rewrite (append_cell_keep v1 c v1' m Hf1) by (try assumption; congruence).
    rewrite (IH row d1 Hw1 Hrows). reflexivity.
Qed.

Lemma add_sku_run c n dm l s oc hc t t' :
  add_sku c n dm l s oc hc t = Done t' ->
  index t' = range_index (S (length (index t))) /\
  with_row append_cell (frame t)
    (sku_row (generate_sku_label c n) c dm l s oc hc) = Ok (frame t').
Proof.
  unfold add_sku. destruct (Nat.eqb (length (frame t)) 7); [|discriminate].
  unfold mbind, outcome_bind.
  destruct (with_row append_cell (frame t) _) as [d|]; simpl; [|discriminate].
  intros [= <-]. auto.
Qed.

(** X11. An added SKU is a new last row and nothing else: the row labels
    become 0, 1, 2, ..., the columns are those of before, every earlier
    row keeps all its entries, and each column receives one of the seven
    values of the form.  The label is not compared with those in the
    table: the [SKU] column just receives it at the end. *)
Theorem add_sku_appends c n dm l s oc hc t t' :
  table_ok t ->
  add_sku c n dm l s oc hc t = Done t' ->
  index t' = range_index (S (length (index t))) /\
  table_ok t' /\
  columns (frame t') = columns (frame t) /\
  (forall k p, p < length (index t) ->
     cell_at k (frame t') p = cell_at k (frame t) p) /\
  (forall k, is_Some (column k (frame t)) ->
     exists x, x ∈ sku_row (generate_sku_label c n) c dm l s oc hc /\
               cell_at k (frame t') (length (index t)) = Some x) /\
  (forall skus rest, frame t = ("SKU", StrS skus) :: rest ->
     column "SKU" (frame t') =
       Some (StrS (skus ++ [generate_sku_label c n]))).
Proof.
  intros Hok Hadd. destruct (add_sku_run _ _ _ _ _ _ _ _ _ Hadd) as [Hidx Hw].
  split; [exact Hidx|]. split; [|split; [|split; [|split]]].
  - unfold table_ok. rewrite Hidx. unfold range_index. rewrite length_seq.
    eapply (with_row_Forall append_cell _ _ _
              (fun v => rows v = length (index t))
              (fun v => rows v = S (length (index t)))); [|exact Hw|exact Hok].
    intros v x v' Hf Hv. rewrite (append_cell_rows _ _ _ Hf), Hv. reflexivity.
  - exact (with_row_columns _ _ _ _ Hw).
  - intros k p Hp. unfold cell_at.
    pose proof (with_row_column append_cell _ _ _ k Hw) as Hk.
    destruct (column k (frame t)) as [v|] eqn:Hv; [|rewrite Hk; reflexivity].
    destruct Hk as (x & v' & _ & Hf & ->).
    pose proof (table_ok_rows t k v Hok Hv) as Hrows.
    destruct v, x; simpl in *; try discriminate; injection Hf as <-;
      rewrite lookup_app_l by lia; reflexivity.
  - intros k [v Hv]. unfold cell_at.
    pose proof (with_row_column append_cell _ _ _ k Hw) as Hk. rewrite Hv in Hk.
    destruct Hk as (x & v' & Hx & Hf & ->). exists x. split; [exact Hx|].
    pose proof (table_ok_rows t k v Hok Hv) as Hrows.
    destruct v, x; simpl in *; try discriminate; injection Hf as <-;
      rewrite <- Hrows, list_lookup_middle by reflexivity; reflexivity.
  - intros skus rest Hframe. rewrite Hframe in Hw. simpl in Hw.
    unfold mbind, result_bind in Hw.
    destruct (with_row append_cell rest _) as [d1|]; simpl in Hw; [|discriminate].
    injection Hw as <-. reflexivity.
Qed.


End Add.

(** ** Uploading a table *)

Section Upload.
Context {F : Type} `{Arith F}.
Implicit Types (t u : @Table F) (d : @DataFrame F) (v : @Series F)
  (k : string).

Lemma elem_of_columns k d : k ∈ columns d <-> is_Some (column k d).
Proof.
  unfold columns. induction d as [|[k1 v1] d IH].
  - simpl. split; [intros Hin; apply elem_of_nil in Hin; destruct Hin
           |intros [v Hv]; discriminate].
  - rewrite fmap_cons, elem_of_cons. simpl.
    destruct (String.eqb_spec k k1) as [->|Hne].
    + split; [eauto|left; reflexivity].
    + rewrite <- IH. split; [intros [?|?]; [contradiction|assumption]|auto].
Qed.

Lemma upload_accepts u t :
  (upload u t).2 = true <->
  forall col, col ∈ columns (frame t) -> col ∈ columns (frame u).
Proof.
  unfold upload.
  destruct (forallb _ (columns (frame t))) eqn:Hall; simpl.
  - split; [intros _|reflexivity].
    rewrite forallb_forall in Hall. intros col Hcol.
    apply list_elem_of_In, Hall, bool_decide_eq_true in Hcol. exact Hcol.
  - split; [discriminate|]. intros Hsub.
    assert (Htrue : forallb
              (fun col => bool_decide (col ∈ columns (frame u)))
              (columns (frame t)) = true); [|congruence].
    apply forallb_forall. intros col Hcol.
    apply bool_decide_eq_true, Hsub, list_elem_of_In, Hcol.
Qed.

Lemma upload_keeps_columns u t col :
  col ∈ columns (frame t) -> col ∈ columns (frame (upload u t).1).
Proof.
  intros Hcol. pose proof (upload_accepts u t) as Hacc.
  unfold upload in *. destruct (forallb _ _); simpl in *; [|exact Hcol].
  apply Hacc; [reflexivity|exact Hcol].
Qed.

(** X13. An uploaded table is accepted exactly when it has every column
    name of the session table, whatever else it has and whatever the
    columns hold; an accepted table becomes the session table as it is,
    a refused one changes nothing.  The required names are those of the
    session table at that moment, so every name that was required stays
    required after the upload. *)
Theorem upload_checks_names u t :
  ((upload u t).2 = true <->
     forall col, col ∈ columns (frame t) -> col ∈ columns (frame u)) /\
  (upload u t).1 = (if (upload u t).2 then u else t) /\
  (forall u', columns (frame u') = columns (frame u) ->
     (upload u' t).2 = (upload u t).2) /\
  (forall col, col ∈ columns (frame t) ->
     col ∈ columns (frame (upload u t).1)).
Proof.
  split; [apply upload_accepts|]. split; [|split].
  - unfold upload. destruct (forallb _ _); reflexivity.
  - intros u' Hcols. unfold upload. rewrite Hcols.
    destruct (forallb _ _); reflexivity.
  - intros col. apply upload_keeps_columns.
Qed.

End Upload.

(** ** Updating a SKU *)

Lemma first_match_Some selected skus p :
  first_match selected skus = Some p ->
  skus !! p = Some selected /\
  (forall q, q < p -> skus !! q <> Some selected).
Proof.
  revert p. induction skus as [|s skus IH]; intros p; simpl; [discriminate|].
  destruct (String.eqb_spec s selected) as [->|Hne].
  - intros [= <-]. split; [reflexivity|]. intros q Hq. lia.
  - destruct (first_match selected skus) as [p'|]; [|discriminate].
    intros [= <-]. destruct (IH p' eq_refl) as [Hp Hq]. split; [exact Hp|].
    intros [|q] Hlt; simpl; [congruence|]. apply Hq. lia.
Qed.

Lemma first_match_None selected skus :
  first_match selected skus = None <-> selected ∉ skus.
Proof.
  induction skus as [|s skus IH]; simpl.
  - split; [intros _ Hin; apply elem_of_nil in Hin; destruct Hin|reflexivity].
  - rewrite not_elem_of_cons.
    destruct (String.eqb_spec s selected) as [->|Hne].
    + split; [discriminate|]. intros [Hne _]. contradiction.
    + destruct (first_match selected skus) as [p'|].
      * split; [discriminate|]. intros [_ Hnot]. apply IH in Hnot. discriminate.
      * split; [|reflexivity]. intros _. split; [congruence|].
        apply IH. reflexivity.
Qed.

Lemma list_index_Done x l i :
  list_index x l = Done i -> l !! i = Some x.
Proof.
  revert i. induction l as [|y l IH]; intros i; simpl; [discriminate|].
  destruct (String.eqb_spec x y) as [->|Hne].
  - intros [= <-]. reflexivity.
  - destruct (list_index x l) as [j|]; [|discriminate].
    intros [= <-]. simpl. apply IH. reflexivity.
Qed.

Lemma list_index_elem_of x l :
  x ∈ l -> exists i, list_index x l = Done i.
Proof.
  induction l as [|y l IH]; intros Hin.
  - apply elem_of_nil in Hin. destruct Hin.
  - simpl. destruct (String.eqb_spec x y) as [->|Hne]; [eauto|].
    apply elem_of_cons in Hin as [->|Hin]; [contradiction|].
    destruct (IH Hin) as [i ->]. eauto.
Qed.

Lemma list_index_not_elem_of x l :
  x ∉ l -> list_index x l = Fail ValueError.
Proof.
  induction l as [|y l IH]; intros Hnot; simpl; [reflexivity|].
  apply not_elem_of_cons in Hnot as [Hne Hnot].
  destruct (String.eqb_spec x y) as [->|_]; [contradiction|].
  rewrite (IH Hnot). reflexivity.
Qed.

Lemma label_number_has_space label :
  has_space label = true -> exists number, label_number label = Done number.
Proof.
  intros Hs. destruct (split_space_has_space label Hs) as (p & q & rest & E).
  unfold label_number. rewrite E. eauto.
Qed.

Lemma label_number_no_space label :
  has_space label = false -> label_number label = Fail IndexError.
Proof.
  intros Hs. unfold label_number. rewrite (split_space_no_space label Hs).
  reflexivity.
Qed.

Section Update.
Context {F : Type} `{Arith F}.
Implicit Types (t : @Table F) (d : @DataFrame F) (v : @Series F)
  (row : list (@cell F)) (k : string).

Lemma cell_at_cons k k1 v1 d q :
  cell_at k ((k1, v1) :: d) q =
  if String.eqb k k1 then entry v1 q else cell_at k d q.
Proof.
  unfold cell_at. simpl. destruct (String.eqb k k1); [|reflexivity].
  destruct v1; reflexivity.
Qed.

Lemma write_cell_Ok takes p k v c v' :
  write_cell takes p k v c = Ok v' ->
  rows v' = rows v /\
  (forall q, q <> p -> entry v' q = entry v q) /\
  (p < rows v -> entry v' p = Some c).
Proof.
  destruct v as [xs|xs], c as [x|x]; simpl; try discriminate.
  - destruct (takes k x); [|discriminate]. intros [= <-]. simpl.
    split; [apply length_insert|]. split.
    + intros q Hq. rewrite list_lookup_insert_ne by congruence. reflexivity.
    + intros Hp. rewrite list_lookup_insert_eq by exact Hp. reflexivity.
  - intros [= <-]. simpl.
    split; [apply length_insert|]. split.
    + intros q Hq. rewrite list_lookup_insert_ne by congruence. reflexivity.
    + intros Hp. rewrite list_lookup_insert_eq by exact Hp. reflexivity.
Qed.

Lemma write_cell_refused takes p k v c :
  write_cell takes p k v c = Raise TypeError ->
  exists x, c = CNum x /\ takes k x = false.
Proof.
  destruct v as [xs|xs], c as [x|x]; simpl; try discriminate.
  destruct (takes k x) eqn:E; [discriminate|]. eauto.
Qed.

Lemma write_row_columns takes p d row :
  columns (write_row takes p d row).1 = columns d.
Proof.
  revert row. induction d as [|[k v] d IH]; intros [|c row];
    try reflexivity.
  cbn [write_row]. destruct (write_cell takes p k v c); [|reflexivity].
  cbn [fst]. unfold columns in *. rewrite !fmap_cons. cbn [fst].
  f_equal. apply IH.
Qed.

Lemma write_row_rows takes p d row n :
  Forall (fun kv => rows kv.2 = n) d ->
  Forall (fun kv => rows kv.2 = n) (write_row takes p d row).1.
Proof.
  revert row. induction d as [|[k v] d IH]; intros [|c row] Hd;
    try exact Hd.
  cbn [write_row].
  destruct (write_cell takes p k v c) as [v'|e] eqn:Hw; [|exact Hd].
  cbn [fst]. apply Forall_cons in Hd as [Hv Hd].
  apply List.Forall_cons; [|apply IH, Hd].
  cbn [snd] in *. destruct (write_cell_Ok _ _ _ _ _ _ Hw) as [-> _]. exact Hv.
Qed.

Lemma write_row_other takes p d row k q :
  q <> p -> cell_at k (write_row takes p d row).1 q = cell_at k d q.
Proof.
  intros Hq. revert row. induction d as [|[k1 v1] d IH]; intros [|c row];
    try reflexivity.
  cbn [write_row].
  destruct (write_cell takes p k1 v1 c) as [v'|e] eqn:Hw; [|reflexivity].
  cbn [fst]. rewrite !cell_at_cons, IH.
  destruct (write_cell_Ok _ _ _ _ _ _ Hw) as (_ & Hother & _).
  rewrite (Hother q Hq). reflexivity.
Qed.

(** How far a write of a row got: the first [j] columns have received
    their values, the others are as they were. *)
Lemma write_row_prefix takes p d row :
  Forall (fun kv => p < rows kv.2) d ->
  exists j,
    (forall i k v, d !! i = Some (k, v) ->
       exists v', (write_row takes p d row).1 !! i = Some (k, v') /\
                  entry v' p = if decide (i < j) then row !! i else entry v p) /\
    ((write_row takes p d row).2 = Ok tt -> j = length d) /\
    ((write_row takes p d row).2 = Raise TypeError ->
       exists k v x, d !! j = Some (k, v) /\ row !! j = Some (CNum x) /\
                     takes k x = false).
Proof.
  revert row. induction d as [|[k1 v1] d IH]; intros row Hd.
  - exists 0. split; [intros i k v Hi; destruct i; discriminate|].
    destruct row; simpl; split; try discriminate; reflexivity.
  - apply Forall_cons in Hd as [Hv Hd]. cbn [snd] in Hv.
    assert (Hstay : forall e,
      (forall i k v, ((k1, v1) :: d) !! i = Some (k, v) ->
         exists v', (((k1, v1) :: d), Raise e : result unit).1 !! i
                      = Some (k, v') /\
            entry v' p = if decide (i < 0) then row !! i else entry v p)).
    { intros e i k v Hi. exists v. split; [exact Hi|].
      destruct (decide (i < 0)); [lia|reflexivity]. }
    destruct row as [|c row].
    { exists 0. split; [apply (Hstay Stuck)|]. split; discriminate. }
    cbn [write_row].
    destruct (write_cell takes p k1 v1 c) as [v1'|e] eqn:Hw.
    + destruct (IH row Hd) as (j & Hcells & Hok & Hrefused).
      destruct (write_cell_Ok _ _ _ _ _ _ Hw) as (_ & _ & Hat).
      exists (S j). cbn [fst snd]. split; [|split].
      * intros [|i] k v Hi; simpl in Hi.
        -- injection Hi as <- <-. exists v1'. split; [reflexivity|].
           destruct (decide (0 < S j)); [|lia]. exact (Hat Hv).
        -- destruct (Hcells i k v Hi) as (v' & Hi' & He).
           exists v'. split; [exact Hi'|]. rewrite He.
           destruct (decide (i < j)), (decide (S i < S j)); try lia;
             reflexivity.
      * intros Hr. rewrite (Hok Hr). reflexivity.
      * intros Hr. destruct (Hrefused Hr) as (k & v & x & Hk & Hx & Ht).
        exists k, v, x. auto.
    + exists 0. split; [apply (Hstay e)|]. split; [discriminate|].
      cbn [snd]. intros [= ->].
      destruct (write_cell_refused _ _ _ _ _ Hw) as (x & -> & Ht).
      exists k1, v1, x. auto.
Qed.

Lemma update_form_position selected t form :
  update_form selected t = Done form ->
  exists skus, column "SKU" (frame t) = Some (StrS skus) /\
               first_match selected skus = Some form.1.1.1.
Proof.
  unfold update_form, need, of_result, mbind, outcome_bind.
  destruct (column "SKU" (frame t)) as [[xs|skus]|]; try discriminate.
  destruct (first_match selected skus) as [p|] eqn:Hp; [|discriminate].
  destruct (column "Class" (frame t)) as [[xs|cs]|]; try discriminate.
  destruct (cs !! p); [|discriminate].
  destruct (label_number selected); [|discriminate].
  destruct (list_index _ _); [|discriminate].
  repeat (destruct (float_at _ p (frame t)); [|discriminate]).
  intros [= <-]. exists skus. split; [reflexivity|exact Hp].
Qed.

Lemma list_index_fails x l e : list_index x l = Fail e -> e = ValueError.
Proof.
  induction l as [|y l IH]; simpl; [intros [= <-]; reflexivity|].
  destruct (String.eqb x y); [discriminate|].
  destruct (list_index x l) as [i|e']; [discriminate|].
  intros [= <-]. apply IH. reflexivity.
Qed.

Lemma float_at_fails k p d e :
  float_at k p d = Fail e -> e <> FrameError TypeError.
Proof.
  unfold float_at, need, of_result, mbind, outcome_bind.
  destruct (column k d) as [[xs|xs]|]; [destruct (xs !! p)| |];
    intros [= <-]; discriminate.
Qed.

(** The form of the page raises no [TypeError]. *)
Lemma update_form_fails selected t e :
  update_form selected t = Fail e -> e <> FrameError TypeError.
Proof.
  unfold update_form, need, of_result.
  destruct (column "SKU" (frame t)) as [[xs|skus]|];
    cbn [mbind outcome_bind]; try (intros [= <-]; discriminate).
  destruct (first_match selected skus) as [p|];
    [|intros [= <-]; discriminate].
  destruct (column "Class" (frame t)) as [[xs|cs]|];
    cbn [mbind outcome_bind]; try (intros [= <-]; discriminate).
  destruct (cs !! p) as [cls|]; [|intros [= <-]; discriminate].
  unfold label_number.
  destruct (split_space selected) as [|piece [|number pieces]];
    cbn [mbind outcome_bind]; try (intros [= <-]; discriminate).
  destruct (list_index cls _) as [i|e'] eqn:Hi; cbn [mbind outcome_bind];
    [|intros [= <-]; rewrite (list_index_fails _ _ _ Hi); discriminate].
  destruct (float_at "Average_Daily_Demand" p (frame t)) eqn:E1;
    cbn [mbind outcome_bind];
    [|intros [= <-]; exact (float_at_fails _ _ _ _ E1)].
  destruct (float_at "Lead_Time_Days" p (frame t)) eqn:E2;
    cbn [mbind outcome_bind];
    [|intros [= <-]; exact (float_at_fails _ _ _ _ E2)].
  destruct (float_at "Safety_Stock" p (frame t)) eqn:E3;
    cbn [mbind outcome_bind];
    [|intros [= <-]; exact (float_at_fails _ _ _ _ E3)].
  destruct (float_at "Order_Cost" p (frame t)) eqn:E4;
    cbn [mbind outcome_bind];
    [|intros [= <-]; exact (float_at_fails _ _ _ _ E4)].
  destruct (float_at "Holding_Cost" p (frame t)) eqn:E5;
    cbn [mbind outcome_bind];
    [|intros [= <-]; exact (float_at_fails _ _ _ _ E5)].
  discriminate.
Qed.

(** An update that gets to line 127 writes the row found by the form;
    one that does not leaves the table alone. *)
Lemma update_sku_run takes selected c n dm l s oc hc t :
  selected <> "" ->
  (exists e, update_sku takes selected c n dm l s oc hc t = (t, Fail e) /\
             e <> FrameError TypeError) \/
  exists skus p,
    column "SKU" (frame t) = Some (StrS skus) /\
    first_match selected skus = Some p /\
    length (frame t) = 7 /\
    update_sku takes selected c n dm l s oc hc t =
      ({| index := index t;
          frame := (write_row takes p (frame t)
                      (sku_row (generate_sku_label c n) c dm l s oc hc)).1 |},
       of_result
         (write_row takes p (frame t)
            (sku_row (generate_sku_label c n) c dm l s oc hc)).2).
Proof.
  intros Hsel. unfold update_sku.
  destruct (String.eqb_spec selected "") as [->|_]; [contradiction|].
  destruct (update_form selected t) as [form|e] eqn:Hform.
  - destruct (update_form_position _ _ _ Hform) as (skus & Hsku & Hp).
    destruct (Nat.eqb_spec (length (frame t)) 7) as [Hlen|_].
    + right. exists skus, form.1.1.1. auto.
    + left. exists ValueError. split; [reflexivity|discriminate].
  - left. exists e. split; [reflexivity|].
    exact (update_form_fails _ _ _ Hform).
Qed.

(** Whatever an update does, the table keeps its row labels, its
    columns and the length of its columns. *)
Lemma update_sku_keeps takes selected c n dm l s oc hc t :
  index (update_sku takes selected c n dm l s oc hc t).1 = index t /\
  columns (frame (update_sku takes selected c n dm l s oc hc t).1) =
    columns (frame t) /\
  (table_ok t -> table_ok (update_sku takes selected c n dm l s oc hc t).1).
Proof.
  destruct (String.eqb_spec selected "") as [->|Hsel].
  { unfold update_sku. simpl. auto. }
  destruct (update_sku_run takes selected c n dm l s oc hc t Hsel)
    as [(e & -> & _)|(skus & p & _ & _ & _ & ->)]; cbn [fst]; [auto|].
  cbn [index frame]. split; [reflexivity|].
  split; [apply write_row_columns|].
  unfold table_ok. cbn [index frame]. apply write_row_rows.
Qed.

(** X14. An update rewrites one row and nothing else, in a table with
    one entry per row in every column and no row label twice: the first
    row that carries the selected label.  Row labels, columns and every
    other row stay as they are (so a later row with the same SKU label
    is left alone).  In that row the seven values of the form are
    written in column order.  When every column takes its value the
    whole row is written; when a column refuses a number (a fraction
    for an integer column) the update raises [TypeError], and the
    columns before that one hold the new values while that one and
    those after it hold the old ones.  The new label is not compared
    with the labels of the other rows. *)
Theorem update_sku_rewrites_one_row takes selected c n dm l s oc hc t t' r :
  selected <> "" ->
  well_formed t ->
  update_sku takes selected c n dm l s oc hc t = (t', r) ->
  r = Done tt \/ r = Fail (FrameError TypeError) ->
  exists skus p j,
    column "SKU" (frame t) = Some (StrS skus) /\
    skus !! p = Some selected /\
    (forall q, q < p -> skus !! q <> Some selected) /\
    index t' = index t /\
    well_formed t' /\
    columns (frame t') = columns (frame t) /\
    (forall k q, q <> p -> cell_at k (frame t') q = cell_at k (frame t) q) /\
    (forall i k v, frame t !! i = Some (k, v) ->
       exists v', frame t' !! i = Some (k, v') /\
         entry v' p =
           if decide (i < j)
           then sku_row (generate_sku_label c n) c dm l s oc hc !! i
           else entry v p) /\
    (r = Done tt -> j = 7) /\
    (r = Fail (FrameError TypeError) ->
       exists k v x,
         frame t !! j = Some (k, v) /\
         sku_row (generate_sku_label c n) c dm l s oc hc !! j
           = Some (CNum x) /\
         takes k x = false).
Proof.
  intros Hsel [Hok Hnd] Hrun Hr.
  destruct (update_sku_keeps takes selected c n dm l s oc hc t)
    as (Hidx & Hcols & Hkeep).
  destruct (update_sku_run takes selected c n dm l s oc hc t Hsel)
    as [(e & E & He)|(skus & p & Hsku & Hp & Hlen & E)].
  { rewrite Hrun in E. injection E as -> ->.
    destruct Hr as [Hr|Hr]; [discriminate|]. injection Hr as ->.
    contradiction. }
  rewrite Hrun in Hidx, Hcols, Hkeep. cbn [fst] in Hidx, Hcols, Hkeep.
  rewrite Hrun in E. injection E as -> ->.
  destruct (first_match_Some _ _ _ Hp) as [Hat Hfirst].
  assert (Hlt : p < length (index t)).
  { rewrite <- (table_ok_rows t _ _ Hok Hsku). simpl.
    apply lookup_lt_is_Some. eauto. }
  set (row := sku_row (generate_sku_label c n) c dm l s oc hc) in *.
  destruct (write_row_prefix takes p (frame t) row)
    as (j & Hcells & Hdone & Hrefused).
  { unfold table_ok in Hok. eapply Forall_impl; [exact Hok|].
    intros kv Hkv. simpl in Hkv. lia. }
  exists skus, p, j.
  split; [exact Hsku|]. split; [exact Hat|]. split; [exact Hfirst|].
  split; [reflexivity|].
  split; [split; [exact (Hkeep Hok)|exact Hnd]|].
  split; [exact Hcols|].
  split; [intros k q Hq; apply write_row_other, Hq|].
  split; [exact Hcells|]. cbn [frame].
  destruct (write_row takes p (frame t) row).2 as [[]|e] eqn:Hw; cbn [of_result].
  - split; [intros _; rewrite Hdone by reflexivity; exact Hlen|discriminate].
  - split; [discriminate|]. intros [= ->]. apply Hrefused. reflexivity.
Qed.

Lemma float_at_base k p d n :
  has_base d n -> k ∈ @base_columns -> p < n ->
  exists x, float_at k p d = Done x.
Proof.
  intros Hb Hk Hp. unfold has_base in Hb. rewrite Forall_forall in Hb.
  specialize (Hb k Hk). unfold num_len in Hb.
  unfold float_at, need, of_result, mbind, outcome_bind.
  destruct (column k d) as [[xs|xs]|]; try discriminate.
  injection Hb as Hlen.
  destruct (lookup_lt_is_Some_2 xs p) as [x Hx]; [lia|].
  rewrite Hx. eauto.
Qed.

(** X15. How the page "Update SKU" ends before its button can be
    pressed, on a table with string columns [SKU] and [Class] in which
    some row carries the selected label.  A label with no space in it
    raises [IndexError] (there is no second piece to read the number
    from); with a space, a class of the first such row other than A, B,
    C and D raises [ValueError]; with a space and one of the four
    classes, and numeric base columns, the form is shown for that row,
    with the place of its class and the second piece of its label. *)
Theorem update_form_outcome selected t skus cs p cls :
  column "SKU" (frame t) = Some (StrS skus) ->
  column "Class" (frame t) = Some (StrS cs) ->
  first_match selected skus = Some p ->
  cs !! p = Some cls ->
  (has_space selected = false -> update_form selected t = Fail IndexError) /\
  (has_space selected = true -> cls ∉ ["A"; "B"; "C"; "D"] ->
     update_form selected t = Fail ValueError) /\
  (has_space selected = true -> cls ∈ ["A"; "B"; "C"; "D"] ->
   has_base (frame t) (length skus) ->
     exists i number nums,
       update_form selected t = Done (p, i, number, nums) /\
       ["A"; "B"; "C"; "D"] !! i = Some cls /\
       label_number selected = Done number /\
       length nums = 5).
Proof.
  intros Hsku Hcls Hp Hc.
  assert (Hrun : update_form selected t =
    (current_number ← label_number selected;
     class_pos ← list_index cls ["A"; "B"; "C"; "D"];
     demand ← float_at "Average_Daily_Demand" p (frame t);
     lead ← float_at "Lead_Time_Days" p (frame t);
     safety ← float_at "Safety_Stock" p (frame t);
     order_cost ← float_at "Order_Cost" p (frame t);
     holding_cost ← float_at "Holding_Cost" p (frame t);
     Done (p, class_pos, current_number,
           [demand; lead; safety; order_cost; holding_cost]))).
  { unfold update_form, need. rewrite Hsku. cbn [of_result mbind outcome_bind].
    rewrite Hp, Hcls. cbn [of_result mbind outcome_bind]. rewrite Hc.
    reflexivity. }
  rewrite Hrun. clear Hrun. split; [|split].
  - intros Hs. rewrite (label_number_no_space _ Hs). reflexivity.
  - intros Hs Hnot. destruct (label_number_has_space _ Hs) as [number ->].
    cbn [mbind outcome_bind]. rewrite (list_index_not_elem_of _ _ Hnot).
    reflexivity.
  - intros Hs Hin Hb. destruct (label_number_has_space _ Hs) as [number Hn].
    rewrite Hn. cbn [mbind outcome_bind].
    destruct (list_index_elem_of _ _ Hin) as [i Hi]. rewrite Hi.
    cbn [mbind outcome_bind].
    assert (Hlt : p < length skus).
    { apply lookup_lt_is_Some. destruct (first_match_Some _ _ _ Hp). eauto. }
    destruct (float_at_base "Average_Daily_Demand" p _ _ Hb) as [x1 ->];
      [unfold base_columns; repeat constructor|exact Hlt|].
    destruct (float_at_base "Lead_Time_Days" p _ _ Hb) as [x2 ->];
      [unfold base_columns; repeat constructor|exact Hlt|].
    destruct (float_at_base "Safety_Stock" p _ _ Hb) as [x3 ->];
      [unfold base_columns; repeat constructor|exact Hlt|].
    destruct (float_at_base "Order_Cost" p _ _ Hb) as [x4 ->];
      [unfold base_columns; repeat constructor|exact Hlt|].
    destruct (float_at_base "Holding_Cost" p _ _ Hb) as [x5 ->];
      [unfold base_columns; repeat constructor|exact Hlt|].
    cbn [mbind outcome_bind]. exists i, number, [x1; x2; x3; x4; x5].
    repeat split. exact (list_index_Done _ _ _ Hi).
Qed.

End Update.

(** ** Sessions *)

Section Sessions.
Context {F : Type} `{Arith F}.
Implicit Types (t u : @Table F) (d : @DataFrame F) (v : @Series F)
  (k : string) (act : @action F).

Lemma is_Some_column_assign k k' v d :
  is_Some (column k d) -> is_Some (column k (assign k' v d)).
Proof.
  intros Hk. rewrite column_assign. destruct (String.eqb k k'); eauto.
Qed.

(** With the five base columns in the frame, [calculate_metrics] either
    meets a column of strings, which is not modelled, or runs through. *)
Lemma calculate_metrics_body_present d :
  Forall (fun k => is_Some (column k d)) base_columns ->
  (calculate_metrics_body d).2 = Raise Stuck \/
  exists a l s oc hc,
    calculate_metrics_body d = (with_metrics a l s oc hc d, Ok tt).
Proof.
  intros Hb. unfold base_columns in Hb.
  repeat (apply Forall_cons in Hb as [[? ?] Hb]).
  unfold calculate_metrics_body.
  destruct (column "Average_Daily_Demand" d) as [[a|a]|] eqn:Ha;
    [|run_frame; left; reflexivity|discriminate].
  destruct (column "Lead_Time_Days" d) as [[l|l]|] eqn:Hl;
    [|run_frame; left; reflexivity|discriminate].
  destruct (column "Safety_Stock" d) as [[s|s]|] eqn:Hs;
    [|run_frame; left; reflexivity|discriminate].
  destruct (column "Order_Cost" d) as [[oc|oc]|] eqn:Hoc;
    [|run_frame; left; reflexivity|discriminate].
  destruct (column "Holding_Cost" d) as [[hc|hc]|] eqn:Hhc;
    [|run_frame; left; reflexivity|discriminate].
  right. exists a, l, s, oc, hc.
  apply calculate_metrics_body_run; assumption.
Qed.

Lemma high_demand_present d :
  is_Some (column "Average_Daily_Demand" d) ->
  (high_demand d).2 = Raise Stuck \/
  exists xs, high_demand d = (assign "Average_Daily_Demand" (NumS xs) d, Ok tt).
Proof.
  intros [[a|a] Ha]; unfold high_demand; run_frame;
    [right; eauto|left; reflexivity].
Qed.

Lemma supply_delay_present d :
  is_Some (column "Lead_Time_Days" d) ->
  (supply_delay d).2 = Raise Stuck \/
  exists xs, supply_delay d = (assign "Lead_Time_Days" (NumS xs) d, Ok tt).
Proof.
  intros [[l|l] Hl]; unfold supply_delay; run_frame;
    [right; eauto|left; reflexivity].
Qed.

Lemma perturbation_present scenario d :
  Forall (fun k => is_Some (column k d)) base_columns ->
  (perturbation scenario d).2 = Raise Stuck \/
  exists d1, perturbation scenario d = (d1, Ok tt) /\
             Forall (fun k => is_Some (column k d1)) base_columns.
Proof.
  intros Hb.
  assert (Ha : is_Some (column "Average_Daily_Demand" d))
    by (rewrite Forall_forall in Hb; apply Hb; unfold base_columns;
        repeat constructor).
  assert (Hl : is_Some (column "Lead_Time_Days" d))
    by (rewrite Forall_forall in Hb; apply Hb; unfold base_columns;
        repeat constructor).
  assert (Hassign : forall k' v,
            Forall (fun k => is_Some (column k (assign k' v d))) base_columns).
  { intros k' v. eapply Forall_impl; [exact Hb|].
    intros k. apply is_Some_column_assign. }
  unfold perturbation.
  destruct (String.eqb scenario "High Demand (+20%)").
  { destruct (high_demand_present d Ha) as [E|[xs E]]; [left; exact E|].
    right. rewrite E. eauto. }
  destruct (String.eqb scenario "Supply Delay (+3 days)").
  { destruct (supply_delay_present d Hl) as [E|[xs E]]; [left; exact E|].
    right. rewrite E. eauto. }
  destruct (String.eqb scenario "High Demand + Supply Delay").
  { unfold mbind, st_bind.
    destruct (high_demand_present d Ha) as [E|[xs E]].
    - left. destruct (high_demand d) as [d1 [[]|e]]; simpl in *;
        [discriminate|exact E].
    - rewrite E.
      destruct (supply_delay_present
                  (assign "Average_Daily_Demand" (NumS xs) d)) as [E'|[ys E']];
        [apply is_Some_column_assign; exact Hl|left; exact E'|].
      right. rewrite E'. eexists. split; [reflexivity|].
      eapply Forall_impl; [apply (Hassign "Average_Daily_Demand" (NumS xs))|].
      intros k. apply is_Some_column_assign. }
  right. exists d. split; [reflexivity|exact Hb].
Qed.

Lemma scenario_body_present scenario d :
  Forall (fun k => is_Some (column k d)) base_columns ->
  (scenario_body scenario d).2 = Raise Stuck \/
  exists a l s oc hc d1,
    scenario_body scenario d = (with_metrics a l s oc hc d1, Ok tt).
Proof.
  intros Hb. unfold scenario_body, mbind, st_bind.
  destruct (perturbation_present scenario d Hb) as [E|(d1 & E & Hb1)].
  - left. destruct (perturbation scenario d) as [d1 [[]|e]]; simpl in *;
      [discriminate|exact E].
  - rewrite E.
    destruct (calculate_metrics_body_present d1 Hb1)
      as [E1|(a & l & s & oc & hc & E1)]; [left; exact E1|].
    right. exists a, l, s, oc, hc, d1. exact E1.
Qed.

Lemma chart_texts_fails idx rops eoqs i skus e :
  chart_texts idx rops eoqs i skus = Fail e ->
  e = FrameError Stuck \/ exists j, e = LabelKeyError j.
Proof.
  revert i. induction skus as [|sku skus IH]; intros i; simpl; [discriminate|].
  unfold mbind, outcome_bind, at_label.
  destruct (position i idx) as [p|]; [|intros [= <-]; eauto].
  destruct (rops !! p); [|intros [= <-]; eauto].
  destruct (eoqs !! p); [|intros [= <-]; eauto].
  destruct (chart_texts idx rops eoqs (S i) skus) eqn:E; [discriminate|].
  intros [= <-]. exact (IH _ E).
Qed.

(** With the columns the page reads in the session table, the page
    "View SKUs" does not stop at a column it cannot find. *)
Lemma view_finds_columns scenario t k :
  (forall k', k' ∈ @view_columns -> k' ∈ columns (frame t)) ->
  view scenario t <> Fail (FrameError (KeyError k)).
Proof.
  intros Hcols.
  assert (Hsome : forall k', k' ∈ @view_columns ->
                             is_Some (column k' (frame t)))
    by (intros k' Hk'; apply elem_of_columns, Hcols, Hk').
  assert (Hb : Forall (fun k' => is_Some (column k' (frame t))) base_columns).
  { apply Forall_forall. intros k' Hk'. apply Hsome. unfold view_columns.
    right. right. exact Hk'. }
  destruct (Hsome "SKU") as [sku Hsku]; [left|].
  destruct (Hsome "Class") as [cls Hcls];
    [unfold view_columns; right; left|].
  assert (Wsku : column "SKU" (scenario_body scenario (frame t)).1 = Some sku)
    by (rewrite <- Hsku; apply scenario_body_writes; not_scenario_column).
  assert (Wcls : column "Class" (scenario_body scenario (frame t)).1 = Some cls)
    by (rewrite <- Hcls; apply scenario_body_writes; not_scenario_column).
  unfold view, mbind, outcome_bind.
  destruct (scenario_body_present scenario (frame t) Hb)
    as [E|(a & l & s & oc & hc & d1 & E)].
  - rewrite E. simpl. discriminate.
  - rewrite E in *. simpl in Wsku, Wcls. simpl.
    unfold chart, class_summary, need, of_result, mbind, outcome_bind,
      result_bind.
    rewrite Wsku, Wcls. unfold with_metrics in *.
    repeat first
      [ rewrite column_assign_eq
      | rewrite column_assign_ne by discriminate ].
    destruct sku as [xs|skus]; [discriminate|].
    destruct (chart_texts _ _ _ 0 skus) as [texts|e] eqn:Et.
    + destruct cls as [xs|cs]; simpl; discriminate.
    + destruct (chart_texts_fails _ _ _ _ _ _ Et) as [->|[j ->]]; discriminate.
Qed.

Lemma stay_Done t (r : outcome (@Table F)) t' :
  stay t r = Done t' -> r = Done t' \/ t' = t.
Proof.
  destruct r as [t1|[[]| | |]]; simpl; try discriminate;
    intros [= <-]; auto.
Qed.

Lemma add_sku_well_formed c n dm l s oc hc t t' :
  well_formed t -> add_sku c n dm l s oc hc t = Done t' -> well_formed t'.
Proof.
  intros [Hok _] Hadd.
  destruct (add_sku_run _ _ _ _ _ _ _ _ _ Hadd) as [Hidx Hw]. split.
  - unfold table_ok. rewrite Hidx. unfold range_index. rewrite length_seq.
    eapply (with_row_Forall append_cell _ _ _
              (fun v => rows v = length (index t))
              (fun v => rows v = S (length (index t)))); [|exact Hw|exact Hok].
    intros v x v' Hf Hv. rewrite (append_cell_rows _ _ _ Hf), Hv. reflexivity.
  - rewrite Hidx. apply NoDup_seq.
Qed.

Lemma written_Done (r : @Table F * outcome unit) t' :
  written r = Done t' -> t' = r.1.
Proof.
  unfold written. destruct r.2 as [[]|[[]| | |]]; try discriminate;
    intros [= <-]; reflexivity.
Qed.

Lemma delete_sku_keeps selected t t' :
  delete_sku selected t = Done t' ->
  columns (frame t') = columns (frame t) /\
  (well_formed t -> well_formed t').
Proof.
  unfold delete_sku.
  destruct (column "SKU" (frame t)) as [[xs|skus]|] eqn:Hsku; try discriminate.
  intros [= <-]. simpl. split; [apply columns_keep_rows|].
  intros [Hok Hnd]. split.
  - apply table_ok_keep; [exact Hok|].
    unfold other_than. rewrite length_fmap.
    exact (table_ok_rows t _ _ Hok Hsku).
  - simpl. eapply sublist_NoDup; [exact Hnd|apply keep_sublist].
Qed.

Lemma press_keeps_columns act t t' col :
  press act t = Done t' ->
  col ∈ columns (frame t) -> col ∈ columns (frame t').
Proof.
  destruct act as [c n dm l s oc hc|takes sel c n dm l s oc hc|sel|u]; simpl;
    intros Hp Hcol.
  - apply stay_Done in Hp as [Hp| ->]; [|exact Hcol].
    destruct (add_sku_run _ _ _ _ _ _ _ _ _ Hp) as [_ Hw].
    rewrite (with_row_columns _ _ _ _ Hw). exact Hcol.
  - apply written_Done in Hp as ->.
    destruct (update_sku_keeps takes sel c n dm l s oc hc t) as (_ & -> & _).
    exact Hcol.
  - apply stay_Done in Hp as [Hp| ->]; [|exact Hcol].
    destruct (delete_sku_keeps _ _ _ Hp) as [-> _]. exact Hcol.
  - injection Hp as <-. apply upload_keeps_columns, Hcol.
Qed.

Lemma press_well_formed act t t' :
  uploads_well_formed act -> press act t = Done t' ->
  well_formed t -> well_formed t'.
Proof.
  destruct act as [c n dm l s oc hc|takes sel c n dm l s oc hc|sel|u]; simpl;
    intros Hu Hp Hwf.
  - apply stay_Done in Hp as [Hp| ->]; [|exact Hwf].
    exact (add_sku_well_formed _ _ _ _ _ _ _ _ _ Hwf Hp).
  - apply written_Done in Hp as ->.
    destruct (update_sku_keeps takes sel c n dm l s oc hc t) as (Hidx & _ & Hok).
    destruct Hwf as [Hok0 Hnd]. split; [exact (Hok Hok0)|].
    rewrite Hidx. exact Hnd.
  - apply stay_Done in Hp as [Hp| ->]; [|exact Hwf].
    destruct (delete_sku_keeps _ _ _ Hp) as [_ Hk]. exact (Hk Hwf).
  - injection Hp as <-. unfold upload. destruct (forallb _ _); assumption.
Qed.



End Sessions.

(** ** The properties at concrete tables *)

Lemma session_table_ok : table_ok session_table.
Proof. repeat constructor. Qed.

Lemma session_table_well_formed : well_formed session_table.
Proof. split; [exact session_table_ok|apply NoDup_seq]. Qed.

Lemma calculate_metrics_twice_witness :
  [session_data] !! 0 = Some session_data /\
  has_base session_data 2 /\
  exists h1,
    calculate_metrics 0 [session_data] = (h1, Ok 0) /\
    calculate_metrics 0 h1 = (h1, Ok 0).
Proof.
  split; [reflexivity|]. split; [exact has_base_session_data|].
  apply (calculate_metrics_twice [session_data] 0 session_data 2);
    [reflexivity|exact has_base_session_data].
Defined.

Lemma sku_no_holding_cost_kinds : base_numeric_or_missing sku_no_holding_cost.
Proof.
  unfold base_numeric_or_missing, base_columns.
  repeat apply List.Forall_cons; try apply List.Forall_nil; exact Logic.I.
Qed.

Lemma calculate_metrics_outcome_witness :
  base_numeric_or_missing sku_no_holding_cost /\
  (calculate_metrics_body sku_no_holding_cost).2 =
    Raise (KeyError "Holding_Cost") /\
  column "Holding_Cost" sku_no_holding_cost = None /\
  exists before after,
    @base_columns = before ++ "Holding_Cost" :: after /\
    Forall (fun k' => exists xs, column k' sku_no_holding_cost = Some (NumS xs))
      before.
Proof.
  split; [exact sku_no_holding_cost_kinds|]. split; [reflexivity|].
  exact (calculate_metrics_outcome sku_no_holding_cost
           sku_no_holding_cost_kinds).
Defined.

Lemma calculate_metrics_failure_leaves_witness :
  base_numeric_or_missing sku_no_holding_cost /\
  (calculate_metrics_body sku_no_holding_cost).2 =
    Raise (KeyError "Holding_Cost") /\
  (exists k, KeyError "Holding_Cost" = KeyError k) /\
  ((calculate_metrics_body sku_no_holding_cost).1 = sku_no_holding_cost \/
   exists a l s,
     column "Average_Daily_Demand" sku_no_holding_cost = Some (NumS a) /\
     column "Lead_Time_Days" sku_no_holding_cost = Some (NumS l) /\
     column "Safety_Stock" sku_no_holding_cost = Some (NumS s) /\
     (calculate_metrics_body sku_no_holding_cost).1 =
       assign "Annual_Demand" (NumS (annual_demand_column a))
         (assign "ROP" (NumS (rop_column a l s)) sku_no_holding_cost)) /\
  column "EOQ" (calculate_metrics_body sku_no_holding_cost).1 =
    column "EOQ" sku_no_holding_cost /\
  column "Total_Cost" (calculate_metrics_body sku_no_holding_cost).1 =
    column "Total_Cost" sku_no_holding_cost.
Proof.
  split; [exact sku_no_holding_cost_kinds|]. split; [reflexivity|].
  apply (calculate_metrics_failure_leaves sku_no_holding_cost
           (KeyError "Holding_Cost"));
    [exact sku_no_holding_cost_kinds|reflexivity].
Defined.

Lemma scenarios_compose_witness :
  [session_data] !! 0 = Some session_data /\
  has_base session_data 2 /\
  exists d1 d2 d12,
    apply_scenario 0 "Supply Delay (+3 days)" [session_data] =
      ([session_data] ++ [d1], Ok 1) /\
    apply_scenario 0 "High Demand (+20%)" [session_data] =
      ([session_data] ++ [d2], Ok 1) /\
    apply_scenario 0 "High Demand + Supply Delay" [session_data] =
      ([session_data] ++ [d12], Ok 1) /\
    apply_scenario 1 "High Demand (+20%)" ([session_data] ++ [d1]) =
      (([session_data] ++ [d1]) ++ [d12], Ok 2) /\
    apply_scenario 1 "Supply Delay (+3 days)" ([session_data] ++ [d2]) =
      (([session_data] ++ [d2]) ++ [d12], Ok 2).
Proof.
  split; [reflexivity|]. split; [exact has_base_session_data|].
  apply (scenarios_compose [session_data] 0 session_data 2);
    [reflexivity|exact has_base_session_data].
Defined.

Lemma class_summary_keeps_totals_witness :
  (column "Class" xthree = Some (StrS ["B"; "A"; "B"]) /\
   column "ROP" xthree = Some (NumS (Some <$> [600; 200; 50]%R)) /\
   column "EOQ" xthree = Some (NumS (Some <$> [1900; 1400; 30]%R)) /\
   column "Total_Cost" xthree = Some (NumS (Some <$> [3800; 2200; 60]%R))) /\
  exists srs ses sts,
    class_summary xthree =
      Ok [("Class", StrS (group_keys ["B"; "A"; "B"]));
          ("ROP", NumS (Some <$> srs)); ("EOQ", NumS (Some <$> ses));
          ("Total_Cost", NumS (Some <$> sts))] /\
    rsum srs = rsum [600; 200; 50]%R /\
    rsum ses = rsum [1900; 1400; 30]%R /\
    rsum sts = rsum [3800; 2200; 60]%R.
Proof.
  split; [repeat split|].
  apply (class_summary_keeps_totals xthree ["B"; "A"; "B"]); reflexivity.
Defined.

Lemma delete_sku_removes_witness :
  table_ok session_table /\
  column "SKU" (frame session_table) = Some (StrS ["A 101"; "B 101"]) /\
  exists t',
    delete_sku "A 101" session_table = Done t' /\
    table_ok t' /\
    columns (frame t') = columns (frame session_table) /\
    column "SKU" (frame t') =
      Some (StrS (filter (fun s => s <> "A 101") ["A 101"; "B 101"])) /\
    (forall p sku, ["A 101"; "B 101"] !! p = Some sku -> sku <> "A 101" ->
       exists p', index t' !! p' = index session_table !! p /\
                  forall k, cell_at k (frame t') p' =
                            cell_at k (frame session_table) p) /\
    ("A 101" ∉ ["A 101"; "B 101"] -> t' = session_table) /\
    delete_sku "A 101" t' = Done t'.
Proof.
  split; [exact session_table_ok|]. split; [reflexivity|].
  apply (delete_sku_removes "A 101" session_table ["A 101"; "B 101"]);
    [exact session_table_ok|reflexivity].
Defined.

Lemma view_on_range_index_witness :
  (table_ok session_table /\
   index session_table = range_index 2 /\
   has_base (frame session_table) 2 /\
   column "SKU" (frame session_table) = Some (StrS ["A 101"; "B 101"]) /\
   column "Class" (frame session_table) = Some (StrS ["A"; "B"])) /\
  exists df_scenario rops eoqs texts summary,
    scenario_body "High Demand (+20%)" (frame session_table) =
      (df_scenario, Ok tt) /\
    column "ROP" df_scenario = Some (NumS rops) /\
    column "EOQ" df_scenario = Some (NumS eoqs) /\
    view "High Demand (+20%)" session_table = Done (texts, summary) /\
    class_summary df_scenario = Ok summary /\
    length texts = 2 /\
    forall i sku, ["A 101"; "B 101"] !! i = Some sku ->
      exists x y, rops !! i = Some x /\ eoqs !! i = Some y /\
                  texts !! i = Some (fadd x (of_int 5), y, sku).
Proof.
  split.
  { split; [exact session_table_ok|]. split; [reflexivity|].
    split; [exact has_base_session_data|]. split; reflexivity. }
  apply (view_on_range_index "High Demand (+20%)" session_table 2
           ["A 101"; "B 101"] ["A"; "B"]);
    [exact session_table_ok|reflexivity|exact has_base_session_data
    |reflexivity|reflexivity].
Defined.

Lemma view_after_delete_witness :
  (table_ok session_table /\
   index session_table = range_index 2 /\
   has_base (frame session_table) 2 /\
   column "SKU" (frame session_table) = Some (StrS ["A 101"; "B 101"]) /\
   column "Class" (frame session_table) = Some (StrS ["A"; "B"]) /\
   ["A 101"; "B 101"] !! 0 = Some "A 101" /\
   ["A 101"; "B 101"] !! 1 = Some "B 101" /\
   "B 101" <> "A 101" /\ 0 < 1) /\
  exists t' i,
    delete_sku "A 101" session_table = Done t' /\
    view "Base Case" t' = Fail (LabelKeyError i) /\
    i < length (index t') /\
    i ∉ index t'.
Proof.
  split.
  { split; [exact session_table_ok|]. split; [reflexivity|].
    split; [exact has_base_session_data|]. repeat split; try discriminate.
    lia. }
  apply (view_after_delete "Base Case" "A 101" "B 101" session_table 2
           ["A 101"; "B 101"] ["A"; "B"] 0 1);
    [exact session_table_ok|reflexivity|exact has_base_session_data
    |reflexivity|reflexivity|reflexivity|reflexivity|discriminate|lia].
Defined.

Lemma add_sku_appends_witness :
  table_ok session_table /\
  exists t',
    add_sku "C" "7" 1%float 1%float 1%float 1%float 0.5%float session_table =
      Done t' /\
    index t' = range_index 3 /\
    table_ok t' /\
    columns (frame t') = columns (frame session_table) /\
    (forall k p, p < 2 ->
       cell_at k (frame t') p = cell_at k (frame session_table) p) /\
    (forall k, is_Some (column k (frame session_table)) ->
       exists x,
         x ∈ sku_row (generate_sku_label "C" "7") "C"
               1%float 1%float 1%float 1%float 0.5%float /\
         cell_at k (frame t') 2 = Some x) /\
    (forall skus rest, frame session_table = ("SKU", StrS skus) :: rest ->
       column "SKU" (frame t') =
         Some (StrS (skus ++ [generate_sku_label "C" "7"]))).
Proof.
  split; [exact session_table_ok|]. eexists. split; [reflexivity|].
  apply (add_sku_appends "C" "7" 1%float 1%float 1%float 1%float 0.5%float
           session_table); [exact session_table_ok|reflexivity].
Defined.


Lemma update_sku_rewrites_one_row_witness :
  "B 101" <> "" /\
  well_formed session_table /\
  update_sku whole_numbers "B 101" "B" "102" 30.5%float 5%float 50%float
    150%float 1.5%float session_table =
    ({| index := range_index 2;
        frame := assign "SKU" (StrS ["A 101"; "B 102"]) session_data |},
     Fail (FrameError TypeError)) /\
  (exists t' skus p j,
     update_sku any_number "B 101" "B" "102" 30.5%float 5%float 50%float
       150%float 1.5%float session_table = (t', Done tt) /\
     column "SKU" (frame session_table) = Some (StrS skus) /\
     skus !! p = Some "B 101" /\
     (forall q, q < p -> skus !! q <> Some "B 101") /\
     index t' = index session_table /\
     well_formed t' /\
     columns (frame t') = columns (frame session_table) /\
     (forall k q, q <> p ->
        cell_at k (frame t') q = cell_at k (frame session_table) q) /\
     (forall i k v, frame session_table !! i = Some (k, v) ->
        exists v', frame t' !! i = Some (k, v') /\
          entry v' p =
            if decide (i < j)
            then sku_row (generate_sku_label "B" "102") "B"
               30.5%float 5%float 50%float 150%float 1.5%float !! i
            else entry v p) /\
     ((Done tt : outcome unit) = Done tt -> j = 7) /\
     ((Done tt : outcome unit) = Fail (FrameError TypeError) ->
        exists k v x,
          frame session_table !! j = Some (k, v) /\
          sku_row (generate_sku_label "B" "102") "B"
               30.5%float 5%float 50%float 150%float 1.5%float !! j = Some (CNum x) /\
          any_number k x = false)) /\
  (exists t' skus p j,
     update_sku whole_numbers "B 101" "B" "102" 30.5%float 5%float 50%float
       150%float 1.5%float session_table = (t', Fail (FrameError TypeError)) /\
     column "SKU" (frame session_table) = Some (StrS skus) /\
     skus !! p = Some "B 101" /\
     (forall q, q < p -> skus !! q <> Some "B 101") /\
     index t' = index session_table /\
     well_formed t' /\
     columns (frame t') = columns (frame session_table) /\
     (forall k q, q <> p ->
        cell_at k (frame t') q = cell_at k (frame session_table) q) /\
     (forall i k v, frame session_table !! i = Some (k, v) ->
        exists v', frame t' !! i = Some (k, v') /\
          entry v' p =
            if decide (i < j)
            then sku_row (generate_sku_label "B" "102") "B"
               30.5%float 5%float 50%float 150%float 1.5%float !! i
            else entry v p) /\
     ((Fail (FrameError TypeError) : outcome unit) = Done tt -> j = 7) /\
     ((Fail (FrameError TypeError) : outcome unit)
        = Fail (FrameError TypeError) ->
        exists k v x,
          frame session_table !! j = Some (k, v) /\
          sku_row (generate_sku_label "B" "102") "B"
               30.5%float 5%float 50%float 150%float 1.5%float !! j = Some (CNum x) /\
          whole_numbers k x = false)).
Proof.
  split; [discriminate|]. split; [exact session_table_well_formed|].
  split; [reflexivity|]. split.
  - eexists.
    destruct (update_sku_rewrites_one_row any_number "B 101" "B" "102" 30.5%float
                5%float 50%float 150%float 1.5%float session_table _ _
                ltac:(discriminate) session_table_well_formed eq_refl
                ltac:(left; reflexivity))
      as (skus & p & j & Hrest).
    exists skus, p, j. split; [reflexivity|exact Hrest].
  - eexists.
    destruct (update_sku_rewrites_one_row whole_numbers "B 101" "B" "102" 30.5%float
                5%float 50%float 150%float 1.5%float session_table _ _
                ltac:(discriminate) session_table_well_formed eq_refl
                ltac:(right; reflexivity))
      as (skus & p & j & Hrest).
    exists skus, p, j. split; [reflexivity|exact Hrest].
Defined.

Lemma update_form_outcome_witness :
  (column "SKU" (frame session_table) = Some (StrS ["A 101"; "B 101"]) /\
   column "Class" (frame session_table) = Some (StrS ["A"; "B"]) /\
   first_match "B 101" ["A 101"; "B 101"] = Some 1 /\
   ["A"; "B"] !! 1 = Some "B") /\
  exists i number nums,
    update_form "B 101" session_table = Done (1, i, number, nums) /\
    ["A"; "B"; "C"; "D"] !! i = Some "B" /\
    label_number "B 101" = Done number /\
    length nums = 5.
Proof.
  split; [repeat split|].
  apply (update_form_outcome "B 101" session_table ["A 101"; "B 101"]
           ["A"; "B"] 1 "B");
    [reflexivity|reflexivity|reflexivity|reflexivity|reflexivity| |].
  - rewrite !elem_of_cons. auto.
  - exact has_base_session_data.
Defined.


